(** * A shallow embedding of the powerwall Fleet API client

    The client of [client.go] and the endpoint layer of [api.go], with the
    custom JSON codecs of the types file, are embedded as functions over an
    explicit client state and an explicit world (clock, HTTP log, scripted
    replies).  The parts of Go's standard library the code calls are modelled
    in modules of their own ([GoInt], [time], [fmt], [strings], [json]). *)

From Stdlib Require Import ZArith String Ascii List Lia Bool SpecFloat.
From stdpp Require Import base option list gmap strings.

Local Open Scope string_scope.
Local Open Scope Z_scope.

(** ** Machine integers *)

Module GoInt.

(** Two's complement wrap-around of a 64-bit signed result ([int], [int64]
    and [time.Duration] on the 64-bit platforms Go targets). *)
Definition wrap64 (z : Z) : Z := (z + 2 ^ 63) mod 2 ^ 64 - 2 ^ 63.

Definition MinInt64 : Z := - 2 ^ 63.
Definition MaxInt64 : Z := 2 ^ 63 - 1.

Definition in_int64 (z : Z) : Prop := MinInt64 <= z <= MaxInt64.

Definition in_int64b (z : Z) : bool := (MinInt64 <=? z) && (z <=? MaxInt64).

Lemma wrap64_id (z : Z) : in_int64 z -> wrap64 z = z.
Proof.
  unfold in_int64, MinInt64, MaxInt64, wrap64. intros H.
  rewrite Z.mod_small; lia.
Qed.

Lemma wrap64_range (z : Z) : in_int64 (wrap64 z).
Proof.
  unfold in_int64, MinInt64, MaxInt64, wrap64.
  pose proof (Z.mod_pos_bound (z + 2 ^ 63) (2 ^ 64)). lia.
Qed.

Lemma in_int64b_spec (z : Z) : in_int64b z = true <-> in_int64 z.
Proof. unfold in_int64b, in_int64. rewrite andb_true_iff, !Z.leb_le. tauto. Qed.

End GoInt.

(** ** Decimal digits *)

Module Decimal.

Definition code (c : ascii) : Z := Z.of_N (N_of_ascii c).

Definition isDigit (c : ascii) : bool := (48 <=? code c) && (code c <=? 57).

Definition digitChar (d : Z) : ascii := ascii_of_N (Z.to_N (48 + d)).

(** The digit loop of [fmt]'s [%d] and of [time.fmtInt]: the decimal digits
    of [v > 0] are written in front of [tail], least significant first. *)
Fixpoint fmtDigits (fuel : nat) (v : Z) (tail : string) : string :=
  match fuel with
  | O => tail
  | S fuel' =>
      if v <=? 0 then tail
      else fmtDigits fuel' (v / 10) (String (digitChar (v mod 10)) tail)
  end.

(** Decimal digits of an unsigned 64-bit value in front of [tail]
    (20 digits at most). *)
Definition fmtUint (v : Z) (tail : string) : string :=
  if v =? 0 then String "0" tail else fmtDigits 20 v tail.

End Decimal.

(** ** Floating point values, as IEEE 754 binary floats *)

Module float.

(** [float64] and [float32] values: binary floats of precision 53 and 24. *)
Definition float64 : Type := spec_float.
Definition float32 : Type := spec_float.

Definition zero : spec_float := S754_zero false.

(** The conversion [float32(x)] of a [float64]: rounding to nearest even. *)
Definition float32_of_float64 (x : float64) : float32 :=
  match x with
  | S754_finite s m e => binary_round 24 128 s m e
  | _ => x
  end.

(** The conversion [float32(n)] of an integer. *)
Definition float32_of_int (n : Z) : float32 := binary_normalize 24 128 n 0 false.

(** [x / y] on [float32]. *)
Definition div32 (x y : float32) : float32 := SFdiv 24 128 x y.

(** The conversion [float64(n)] of an unsigned integer, and the product
    and quotient of two [float64], all rounding to nearest even. *)
Definition float64_of_uint64 (n : Z) : float64 := binary_normalize 53 1024 n 0 false.
Definition mul64 (x y : float64) : float64 := SFmul 53 1024 x y.
Definition div64 (x y : float64) : float64 := SFdiv 53 1024 x y.

(** The conversion [uint64(x)] of a [float64]: the fraction is discarded.
    Outside the range of uint64 Go leaves the result to the implementation;
    here a larger value is reduced modulo 2^64, and a negative value, an
    infinity or a NaN gives 0. *)
Definition uint64_of_float64 (x : float64) : Z :=
  match x with
  | S754_finite false m e =>
      match e with
      | Zneg p => Zpos m / 2 ^ Zpos p
      | _ => (Zpos m * 2 ^ e) mod 2 ^ 64
      end
  | _ => 0
  end.

End float.

(** ** Package time: instants and durations *)

Module time.

(** A [time.Duration] is an int64 count of nanoseconds. *)
Definition Duration : Type := Z.

(** A [time.Time] is an instant; it is kept as its (unbounded) count of
    nanoseconds since the Unix epoch. *)
Definition Time : Type := Z.

Definition Nanosecond : Duration := 1.
Definition Microsecond : Duration := 1000 * Nanosecond.
Definition Millisecond : Duration := 1000 * Microsecond.
Definition Second : Duration := 1000 * Millisecond.
Definition Minute : Duration := 60 * Second.
Definition Hour : Duration := 60 * Minute.

(** [a * b] and [a - b] on durations: int64 arithmetic. *)
Definition mul (a b : Duration) : Duration := GoInt.wrap64 (a * b).
Definition sub (a b : Duration) : Duration := GoInt.wrap64 (a - b).

(** The zero [Time] (January 1, year 1, 00:00 UTC), the value of a
    [time.Time] field that was never assigned. *)
Definition zeroTime : Time := - 62135596800 * Second.

(** [t.Add(d)]. *)
Definition Add (t : Time) (d : Duration) : Time := t + d.

(** [t.Sub(u)]: the difference, saturated to the range of a [Duration]. *)
Definition Sub (t u : Time) : Duration :=
  Z.max GoInt.MinInt64 (Z.min GoInt.MaxInt64 (t - u)).

(** [t.After(u)]: [t] is strictly later than [u]. *)
Definition After (t u : Time) : bool := u <? t.

(** *** [Duration.String] *)

(** The loop of [fmtFrac]: [prec] digits of [v], least significant first,
    are written in front of [tail] once a non-zero digit has been seen
    (trailing zeros are omitted). *)
Fixpoint fmtFracLoop (prec : nat) (v : Z) (print : bool) (tail : string)
  : string * Z * bool :=
  match prec with
  | O => (tail, v, print)
  | S prec' =>
      let digit := v mod 10 in
      let print := print || negb (digit =? 0) in
      fmtFracLoop prec' (v / 10) print
        (if print then String (Decimal.digitChar digit) tail else tail)
  end.

(** [fmtFrac(buf, v, prec)]: the fraction of [v / 10^prec] in front of
    [tail] (the decimal point too, unless the fraction is 0), and
    [v / 10^prec]. *)
Definition fmtFrac (tail : string) (v : Z) (prec : nat) : string * Z :=
  let '(w, v', print) := fmtFracLoop prec v false tail in
  (if print then String "." w else w, v').

(** [fmtInt(buf, v)]: the decimal digits of [v] in front of [tail]. *)
Definition fmtInt (tail : string) (v : Z) : string := Decimal.fmtUint v tail.

(** The unit of microseconds as [Duration_String] writes it: U+00B5 and [s]. *)
Definition microSign : string := String "194" (String "181" "s").

(** The unit of microseconds with the Greek letter mu, U+03BC. *)
Definition greekMu : string := String "206" (String "188" "s").

(** [d.String()]: [u] is the magnitude [uint64(d)], negated for [d < 0]. *)
Definition Duration_String (d : Duration) : string :=
  let u := Z.abs d in
  let neg := d <? 0 in
  let w :=
    if u <? Second then
      if u =? 0 then "0s"
      else
        let '(unitName, prec) :=
          if u <? Microsecond then ("ns", 0%nat)
          else if u <? Millisecond then (microSign, 3%nat)
          else ("ms", 6%nat) in
        let '(w, u') := fmtFrac unitName u prec in
        fmtInt w u'
    else
      let '(w, u1) := fmtFrac "s" u 9 in
      let w := fmtInt w (u1 mod 60) in
      let u2 := u1 / 60 in
      if 0 <? u2 then
        let w := fmtInt (String "m" w) (u2 mod 60) in
        let u3 := u2 / 60 in
        if 0 <? u3 then fmtInt (String "h" w) u3 else w
      else w in
  if neg then String "-" w else w.

(** *** [ParseDuration] *)

(** [leadingInt]: the leading digits as a uint64, with the remainder; an
    overflow past [1<<63] is an error ([None]). *)
Fixpoint leadingIntLoop (x : Z) (s : string) : option (Z * string) :=
  match s with
  | EmptyString => Some (x, s)
  | String c s' =>
      if negb (Decimal.isDigit c) then Some (x, s)
      else if 2 ^ 63 / 10 <? x then None
      else
        let x' := x * 10 + (Decimal.code c - 48) in
        if 2 ^ 63 <? x' then None else leadingIntLoop x' s'
  end.

Definition leadingInt (s : string) : option (Z * string) := leadingIntLoop 0 s.

(** [leadingFraction]: the leading digits as a uint64 with the power of ten
    that scales them; digits past an overflow are skipped. *)
Fixpoint leadingFractionLoop (x scale : Z) (overflow : bool) (s : string)
  : Z * Z * string :=
  match s with
  | EmptyString => (x, scale, s)
  | String c s' =>
      if negb (Decimal.isDigit c) then (x, scale, s)
      else if overflow then leadingFractionLoop x scale overflow s'
      else if (2 ^ 63 - 1) / 10 <? x then leadingFractionLoop x scale true s'
      else
        let y := x * 10 + (Decimal.code c - 48) in
        if 2 ^ 63 <? y then leadingFractionLoop x scale true s'
        else leadingFractionLoop y (scale * 10) false s'
  end.

Definition leadingFraction (s : string) : Z * Z * string :=
  leadingFractionLoop 0 1 false s.

(** The unit: everything up to the next digit or period. *)
Fixpoint spanUnit (s : string) : string * string :=
  match s with
  | EmptyString => (EmptyString, EmptyString)
  | String c s' =>
      if (Decimal.code c =? 46) || Decimal.isDigit c then (EmptyString, s)
      else let '(u, rest) := spanUnit s' in (String c u, rest)
  end.

Definition unitMap : gmap string Z :=
  {[ "ns" := Nanosecond;
     "us" := Microsecond;
     microSign := Microsecond;
     greekMu := Microsecond;
     "ms" := Millisecond;
     "s" := Second;
     "m" := Minute;
     "h" := Hour ]}.

(** The nanoseconds of the fraction [f / scale] of a [unit]:
    [uint64(float64(f) * (float64(unit) / scale))], in float64 as in Go.
    ([scale] is a float64 there, a power of ten of at most 19 digits and so
    held exactly; it is kept as an integer and converted here.) *)
Definition fractionOf (f unit scale : Z) : Z :=
  float.uint64_of_float64
    (float.mul64 (float.float64_of_uint64 f)
       (float.div64 (float.float64_of_uint64 unit) (float.float64_of_uint64 scale))).

Definition invalidDuration : string := "time: invalid duration".

(** One pass of the loop body of [ParseDuration] on a non-empty [s]:
    a number, an optional fraction, a unit; the total so far is [d]. *)
Definition parseSegment (s : string) (d : Z) : string + (string * Z) :=
  match s with
  | EmptyString => inl invalidDuration
  | String c _ =>
      if negb ((Decimal.code c =? 46) || Decimal.isDigit c) then inl invalidDuration
      else
        match leadingInt s with
        | None => inl invalidDuration
        | Some (v, s1) =>
            let pre := negb (String.length s =? String.length s1)%nat in
            let '(f, scale, s2, post) :=
              match s1 with
              | String dot s1' =>
                  if Decimal.code dot =? 46 then
                    let '(f, scale, s2) := leadingFraction s1' in
                    (f, scale, s2, negb (String.length s1' =? String.length s2)%nat)
                  else (0, 1, s1, false)
              | EmptyString => (0, 1, s1, false)
              end in
            if negb pre && negb post then inl invalidDuration
            else
              let '(u, s3) := spanUnit s2 in
              match u with
              | EmptyString => inl "time: missing unit in duration"
              | _ =>
                  match unitMap !! u with
                  | None => inl "time: unknown unit in duration"
                  | Some unit =>
                      if 2 ^ 63 / unit <? v then inl invalidDuration
                      else
                        let v := v * unit in
                        let v := if 0 <? f then v + fractionOf f unit scale else v in
                        if (0 <? f) && (2 ^ 63 <? v) then inl invalidDuration
                        else
                          let d := (d + v) mod 2 ^ 64 in
                          if 2 ^ 63 <? d then inl invalidDuration
                          else inr (s3, d)
                  end
              end
        end
  end.

(** The loop [for s != ""]; every pass consumes at least the unit, so the
    length of the input bounds the number of passes. *)
Fixpoint parseSegments (fuel : nat) (s : string) (d : Z) : string + Z :=
  match s with
  | EmptyString => inr d
  | _ =>
      match fuel with
      | O => inl invalidDuration
      | S fuel' =>
          match parseSegment s d with
          | inl msg => inl msg
          | inr (s', d') => parseSegments fuel' s' d'
          end
      end
  end.

(** [ParseDuration(s)]: the duration, or the error's message (without the
    quoted input Go appends to it). *)
Definition ParseDuration (s : string) : string + Duration :=
  let '(neg, s) :=
    match s with
    | String c s' =>
        if (Decimal.code c =? 45) || (Decimal.code c =? 43)
        then (Decimal.code c =? 45, s')
        else (false, s)
    | EmptyString => (false, s)
    end in
  if String.eqb s "0" then inr 0
  else if String.eqb s "" then inl invalidDuration
  else
    match parseSegments (String.length s) s 0 with
    | inl msg => inl msg
    | inr d =>
        if neg then inr (GoInt.wrap64 (- GoInt.wrap64 d))
        else if 2 ^ 63 - 1 <? d then inl invalidDuration
        else inr d
    end.


End time.

(** ** The typed errors of the library (the error types file) *)

Inductive error : Type :=
| ApiError (URL : string) (StatusCode : Z) (Body : string)
| AuthFailure (URL ErrorText Message : string)
| TokenExpiredError (Token : string) (ExpiresAt : time.Time)
| RateLimitError (Endpoint : string) (Limit Remaining : Z)
    (ResetTime : time.Time) (RetryAfter : Z)
| UnsupportedError (Operation Reason : string)
| EnergyProductError (EnergyProductID : Z) (ErrorType Message : string)
| PlainError (msg : string)       (* fmt.Errorf: a plain descriptive failure *)
| TransportError (msg : string)   (* net/http and io failures, opaque *)
| JsonError (msg : string).       (* encoding/json failures, opaque *)

(** What a call comes back with: a value, a returned [error], or a run-time
    panic that unwinds through every caller. *)
Inductive Result (A : Type) : Type :=
| Ok (a : A)
| Err (e : error)
| Panic (msg : string).

Arguments Ok {A} a.
Arguments Err {A} e.
Arguments Panic {A} msg.

(** ** Client session state and the world it talks to *)

Record RateLimitConfig : Type := mkRateLimitConfig {
  RealtimeDataRPM : Z;
  CommandsRPM : Z;
  MaxMonthlyCost : Z
}.

Record Client : Type := mkClient {
  accessToken : string;
  refreshToken : string;
  clientID : string;
  tokenExpiry : time.Time;
  selectedSiteID : Z;
  rateLimitConfig : RateLimitConfig;
  lastRequestTime : time.Time
}.

Record Request : Type := mkRequest {
  Method : string;
  URL : string;
  Header : list (string * string);
  Body : option string
}.

Record Response : Type := mkResponse {
  StatusCode : Z;
  RespHeader : gmap string (list string);
  RespBody : string
}.

(** One scripted HTTP exchange: how long it takes and what comes back, a
    transport (or body read) failure or a fully read response. *)
Record Exchange : Type := mkExchange {
  took : time.Duration;
  reply : error + Response
}.

(** The world: an injected clock, the log of every request handed to the
    HTTP client (most recent last), and the replies still to come. *)
Record World : Type := mkWorld {
  clock : time.Time;
  sent : list Request;
  script : list Exchange
}.

Record State : Type := mkState {
  client : Client;
  world : World
}.

(** ** The state-and-error monad of the pipeline *)

Definition M (A : Type) : Type := State -> Result A * State.

Definition ret {A : Type} (a : A) : M A := fun st => (Ok a, st).

Definition fail {A : Type} (e : error) : M A := fun st => (Err e, st).

Definition panic {A : Type} (msg : string) : M A := fun st => (Panic msg, st).

Definition bind {A B : Type} (m : M A) (k : A -> M B) : M B :=
  fun st =>
    match m st with
    | (Ok a, st') => k a st'
    | (Err e, st') => (Err e, st')
    | (Panic msg, st') => (Panic msg, st')
    end.

Notation "'do' x <- m ; k" := (bind m (fun x => k))
  (at level 10, x name, m at level 100, k at level 200).
Notation "'run' m ; k" := (bind m (fun _ => k))
  (at level 10, m at level 100, k at level 200).

Definition getClient : M Client := fun st => (Ok (client st), st).

Definition modifyClient (f : Client -> Client) : M unit :=
  fun st => (Ok tt, mkState (f (client st)) (world st)).

(** [time.Now()]: reads the injected clock. *)
Definition Now : M time.Time := fun st => (Ok (clock (world st)), st).

(** [time.Sleep(d)]: returns at once for [d <= 0], else after [d]. *)
Definition Sleep (d : time.Duration) : M unit :=
  fun st =>
    let w := world st in
    (Ok tt, mkState (client st) (mkWorld (clock w + Z.max 0 d) (sent w) (script w))).

(** [httpClient.Do(req)] followed by [io.ReadAll(resp.Body)]: the request
    is logged, the next scripted exchange is consumed and its time passes.
    With no exchange left the transport fails. *)
Definition httpDo (req : Request) : M Response :=
  fun st =>
    let w := world st in
    match script w with
    | [] =>
        (Err (TransportError "no reply"),
         mkState (client st) (mkWorld (clock w) (sent w ++ [req]) []))
    | x :: rest =>
        let w' := mkWorld (clock w + Z.max 0 (took x)) (sent w ++ [req]) rest in
        match reply x with
        | inl e => (Err e, mkState (client st) w')
        | inr resp => (Ok resp, mkState (client st) w')
        end
    end.

(** Field updates of the client, as the assignments in the source. *)
Definition set_accessToken (v : string) (c : Client) : Client :=
  mkClient v (refreshToken c) (clientID c) (tokenExpiry c) (selectedSiteID c)
    (rateLimitConfig c) (lastRequestTime c).

Definition set_refreshToken (v : string) (c : Client) : Client :=
  mkClient (accessToken c) v (clientID c) (tokenExpiry c) (selectedSiteID c)
    (rateLimitConfig c) (lastRequestTime c).

Definition set_tokenExpiry (v : time.Time) (c : Client) : Client :=
  mkClient (accessToken c) (refreshToken c) (clientID c) v (selectedSiteID c)
    (rateLimitConfig c) (lastRequestTime c).

Definition set_selectedSiteID (v : Z) (c : Client) : Client :=
  mkClient (accessToken c) (refreshToken c) (clientID c) (tokenExpiry c) v
    (rateLimitConfig c) (lastRequestTime c).

Definition set_RealtimeDataRPM (v : Z) (c : Client) : Client :=
  mkClient (accessToken c) (refreshToken c) (clientID c) (tokenExpiry c)
    (selectedSiteID c)
    (mkRateLimitConfig v (CommandsRPM (rateLimitConfig c))
       (MaxMonthlyCost (rateLimitConfig c)))
    (lastRequestTime c).

Definition set_lastRequestTime (v : time.Time) (c : Client) : Client :=
  mkClient (accessToken c) (refreshToken c) (clientID c) (tokenExpiry c)
    (selectedSiteID c) (rateLimitConfig c) v.

(** ** client.go: construction, tokens and the rate limiter *)

Definition FleetAPIBaseURL : string := "https://fleet-api.prd.na.vn.cloud.tesla.com".
Definition TokenURL : string := "https://fleet-auth.prd.vn.cloud.tesla.com/oauth2/v3/token".

(** [NewClient] without options: the token expiry, the selected site and
    the last request time start at their zero values. *)
Definition NewClient (clientID accessToken refreshToken : string) : Client :=
  mkClient accessToken refreshToken clientID time.zeroTime 0
    (mkRateLimitConfig 60 30 10) time.zeroTime.

Definition SetRateLimit (requestsPerMinute : Z) : M unit :=
  modifyClient (set_RealtimeDataRPM requestsPerMinute).

(** [IsTokenExpired]: [time.Now().Add(5 * time.Minute).After(c.tokenExpiry)]. *)
Definition IsTokenExpired : M bool :=
  do now <- Now;
  do c <- getClient;
  ret (time.After (time.Add now (5 * time.Minute)) (tokenExpiry c)).

(** The interval of [rateLimitWait]:
    [time.Duration(60/c.rateLimitConfig.RealtimeDataRPM) * time.Second],
    where [/] is Go's integer division (truncating; a zero divisor panics). *)
Definition rateLimitInterval (rpm : Z) : option time.Duration :=
  if rpm =? 0 then None else Some (time.mul (60 ÷ rpm) time.Second).

(** [rateLimitWait] (the mutex it holds is not modelled: calls are
    sequential here). *)
Definition rateLimitWait : M unit :=
  do c <- getClient;
  match rateLimitInterval (RealtimeDataRPM (rateLimitConfig c)) with
  | None => panic "runtime error: integer divide by zero"
  | Some interval =>
      do now <- Now;
      let elapsed := time.Sub now (lastRequestTime c) in
      run (if elapsed <? interval
           then Sleep (time.sub interval elapsed)
           else ret tt);
      do now' <- Now;
      modifyClient (set_lastRequestTime now')
  end.

(** The token accessors. *)
Definition SetRefreshToken (token : string) : M unit :=
  modifyClient (set_refreshToken token).

Definition GetRefreshToken : M string :=
  do c <- getClient;
  ret (refreshToken c).

Definition GetAuthToken : M string :=
  do c <- getClient;
  ret (accessToken c).

Definition SetAuthToken (token : string) : M unit :=
  modifyClient (set_accessToken token).

(** [GetRateLimitStatus] and [GetAPIUsageStats], the two placeholders:
    [return 60, time.Now().Add(time.Minute), nil] and [return 0, 0.0, nil]. *)
Definition GetRateLimitStatus : M (Z * time.Time) :=
  do now <- Now;
  ret (60, time.Add now time.Minute).

Definition GetAPIUsageStats : M (Z * float.float64) :=
  ret (0, float.zero).

(** ** Package fmt: the two verbs the client uses *)

Module fmt.

Import Decimal.

(** [fmt.Sprintf("%d", v)] for an [int] or [int64]. *)
Definition Sprintf_d (v : Z) : string :=
  if v <? 0 then String "-" (fmtUint (- v) "") else fmtUint v "".

(** The runes [fmt] treats as space that take three bytes in UTF-8:
    U+1680, U+2000..U+200A, U+2028, U+2029, U+202F, U+205F, U+3000. *)
Definition isSpace3 (a b c : Z) : bool :=
  ((a =? 225) && (b =? 154) && (c =? 128))
  || ((a =? 226) && (b =? 128)
      && (((128 <=? c) && (c <=? 138)) || (c =? 168) || (c =? 169) || (c =? 175)))
  || ((a =? 226) && (b =? 129) && (c =? 159))
  || ((a =? 227) && (b =? 128) && (c =? 128)).

(** [ss.SkipSpace] of a [Sscanf]: spaces are skipped, a newline is an
    error ([None]).  One-byte spaces are U+0009..U+000D and U+0020, the
    two-byte ones U+0085 and U+00A0. *)
Fixpoint SkipSpace (s : string) : option string :=
  match s with
  | EmptyString => Some s
  | String c0 s1 =>
      let a := code c0 in
      if a =? 10 then None
      else if ((9 <=? a) && (a <=? 13)) || (a =? 32) then SkipSpace s1
      else
        match s1 with
        | EmptyString => Some s
        | String c1 s2 =>
            let b := code c1 in
            if (a =? 194) && ((b =? 133) || (b =? 160)) then SkipSpace s2
            else
              match s2 with
              | EmptyString => Some s
              | String c2 s3 =>
                  if isSpace3 a b (code c2) then SkipSpace s3 else Some s
              end
        end
  end.

(** The value of a run of decimal digits, most significant first. *)
Fixpoint digitsValue (acc : Z) (s : string) : Z :=
  match s with
  | EmptyString => acc
  | String c s' => digitsValue (10 * acc + (code c - 48)) s'
  end.

(** The longest prefix of digits, and what follows it. *)
Fixpoint spanDigits (s : string) : string * string :=
  match s with
  | EmptyString => (EmptyString, EmptyString)
  | String c s' =>
      if isDigit c
      then let '(ds, rest) := spanDigits s' in (String c ds, rest)
      else (EmptyString, s)
  end.

(** [ss.scanInt] for the verb [%d] into an [int]: optional space, an
    optional sign, at least one digit, and [strconv.ParseInt(tok, 10, 64)]
    on the token; any failure leaves the operand unassigned ([None]). *)
Definition scanInt (s : string) : option Z :=
  match SkipSpace s with
  | None => None
  | Some EmptyString => None
  | Some (String c rest as s1) =>
      let neg := (code c =? 45) in
      let s2 := if (code c =? 43) || (code c =? 45) then rest else s1 in
      let '(tok, _) := spanDigits s2 in
      match tok with
      | EmptyString => None
      | _ =>
          let v := if neg then - digitsValue 0 tok else digitsValue 0 tok in
          if GoInt.in_int64b v then Some v else None
      end
  end.

(** [fmt.Sscanf(s, "%d", &v)] with the result ignored: the value [v] holds
    afterwards, given the value [old] it held before. *)
Definition Sscanf_d (s : string) (old : Z) : Z :=
  match scanInt s with
  | Some v => v
  | None => old
  end.

End fmt.

(** ** Package strings *)

Module strings.

(** [strings.Replace(s, old, new, -1)] for a one-byte [old]: every
    occurrence of the byte is replaced. *)
Fixpoint ReplaceByte (s : string) (old : ascii) (new : string) : string :=
  match s with
  | EmptyString => EmptyString
  | String c s' =>
      if Ascii.eqb c old then new +:+ ReplaceByte s' old new
      else String c (ReplaceByte s' old new)
  end.

End strings.

(** ** Package encoding/json: marshalling a string *)

Module json.

Import Decimal.

(** The double quote, as a byte and as a one-byte string. *)
Definition quoteByte : ascii := "034".
Definition quote : string := String quoteByte EmptyString.

(** [htmlSafeSet]: the ASCII bytes written as they are. *)
Definition htmlSafe (b : Z) : bool :=
  (32 <=? b) && (b <? 128)
  && negb ((b =? 34) || (b =? 92) || (b =? 60) || (b =? 62) || (b =? 38)).

Definition hex (n : Z) : ascii :=
  if n <? 10 then ascii_of_N (Z.to_N (48 + n)) else ascii_of_N (Z.to_N (87 + n)).

(** The escape of an ASCII byte outside [htmlSafeSet] (as of Go 1.22,
    which writes backspace and form feed in their short forms). *)
Definition escapeByte (b : Z) : string :=
  if (b =? 92) || (b =? 34) then String "\" (String (ascii_of_N (Z.to_N b)) EmptyString)
  else if b =? 8 then "\b"
  else if b =? 12 then "\f"
  else if b =? 10 then "\n"
  else if b =? 13 then "\r"
  else if b =? 9 then "\t"
  else "\u00" +:+ String (hex (b / 16)) (String (hex (b mod 16)) EmptyString).

Definition continuation (b : Z) : bool := (128 <=? b) && (b <=? 191).

(** [utf8.DecodeRuneInString] on a first byte [a >= 0x80] and what follows:
    the size of the encoding, 0 when it is invalid. *)
Definition runeSize (a : Z) (rest : string) : nat :=
  match rest with
  | EmptyString => 0
  | String c1 rest1 =>
      let b := code c1 in
      if (194 <=? a) && (a <=? 223) then (if continuation b then 2 else 0)
      else
        match rest1 with
        | EmptyString => 0
        | String c2 rest2 =>
            let c := code c2 in
            if (224 <=? a) && (a <=? 239) then
              let lo := if a =? 224 then 160 else 128 in
              let hi := if a =? 237 then 159 else 191 in
              if (lo <=? b) && (b <=? hi) && continuation c then 3 else 0
            else
              match rest2 with
              | EmptyString => 0
              | String c3 _ =>
                  if (240 <=? a) && (a <=? 244) then
                    let lo := if a =? 240 then 144 else 128 in
                    let hi := if a =? 244 then 143 else 191 in
                    if (lo <=? b) && (b <=? hi) && continuation c
                       && continuation (code c3)
                    then 4 else 0
                  else 0
              end
        end
  end.

(** U+2028 and U+2029 (E2 80 A8, E2 80 A9), which are always escaped:
    the last hex digit of the rune, if the bytes are one of the two. *)
Definition lineSeparator (a : Z) (rest : string) : option ascii :=
  match rest with
  | String c1 (String c2 _) =>
      if (a =? 226) && (code c1 =? 128) then
        if code c2 =? 168 then Some "8"%char
        else if code c2 =? 169 then Some "9"%char
        else None
      else None
  | _ => None
  end.

(** The loop of [appendString] with HTML escaping on.  [pending] counts
    the bytes of the current rune still to pass over, copied or (after an
    escape was written for the rune) skipped. *)
Fixpoint appendStringLoop (skip : bool) (pending : nat) (s : string) : string :=
  match s with
  | EmptyString => quote
  | String c s' =>
      match pending with
      | S n =>
          if skip then appendStringLoop skip n s'
          else String c (appendStringLoop skip n s')
      | O =>
          let b := code c in
          if b <? 128 then
            if htmlSafe b then String c (appendStringLoop false 0 s')
            else escapeByte b +:+ appendStringLoop false 0 s'
          else
            match runeSize b s' with
            | O => "\ufffd" +:+ appendStringLoop false 0 s'
            | S n =>
                match lineSeparator b s' with
                | Some h =>
                    "\u202" +:+ String h (appendStringLoop true n s')
                | None => String c (appendStringLoop false n s')
                end
            end
      end
  end.

(** [json.Marshal(s)] of a string [s]: it never fails. *)
Definition MarshalString (s : string) : string :=
  String quoteByte (appendStringLoop false 0 s).

End json.

(** ** The custom JSON codecs of the types file *)

(** [NonIsoTime], a [time.Time] with a decoder for the layout of the
    status call's start time (the decoder is not modelled). *)
Module NonIsoTime.
Record t : Type := mk { Time : time.Time }.
End NonIsoTime.

(** [Duration], a [time.Duration] with its own JSON methods. *)
Module Duration.

Record t : Type := mk { Duration : time.Duration }.

(** [(v *Duration) UnmarshalJSON(p)]: the new [*v] and the error returned
    (the message of [ParseDuration]'s, if it failed). *)
Definition UnmarshalJSON (v : t) (p : string) : t * option string :=
  match time.ParseDuration (strings.ReplaceByte p json.quoteByte EmptyString) with
  | inr d => (mk d, None)
  | inl err => (v, Some err)
  end.

(** [(v *Duration) MarshalJSON()]: [json.Marshal(v.String())]. *)
Definition MarshalJSON (v : t) : string * option string :=
  (json.MarshalString (time.Duration_String (Duration v)), None).

End Duration.


(** ** encoding/json and net/url, as the interfaces the client calls *)

(** [json.Unmarshal(data, &v)] into a zero-valued [v] of type [A]: the
    decoded value or the decoder's error. *)
Class Unmarshal (A : Type) : Type := json_Unmarshal : string -> error + A.

(** The values the client puts into a [map[string]interface{}] payload. *)
Inductive JValue : Type :=
| JInt (n : Z)
| JBool (b : bool)
| JString (s : string).

(** A value held in an [interface{}] once [encoding/json] has decoded into
    it: nil, a bool, a float64, a string, a [[]interface{}] or a
    [map[string]interface{}]. *)
#[warnings="-register-all"]
Inductive any : Type :=
| AnyNil
| AnyBool (b : bool)
| AnyNumber (x : float.float64)
| AnyString (s : string)
| AnyArray (xs : list any)
| AnyObject (m : gmap string any).

(** [DecodedAlert], a [map[string]interface{}] with its own decoder; the
    nil map is [None]. *)
Module DecodedAlert.

Definition t : Type := option (gmap string any).

Record entry : Type := mkEntry {
  Name : string;
  Value : any
}.

(** [(v *DecodedAlert) UnmarshalJSON(data)]: the new [*v] and the error
    returned.  The first decoder is [json.Unmarshal] into a string, the
    second into the (empty, non-nil) slice of entries. *)
Definition UnmarshalJSON `{Unmarshal string} `{Unmarshal (list entry)}
    (v : t) (data : string) : t * option error :=
  match json_Unmarshal (A := string) data with
  | inl err => (v, Some err)
  | inr strvalue =>
      if String.eqb strvalue "" then (v, None)
      else
        match json_Unmarshal (A := list entry) strvalue with
        | inl err => (v, Some err)
        | inr entries =>
            (Some (fold_left (fun (m : gmap string any) e => <[Name e := Value e]> m)
                     entries ∅),
             None)
        end
  end.

End DecodedAlert.

(** The OAuth token endpoint's reply, as [RefreshToken] decodes it. *)
Module tokenResp.
Record t : Type := mk {
  AccessToken : string;
  RefreshToken : string;
  ExpiresIn : Z;
  TokenType : string
}.
End tokenResp.

(** [http.Header.Get]: the first value under the key, or the empty string. *)
Definition Header_Get (h : gmap string (list string)) (key : string) : string :=
  match h !! key with
  | Some (v :: _) => v
  | _ => ""
  end.

(** ** The data model (the types file) *)

Record MeterAggregatesData : Type := mkMeterAggregatesData {
  LastCommunicationTime : time.Time;
  InstantPower : float.float32;
  InstantReactivePower : float.float32;
  InstantApparentPower : float.float32;
  Frequency : float.float32;
  EnergyExported : float.float32;
  EnergyImported : float.float32;
  InstantAverageVoltage : float.float32;
  InstantAverageCurrent : float.float32;
  IACurrent : float.float32;
  IBCurrent : float.float32;
  ICCurrent : float.float32;
  LastPhaseVoltageCommunicationTime : time.Time;
  LastPhasePowerCommunicationTime : time.Time;
  Timeout : Z;
  NumMetersAggregated : Z;
  InstantTotalCurrent : float.float32
}.

(** The composite literal [MeterAggregatesData{LastCommunicationTime: t,
    InstantPower: p}]: every other field keeps its zero value. *)
Definition MeterAggregatesData_of (t : time.Time) (p : float.float32)
  : MeterAggregatesData :=
  mkMeterAggregatesData t p float.zero float.zero float.zero float.zero
    float.zero float.zero float.zero float.zero float.zero float.zero
    time.zeroTime time.zeroTime 0 0 float.zero.

Record GridStatusData : Type := mkGridStatusData {
  GridStatus : string;
  GridServicesActive : bool
}.

Record SOEData : Type := mkSOEData {
  Percentage : float.float64
}.

Record StatusData : Type := mkStatusData {
  Din : string;
  StartTime : NonIsoTime.t;
  UpTime : Duration.t;
  IsNew : bool;
  Version : string;
  GitHash : string;
  CommissionCount : Z;
  DeviceType : string;
  SyncType : string;
  Leader : string;
  Followers : option JValue;      (* interface{} *)
  CellularDisabled : bool
}.

Record GridData_t : Type := mkGridData {
  GridCode : string;
  GridVoltageSetting : Z;
  GridFreqSetting : Z;
  GridPhaseSetting : string;
  Country : string;
  State_ : string;
  Distributor : string;
  Utility : string;
  Retailer : string;
  Region : string
}.

Record SiteInfoData : Type := mkSiteInfoData {
  SiteName : string;
  TimeZone : string;
  MaxSiteMeterPowerKW : Z;
  MinSiteMeterPowerKW : Z;
  MeasuredFrequency : float.float32;
  MaxSystemEnergyKWH : float.float32;
  MaxSystemPowerKW : float.float32;
  NominalSystemEnergyKWH : float.float32;
  NominalSystemPowerKW : float.float32;
  GridData : GridData_t
}.

(** [EnergyProduct]; the two [map[string]interface{}] fields are kept as
    the raw JSON text of each entry. *)
Record EnergyProduct : Type := mkEnergyProduct {
  EnergyProductID : Z;
  ep_DeviceType : string;
  ResourceType : string;
  ep_SiteName : string;
  ID : string;
  GatewayID : string;
  AssetSiteID : string;
  WarpSiteNumber : string;
  ep_PercentageCharged : option float.float64;
  BatteryType : string;
  ep_BatteryPower : option float.float64;
  StormModeEnabled : option bool;
  Components : gmap string string;
  Features : gmap string string
}.

Record ProductsResponse : Type := mkProductsResponse {
  pr_Response : list EnergyProduct;
  Count : Z
}.

(** [LiveStatusResponse.Response]; a pointer field is [None] when the JSON
    member is absent (or null). *)
Record LiveStatus : Type := mkLiveStatus {
  SolarPower : option float.float64;
  BatteryPower : option float.float64;
  LoadPower : option float.float64;
  GridPower : option float.float64;
  EnergyLeft : option float.float64;
  TotalPackEnergy : option float.float64;
  PercentageCharged : option float.float64;
  ls_GridStatus : string;
  IslandStatus : string;
  StormModeActive : bool;
  ls_GridServicesActive : bool;
  Timestamp : time.Time;
  Site : option MeterAggregatesData;
  Solar : option MeterAggregatesData;
  Battery : option MeterAggregatesData;
  Load : option MeterAggregatesData
}.

Record LiveStatusResponse : Type := mkLiveStatusResponse {
  ls_Response : LiveStatus
}.

(** [SiteInfoResponse.Response], the members [GetSiteInfo] reads. *)
Record SiteInfo : Type := mkSiteInfo {
  si_SiteName : string;
  NameplatePower : Z;
  InstallationTimeZone : string;
  MaxSiteMeterPowerAC : Z;
  MinSiteMeterPowerAC : Z;
  si_Utility : string
}.

Record SiteInfoResponse : Type := mkSiteInfoResponse {
  si_Response : SiteInfo
}.

Record TimePoint : Type := mkTimePoint {
  tp_Timestamp : time.Time;
  tp_SolarPower : option float.float64;
  tp_BatteryPower : option float.float64;
  tp_GridPower : option float.float64;
  GridServicesPower : option float.float64;
  GeneratorPower : option float.float64;
  SolarEnergyExported : option float.float64;
  GridEnergyImported : option float.float64;
  GridEnergyExported : option float.float64;
  BatteryEnergyExported : option float.float64;
  BatteryEnergyImported : option float.float64;
  ConsumerEnergyImported : option float.float64
}.

Record HistoryData : Type := mkHistoryData {
  SerialNumber : string;
  Period : string;
  TimeSeries : list TimePoint
}.

(** The anonymous [struct { Response HistoryData }] of the history calls. *)
Record historyResponse : Type := mkHistoryResponse {
  hr_Response : HistoryData
}.

(** The results of the calls the Fleet API does not serve. *)
Module OperationData.
Record t : Type := mk {
  RealMode : string;
  BackupReservePercent : float.float64;
  FreqShiftLoadShedSoe : float.float64;
  FreqShiftLoadShedDeltaF : float.float64
}.
End OperationData.

Module GridFaultData.
Record t : Type := mk {
  Timestamp : Z;
  AlertName : string;
  AlertIsFault : bool;
  DecodedAlert : DecodedAlert.t;
  AlertRaw : Z;
  GitHash : string;
  SiteUID : string;
  EcuType : string;
  EcuPackagePartNumber : string;
  EcuPackageSerialNumber : string
}.
End GridFaultData.

Module SystemStatusData.
Record t : Type := mk {
  CommandSource : string;
  BatteryTargetPower : float.float64;
  BatteryTargetReactivePower : float.float64;
  NominalFullPackEnergy : float.float64;
  NominalEnergyRemaining : float.float64;
  MaxPowerEnergyRemaining : float.float64;
  MaxPowerEnergyToBeCharged : float.float64;
  MaxChargePower : float.float64;
  MaxDischargePower : float.float64;
  MaxApparentPower : float.float64;
  InstantaneousMaxDischargePower : float.float64;
  InstantaneousMaxChargePower : float.float64;
  GridServicesPower : float.float64;
  SystemIslandState : string;
  AvailableBlocks : Z;
  BatteryBlocks : list any;
  FfrPowerAvailabilityHigh : float.float64;
  FfrPowerAvailabilityLow : float.float64;
  LoadChargeConstraint : float.float64;
  MaxSustainedRampRate : float.float64;
  GridFaults : list GridFaultData.t;
  CanReboot : string;
  SmartInvDeltaP : float.float64;
  SmartInvDeltaQ : float.float64;
  LastToggleTimestamp : time.Time;
  SolarRealPowerLimit : float.float64;
  Score : float.float64;
  BlocksControlled : Z;
  Primary : bool;
  AuxiliaryLoad : float.float64;
  AllEnableLinesHigh : bool;
  InverterNominalUsablePower : float.float64;
  ExpectedEnergyRemaining : float.float64
}.
End SystemStatusData.

Module SitemasterData.
Record t : Type := mk {
  Status : string;
  Running : bool;
  ConnectedToTesla : bool;
  PowerSupplyMode : bool;
  CanReboot : string
}.
End SitemasterData.

Module NetworkData.

Module ExtraIp.
Record t : Type := mk {
  IP : string;
  Netmask : Z
}.
End ExtraIp.

Module IPNetwork.
Record t : Type := mk {
  IP : string;
  Mask : string
}.
End IPNetwork.

Module IfaceNetworkInfo.
Record t : Type := mk {
  NetworkName : string;
  IPNetworks : list IPNetwork.t;
  Gateway : string;
  Interface : string;
  State : string;
  StateReason : string;
  SignalStrength : Z;
  HwAddress : string
}.
End IfaceNetworkInfo.

Record t : Type := mk {
  NetworkName : string;
  Interface : string;
  Dhcp : bool;
  Enabled : bool;
  ExtraIps : list ExtraIp.t;
  Active : bool;
  Primary : bool;
  LastTeslaConnected : bool;
  LastInternetConnected : bool;
  IfaceNetworkInfo : IfaceNetworkInfo.t;
  SecurityType : string;
  Username : string
}.

End NetworkData.

Module MeterData.

Module HTTPSConf.
Record t : Type := mk {
  ClientCert : string;
  ClientKey : string;
  ServerCaCert : string;
  MaxIdleConnsPerHost : Z
}.
End HTTPSConf.

Module Connection.
Record t : Type := mk {
  ShortID : string;
  DeviceSerial : string;
  HTTPSConf : HTTPSConf.t
}.
End Connection.

Module CachedReadings.
Record t : Type := mk {
  LastCommunicationTime : time.Time;
  InstantPower : float.float32;
  InstantReactivePower : float.float32;
  InstantApparentPower : float.float32;
  Frequency : float.float32;
  EnergyExported : float.float32;
  EnergyImported : float.float32;
  InstantAverageVoltage : float.float32;
  InstantAverageCurrent : float.float32;
  IACurrent : float.float32;
  IBCurrent : float.float32;
  ICCurrent : float.float32;
  VL1N : float.float32;
  VL2N : float.float32;
  LastPhaseVoltageCommunicationTime : time.Time;
  RealPowerA : float.float32;
  RealPowerB : float.float32;
  ReactivePowerA : float.float32;
  ReactivePowerB : float.float32;
  LastPhasePowerCommunicationTime : time.Time;
  SerialNumber : string;
  Timeout : Z;
  InstantTotalCurrent : float.float32
}.
End CachedReadings.

Module CtVoltageReferences.
Record t : Type := mk {
  Ct1 : string;
  Ct2 : string;
  Ct3 : string
}.
End CtVoltageReferences.

Record t : Type := mk {
  ID : Z;
  Location : string;
  Type_ : string;
  Cts : list bool;
  Inverted : list bool;
  Connection : Connection.t;
  RealPowerScaleFactor : float.float32;
  CachedReadings : CachedReadings.t;
  CtVoltageReferences : CtVoltageReferences.t
}.

End MeterData.

Section Core.

(** [url.Values.Encode] and [json.Marshal] of a payload map. *)
Variable url_Values_Encode : gmap string (list string) -> string.
Variable json_Marshal : gmap string JValue -> error + string.
Context {Unmarshal_tokenResp : Unmarshal tokenResp.t}.

(** [RefreshToken] (logging and the error callback are no-ops unless a
    hook is registered, and are left out). *)
Definition RefreshToken : M unit :=
  do c <- getClient;
  let data : gmap string (list string) :=
    <["client_id" := [clientID c]]>
      (<["refresh_token" := [refreshToken c]]>
         (<["grant_type" := ["refresh_token"]]> ∅)) in
  let req := mkRequest "POST" TokenURL
               [("Content-Type", "application/x-www-form-urlencoded")]
               (Some (url_Values_Encode data)) in
  do resp <- httpDo req;
  if negb (StatusCode resp =? 200) then
    do now <- Now;
    fail (TokenExpiredError "refresh" now)
  else
    match json_Unmarshal (RespBody resp) with
    | inl err => fail err
    | inr r =>
        run modifyClient (set_accessToken (tokenResp.AccessToken r));
        run (if negb (String.eqb (tokenResp.RefreshToken r) "")
             then modifyClient (set_refreshToken (tokenResp.RefreshToken r))
             else ret tt);
        do now <- Now;
        modifyClient
          (set_tokenExpiry
             (time.Add now (time.mul (tokenResp.ExpiresIn r) time.Second)))
    end.

(** The first half of [doFleetRequest]: rate limiting, token refresh,
    building and executing the request, reading the body.  It yields the
    request URL and the response.  ([http.NewRequest] fails only on a
    malformed method or URL; the callers pass GET or POST and endpoints
    made of a site number and an encoded query, so that exit is left out.) *)
Definition fleetExchange (method endpoint : string) (payload : option string)
  : M (string * Response) :=
  run rateLimitWait;
  do expired <- IsTokenExpired;
  run (if expired then RefreshToken else ret tt);
  let apiURL := FleetAPIBaseURL +:+ endpoint in
  do c <- getClient;
  let contentType :=
    match payload with
    | Some _ => [("Content-Type", "application/json")]
    | None => []
    end in
  let req := mkRequest method apiURL
               (contentType ++
                [("Authorization", "Bearer " +:+ accessToken c);
                 ("User-Agent", "go-powerwall/v2.0")])
               payload in
  do resp <- httpDo req;
  ret (apiURL, resp).

(** The second half: the switch on the status code. *)
Definition fleetStatus (endpoint apiURL : string) (resp : Response) : M string :=
  let body := RespBody resp in
  if (StatusCode resp =? 200) || (StatusCode resp =? 201) then ret body
  else if StatusCode resp =? 401 then
    do c <- getClient;
    fail (TokenExpiredError "access" (tokenExpiry c))
  else if StatusCode resp =? 429 then
    let retryAfter := 60 in
    let retryHeader := Header_Get (RespHeader resp) "Retry-After" in
    let retryAfter :=
      if negb (String.eqb retryHeader "")
      then fmt.Sscanf_d retryHeader retryAfter
      else retryAfter in
    do c <- getClient;
    do now <- Now;
    fail (RateLimitError endpoint (RealtimeDataRPM (rateLimitConfig c)) 0
            (time.Add now (time.mul retryAfter time.Second)) retryAfter)
  else
    fail (ApiError apiURL (StatusCode resp) body).

Definition doFleetRequest (method endpoint : string) (payload : option string)
  : M string :=
  do x <- fleetExchange method endpoint payload;
  fleetStatus endpoint (fst x) (snd x).

Definition apiGetJson {A : Type} `{Unmarshal A} (endpoint : string) : M A :=
  do respData <- doFleetRequest "GET" endpoint None;
  match json_Unmarshal respData with
  | inl err => fail err
  | inr result => ret result
  end.

Definition apiPostJson {A : Type} `{Unmarshal A} (endpoint : string)
    (payload : option (gmap string JValue)) : M A :=
  do payloadData <-
    match payload with
    | Some p =>
        match json_Marshal p with
        | inl err => fail err
        | inr data => ret (Some data)
        end
    | None => ret None
    end;
  do respData <- doFleetRequest "POST" endpoint payloadData;
  match json_Unmarshal respData with
  | inl err => fail err
  | inr result => ret result
  end.

(** ** api.go: device management *)

Context {Unmarshal_products : Unmarshal ProductsResponse}.
Context {Unmarshal_liveStatus : Unmarshal LiveStatusResponse}.
Context {Unmarshal_siteInfo : Unmarshal SiteInfoResponse}.
Context {Unmarshal_history : Unmarshal historyResponse}.
Context {Unmarshal_object : Unmarshal (gmap string JValue)}.

Definition GetProducts : M (list EnergyProduct) :=
  do resp <- apiGetJson "/api/1/products";
  ret (pr_Response resp).

(** The filtering loop of [GetEnergyProducts]: an [append] per match. *)
Definition energyProductsOf (products : list EnergyProduct) : list EnergyProduct :=
  fold_left
    (fun (energyProducts : list EnergyProduct) product =>
       if String.eqb (ResourceType product) "solar"
          || String.eqb (ResourceType product) "battery"
       then (energyProducts ++ [product])%list
       else energyProducts)
    products [].

Definition GetEnergyProducts : M (list EnergyProduct) :=
  do products <- GetProducts;
  ret (energyProductsOf products).

Definition SelectEnergySite (energySiteID : Z) : M unit :=
  modifyClient (set_selectedSiteID energySiteID).

Definition GetSelectedEnergySite : M Z :=
  do c <- getClient;
  ret (selectedSiteID c).

Definition ensureSiteSelected : M unit :=
  do c <- getClient;
  if selectedSiteID c =? 0
  then fail (PlainError "no energy site selected - call SelectEnergySite() first")
  else ret tt.

(** [fmt.Sprintf("/api/1/energy_sites/%d/<leaf>", c.selectedSiteID)]. *)
Definition siteEndpoint (siteID : Z) (leaf : string) : string :=
  "/api/1/energy_sites/" +:+ fmt.Sprintf_d siteID +:+ "/" +:+ leaf.

(** ** api.go: reads derived from live_status and site_info *)

Definition GetStatus : M StatusData :=
  run ensureSiteSelected;
  do c <- getClient;
  do liveStatus <- apiGetJson (siteEndpoint (selectedSiteID c) "live_status");
  ret (mkStatusData
         ("fleet-api-" +:+ fmt.Sprintf_d (selectedSiteID c))
         (NonIsoTime.mk (Timestamp (ls_Response liveStatus)))
         (Duration.mk 0) false "fleet-api" "" 0 "powerwall" "" "" None false).

Definition GetSiteInfo : M SiteInfoData :=
  run ensureSiteSelected;
  do c <- getClient;
  do siteInfo <- apiGetJson (siteEndpoint (selectedSiteID c) "site_info");
  let r := si_Response siteInfo in
  ret (mkSiteInfoData
         (si_SiteName r)
         (InstallationTimeZone r)
         (MaxSiteMeterPowerAC r ÷ 1000)
         (MinSiteMeterPowerAC r ÷ 1000)
         float.zero
         float.zero
         (float.div32 (float.float32_of_int (NameplatePower r))
            (float.float32_of_int 1000))
         float.zero
         (float.div32 (float.float32_of_int (NameplatePower r))
            (float.float32_of_int 1000))
         (mkGridData "" 0 0 "" "" "" "" (si_Utility r) "" "")).

(** The map [GetMetersAggregates] builds from a decoded live status: one
    guarded assignment per power field. *)
Definition metersAggregatesOf (ls : LiveStatus) : gmap string MeterAggregatesData :=
  let result : gmap string MeterAggregatesData := ∅ in
  let result :=
    match SolarPower ls with
    | Some p =>
        <["solar" := MeterAggregatesData_of (Timestamp ls) (float.float32_of_float64 p)]> result
    | None => result
    end in
  let result :=
    match BatteryPower ls with
    | Some p =>
        <["battery" := MeterAggregatesData_of (Timestamp ls) (float.float32_of_float64 p)]> result
    | None => result
    end in
  let result :=
    match GridPower ls with
    | Some p =>
        <["site" := MeterAggregatesData_of (Timestamp ls) (float.float32_of_float64 p)]> result
    | None => result
    end in
  let result :=
    match LoadPower ls with
    | Some p =>
        <["load" := MeterAggregatesData_of (Timestamp ls) (float.float32_of_float64 p)]> result
    | None => result
    end in
  result.

Definition GetMetersAggregates : M (gmap string MeterAggregatesData) :=
  run ensureSiteSelected;
  do c <- getClient;
  do liveStatus <- apiGetJson (siteEndpoint (selectedSiteID c) "live_status");
  ret (metersAggregatesOf (ls_Response liveStatus)).

Definition GetSOE : M SOEData :=
  run ensureSiteSelected;
  do c <- getClient;
  do liveStatus <- apiGetJson (siteEndpoint (selectedSiteID c) "live_status");
  let soe := mkSOEData float.zero in
  let soe :=
    match PercentageCharged (ls_Response liveStatus) with
    | Some p => mkSOEData p
    | None => soe
    end in
  ret soe.

Definition GetGridStatus : M GridStatusData :=
  run ensureSiteSelected;
  do c <- getClient;
  do liveStatus <- apiGetJson (siteEndpoint (selectedSiteID c) "live_status");
  ret (mkGridStatusData
         (ls_GridStatus (ls_Response liveStatus))
         (ls_GridServicesActive (ls_Response liveStatus))).

(** ** api.go: history queries *)

(** [params.Set("time_zone", timeZone[0])] when a non-empty zone is given. *)
Definition withTimeZone (timeZone : list string)
    (params : gmap string (list string)) : gmap string (list string) :=
  match timeZone with
  | tz :: _ => if negb (String.eqb tz "") then <["time_zone" := [tz]]> params else params
  | [] => params
  end.

Definition validPeriods : gmap string bool :=
  {[ "day" := true; "week" := true; "month" := true; "year" := true ]}.

Definition validKinds : gmap string bool :=
  {[ "energy" := true; "backup" := true ]}.

(** Indexing a [map[string]bool]: a missing key reads as [false]. *)
Definition index (m : gmap string bool) (key : string) : bool :=
  default false (m !! key).

(** The shared tail of the history calls: the GET and the unwrapping of
    the [response] member. *)
Definition fetchHistory (fullEndpoint : string) : M HistoryData :=
  do historyResponse <- apiGetJson fullEndpoint;
  ret (hr_Response historyResponse).

Definition GetTelemetryHistory (startDate endDate : string) (timeZone : list string)
  : M HistoryData :=
  run ensureSiteSelected;
  do c <- getClient;
  let endpoint := siteEndpoint (selectedSiteID c) "telemetry_history" in
  let params : gmap string (list string) :=
    <["end_date" := [endDate]]>
      (<["start_date" := [startDate]]> (<["kind" := ["charge"]]> ∅)) in
  let params := withTimeZone timeZone params in
  fetchHistory (endpoint +:+ "?" +:+ url_Values_Encode params).

(** The query of the three calendar_history calls. *)
Definition calendarParams (kind startDate endDate period : string)
    (timeZone : list string) : gmap string (list string) :=
  withTimeZone timeZone
    (<["period" := [period]]>
       (<["end_date" := [endDate]]>
          (<["start_date" := [startDate]]> (<["kind" := [kind]]> ∅)))).

Definition calendarEndpoint (siteID : Z) (kind startDate endDate period : string)
    (timeZone : list string) : string :=
  siteEndpoint siteID "calendar_history" +:+ "?" +:+
  url_Values_Encode (calendarParams kind startDate endDate period timeZone).

Definition GetEnergyHistory (startDate endDate period : string)
    (timeZone : list string) : M HistoryData :=
  run ensureSiteSelected;
  if negb (index validPeriods period) then
    fail (PlainError ("invalid period for energy history: " +:+ period +:+
                      " (supported: day, week, month, year)"))
  else
    do c <- getClient;
    fetchHistory
      (calendarEndpoint (selectedSiteID c) "energy" startDate endDate period timeZone).

Definition GetBackupHistory (startDate endDate period : string)
    (timeZone : list string) : M HistoryData :=
  run ensureSiteSelected;
  if negb (index validPeriods period) then
    fail (PlainError ("invalid period for backup history: " +:+ period +:+
                      " (supported: day, week, month, year)"))
  else
    do c <- getClient;
    fetchHistory
      (calendarEndpoint (selectedSiteID c) "backup" startDate endDate period timeZone).

Definition GetCalendarHistory (kind startDate endDate period : string)
    (timeZone : list string) : M HistoryData :=
  run ensureSiteSelected;
  if negb (index validKinds kind) then
    fail (PlainError ("invalid kind for calendar history: " +:+ kind +:+
                      " (supported: energy, backup)"))
  else if negb (index validPeriods period) then
    fail (PlainError ("invalid period for calendar history: " +:+ period +:+
                      " (supported: day, week, month, year)"))
  else
    do c <- getClient;
    fetchHistory
      (calendarEndpoint (selectedSiteID c) kind startDate endDate period timeZone).

(** ** api.go: control commands *)

Definition SetBackupReserve (percent : Z) : M unit :=
  run ensureSiteSelected;
  if (percent <? 0) || (100 <? percent) then
    fail (PlainError ("backup reserve percent must be between 0 and 100, got " +:+
                      fmt.Sprintf_d percent))
  else
    do c <- getClient;
    let payload : gmap string JValue := {[ "backup_reserve_percent" := JInt percent ]} in
    do response <- apiPostJson (A := gmap string JValue)
                     (siteEndpoint (selectedSiteID c) "backup") (Some payload);
    ret tt.

Definition SetSiteName (name : string) : M unit :=
  run ensureSiteSelected;
  if String.eqb name "" then
    fail (PlainError "site name cannot be empty")
  else
    do c <- getClient;
    let payload : gmap string JValue := {[ "site_name" := JString name ]} in
    do response <- apiPostJson (A := gmap string JValue)
                     (siteEndpoint (selectedSiteID c) "site_name") (Some payload);
    ret tt.

Definition SetStormMode (enabled : bool) : M unit :=
  run ensureSiteSelected;
  do c <- getClient;
  let payload : gmap string JValue := {[ "enabled" := JBool enabled ]} in
  do response <- apiPostJson (A := gmap string JValue)
                   (siteEndpoint (selectedSiteID c) "storm_mode") (Some payload);
  ret tt.

(** ** api.go: what the Fleet API does not serve *)

Definition GetOperation : M OperationData.t :=
  fail (UnsupportedError "GetOperation"
          "Fleet API does not provide detailed operation data available from local gateway").

Definition GetSystemStatus : M SystemStatusData.t :=
  fail (UnsupportedError "GetSystemStatus"
          "Fleet API does not provide detailed system diagnostics available from local gateway").

Definition GetSitemaster : M SitemasterData.t :=
  fail (UnsupportedError "GetSitemaster"
          "Fleet API does not expose local gateway clustering information").

Definition GetNetworks : M (list NetworkData.t) :=
  fail (UnsupportedError "GetNetworks"
          "Fleet API does not expose local network configuration").

Definition GetGridFaults : M (list GridFaultData.t) :=
  fail (UnsupportedError "GetGridFaults"
          "Fleet API does not provide detailed grid fault information available from local gateway").

Definition GetMeters (category : string) : M (list MeterData.t) :=
  fail (UnsupportedError "GetMeters"
          "Fleet API does not provide individual meter details - use GetMetersAggregates() instead").

(** ** api.go: convenience methods *)

(** [t.Format("2006-01-02")] and [t.AddDate(years, months, days)], which
    work on the calendar of the local time zone. *)
Variable Time_Format_date : time.Time -> string.
Variable Time_AddDate : time.Time -> Z -> Z -> Z -> time.Time.





Definition EnableStormWatch : M unit := SetStormMode true.

Definition DisableStormWatch : M unit := SetStormMode false.

Definition SetMinimumBackupReserve : M unit := SetBackupReserve 5.

Definition SetMaximumBackupReserve : M unit := SetBackupReserve 100.

(** * Properties *)

(** ** The monad *)

Lemma bind_Ok {A B : Type} (m : M A) (k : A -> M B) (st st' : State) (a : A) :
  m st = (Ok a, st') -> bind m k st = k a st'.
Proof. intros H. unfold bind. now rewrite H. Qed.

Lemma bind_Err {A B : Type} (m : M A) (k : A -> M B) (st st' : State) (e : error) :
  m st = (Err e, st') -> bind m k st = (Err e, st').
Proof. intros H. unfold bind. now rewrite H. Qed.

Lemma bind_Panic {A B : Type} (m : M A) (k : A -> M B) (st st' : State) (msg : string) :
  m st = (Panic msg, st') -> bind m k st = (Panic msg, st').
Proof. intros H. unfold bind. now rewrite H. Qed.

(** ** The site selection gate *)

Definition noSiteSelected : error :=
  PlainError "no energy site selected - call SelectEnergySite() first".

Lemma ensureSiteSelected_zero (st : State) :
  selectedSiteID (client st) = 0 -> ensureSiteSelected st = (Err noSiteSelected, st).
Proof.
  intros H. unfold ensureSiteSelected, bind, getClient. now rewrite H.
Qed.

Lemma ensureSiteSelected_nonzero (st : State) :
  selectedSiteID (client st) <> 0 -> ensureSiteSelected st = (Ok tt, st).
Proof.
  intros H. unfold ensureSiteSelected, bind, getClient.
  destruct (Z.eqb_spec (selectedSiteID (client st)) 0); [contradiction | reflexivity].
Qed.

(** Every operation that starts with the gate stops there, in the state it
    was called in, when no site is selected. *)
Lemma gated_zero {A : Type} (k : M A) (st : State) :
  selectedSiteID (client st) = 0 ->
  (run ensureSiteSelected; k) st = (Err noSiteSelected, st).
Proof. intros H. apply bind_Err. now apply ensureSiteSelected_zero. Qed.

Lemma gated_nonzero {A : Type} (k : M A) (st : State) :
  selectedSiteID (client st) <> 0 ->
  (run ensureSiteSelected; k) st = k st.
Proof.
  intros H. now rewrite (bind_Ok _ _ st st tt (ensureSiteSelected_nonzero st H)).
Qed.

(** C5: with no site selected (identifier zero) each site-scoped operation
    (status, site info, meters aggregates, SOE, grid status, the four
    history queries and the three control commands) returns the local
    precondition error and leaves the state, and with it the log of HTTP
    requests, exactly as it was: no request is issued. *)
Theorem C5_site_gate_blocks_every_operation (st : State) :
  selectedSiteID (client st) = 0 ->
  GetStatus st = (Err noSiteSelected, st) /\
  GetSiteInfo st = (Err noSiteSelected, st) /\
  GetMetersAggregates st = (Err noSiteSelected, st) /\
  GetSOE st = (Err noSiteSelected, st) /\
  GetGridStatus st = (Err noSiteSelected, st) /\
  (forall startDate endDate timeZone,
      GetTelemetryHistory startDate endDate timeZone st = (Err noSiteSelected, st)) /\
  (forall startDate endDate period timeZone,
      GetEnergyHistory startDate endDate period timeZone st = (Err noSiteSelected, st)) /\
  (forall startDate endDate period timeZone,
      GetBackupHistory startDate endDate period timeZone st = (Err noSiteSelected, st)) /\
  (forall kind startDate endDate period timeZone,
      GetCalendarHistory kind startDate endDate period timeZone st
      = (Err noSiteSelected, st)) /\
  (forall percent, SetBackupReserve percent st = (Err noSiteSelected, st)) /\
  (forall name, SetSiteName name st = (Err noSiteSelected, st)) /\
  (forall enabled, SetStormMode enabled st = (Err noSiteSelected, st)).
Proof.
  intros H.
  repeat split; intros;
    first [ unfold GetStatus | unfold GetSiteInfo | unfold GetMetersAggregates
          | unfold GetSOE | unfold GetGridStatus | unfold GetTelemetryHistory
          | unfold GetEnergyHistory | unfold GetBackupHistory
          | unfold GetCalendarHistory | unfold SetBackupReserve
          | unfold SetSiteName | unfold SetStormMode ];
    now apply gated_zero.
Qed.

(** ** Token expiry *)

Lemma IsTokenExpired_eq (st : State) :
  IsTokenExpired st =
  (Ok (tokenExpiry (client st) <? clock (world st) + 5 * time.Minute), st).
Proof. reflexivity. Qed.

(** C3 (amended): [IsTokenExpired] changes nothing and returns true exactly
    when the current time plus 5 minutes is strictly later than the stored
    token expiry; at the boundary, where now + 5 minutes equals the stored
    expiry, it returns false. *)
Theorem C3_IsTokenExpired_strictly_after (st : State) :
  exists b : bool,
    IsTokenExpired st = (Ok b, st) /\
    (b = true <-> tokenExpiry (client st) < clock (world st) + 5 * time.Minute) /\
    (tokenExpiry (client st) = clock (world st) + 5 * time.Minute -> b = false).
Proof.
  exists (tokenExpiry (client st) <? clock (world st) + 5 * time.Minute).
  split; [apply IsTokenExpired_eq |].
  split; [apply Z.ltb_lt |].
  intros H. apply Z.ltb_ge. lia.
Qed.

(** A client whose token expires exactly five minutes after the clock's
    present reading. *)
Definition boundaryState : State :=
  mkState
    (set_tokenExpiry (1700000000 * time.Second + 5 * time.Minute)
       (NewClient "client-id" "access" "refresh"))
    (mkWorld (1700000000 * time.Second) [] []).

(** C3, as stated, fails at the boundary: now + 5 minutes >= expiry holds
    (with equality), yet the call returns false. *)
Lemma C3_boundary_returns_false :
  clock (world boundaryState) + 5 * time.Minute >= tokenExpiry (client boundaryState) /\
  IsTokenExpired boundaryState = (Ok false, boundaryState).
Proof. split; [vm_compute; discriminate | reflexivity]. Qed.

(** ** The rate limiter *)

Lemma Second_value : time.Second = 1000000000.
Proof. reflexivity. Qed.

(** The interval is a whole number of seconds: the truncated quotient. *)
Lemma rateLimitInterval_value (rpm : Z) :
  rpm <> 0 -> rateLimitInterval rpm = Some ((60 ÷ rpm) * time.Second).
Proof.
  intros H. unfold rateLimitInterval.
  destruct (Z.eqb_spec rpm 0); [contradiction |].
  unfold time.mul. rewrite GoInt.wrap64_id; [reflexivity |].
  assert (Hq : Z.abs (60 ÷ rpm) <= 60).
  { rewrite <- (Z.abs_eq 60) at 2 by lia.
    destruct (Z.eq_dec (Z.abs rpm) 1) as [E | E].
    - assert (rpm = 1 \/ rpm = -1) as [-> | ->] by lia; vm_compute; discriminate.
    - pose proof (Z.quot_abs 60 rpm H) as Habs. rewrite <- Habs.
      apply Z.lt_le_incl, Z.quot_lt; lia. }
  rewrite Second_value. unfold GoInt.in_int64, GoInt.MinInt64, GoInt.MaxInt64. lia.
Qed.

(** X28: when the ceiling is positive and divides 60, the interval of the
    rate limiter is exactly 60/R seconds: R intervals make one minute. *)
Lemma rateLimitInterval_exact (rpm : Z) :
  0 < rpm -> (rpm | 60) ->
  exists d, rateLimitInterval rpm = Some d /\ d * rpm = 60 * time.Second.
Proof.
  intros Hpos [k Hk]. exists ((60 ÷ rpm) * time.Second).
  split; [apply rateLimitInterval_value; lia |].
  rewrite Hk, Z.quot_mul by lia. lia.
Qed.

(** X1: with a non-zero ceiling R and a clock that has not gone backwards,
    [rateLimitWait] succeeds, sends nothing, and leaves the last request
    time at the clock's reading, at least 60/R seconds (the quotient
    truncated to whole seconds) after the previous last request time. *)
Lemma rateLimitWait_spacing (st : State) :
  RealtimeDataRPM (rateLimitConfig (client st)) <> 0 ->
  lastRequestTime (client st) <= clock (world st) ->
  exists st',
    rateLimitWait st = (Ok tt, st') /\
    lastRequestTime (client st') = clock (world st') /\
    clock (world st) <= clock (world st') /\
    lastRequestTime (client st) +
      (60 ÷ RealtimeDataRPM (rateLimitConfig (client st))) * time.Second
    <= lastRequestTime (client st') /\
    sent (world st') = sent (world st) /\
    script (world st') = script (world st) /\
    set_lastRequestTime (lastRequestTime (client st)) (client st') = client st.
Proof.
  intros Hrpm Hmono. destruct st as [c w]. simpl in *.
  unfold rateLimitWait, bind, getClient. simpl.
  rewrite (rateLimitInterval_value _ Hrpm).
  set (q := 60 ÷ RealtimeDataRPM (rateLimitConfig c)).
  assert (Hq : -60 <= q <= 60).
  { subst q. pose proof (rateLimitInterval_value _ Hrpm) as Hv.
    unfold rateLimitInterval in Hv.
    destruct (Z.eqb_spec (RealtimeDataRPM (rateLimitConfig c)) 0); [contradiction |].
    assert (Z.abs (60 ÷ RealtimeDataRPM (rateLimitConfig c)) <= 60); [| lia].
    destruct (Z.eq_dec (Z.abs (RealtimeDataRPM (rateLimitConfig c))) 1) as [E | E].
    - assert (RealtimeDataRPM (rateLimitConfig c) = 1
              \/ RealtimeDataRPM (rateLimitConfig c) = -1) as [-> | ->] by lia;
        vm_compute; discriminate.
    - rewrite <- (Z.abs_eq 60) at 2 by lia.
      rewrite <- (Z.quot_abs 60 _ Hrpm).
      apply Z.lt_le_incl, Z.quot_lt; lia. }
  unfold Now. simpl.
  unfold time.Sub, GoInt.MinInt64, GoInt.MaxInt64. rewrite Second_value.
  destruct (Z.ltb_spec
              (Z.max (- 2 ^ 63) (Z.min (2 ^ 63 - 1) (clock w - lastRequestTime c)))
              (q * 1000000000)) as [Hlt | Hge].
  - assert (Hel : Z.max (- 2 ^ 63) (Z.min (2 ^ 63 - 1) (clock w - lastRequestTime c))
                  = clock w - lastRequestTime c) by lia.
    rewrite Hel in *. unfold Sleep, modifyClient, time.sub. simpl.
    rewrite GoInt.wrap64_id
      by (unfold GoInt.in_int64, GoInt.MinInt64, GoInt.MaxInt64; lia).
    eexists. split; [reflexivity |]. simpl. destruct c; simpl in *.
    repeat split; try reflexivity; lia.
  - unfold ret, modifyClient. simpl.
    eexists. split; [reflexivity |]. simpl. destruct c; simpl in *.
    repeat split; try reflexivity; lia.
Qed.

(** A client limited to 7 requests per minute, about to issue its first
    request. *)
Definition sevenPerMinute : State :=
  mkState
    (set_RealtimeDataRPM 7 (NewClient "client-id" "access" "refresh"))
    (mkWorld (1700000000 * time.Second) [] []).

(** C1, at a ceiling of 7 requests per minute: the interval is 8 whole
    seconds, less than 60/7 seconds, and two back-to-back calls are spaced
    by exactly those 8 seconds; at a ceiling of 120 the interval is zero. *)
Theorem C1_rateLimitWait_truncates_interval :
  rateLimitInterval 7 = Some (8 * time.Second) /\
  8 * time.Second * 7 < 60 * time.Second /\
  rateLimitInterval 120 = Some 0 /\
  exists st1 st2,
    rateLimitWait sevenPerMinute = (Ok tt, st1) /\
    rateLimitWait st1 = (Ok tt, st2) /\
    lastRequestTime (client st2) - lastRequestTime (client st1) = 8 * time.Second /\
    (lastRequestTime (client st2) - lastRequestTime (client st1)) * 7 < 60 * time.Second.
Proof.
  split; [reflexivity |]. split; [reflexivity |]. split; [reflexivity |].
  eexists. eexists. split; [vm_compute; reflexivity |].
  split; [vm_compute; reflexivity |]. split; reflexivity.
Qed.


(** ** Energy products *)

(** The test of the filtering loop. *)
Definition isEnergyProduct (product : EnergyProduct) : bool :=
  String.eqb (ResourceType product) "solar"
  || String.eqb (ResourceType product) "battery".

Lemma isEnergyProduct_spec (product : EnergyProduct) :
  isEnergyProduct product = true <->
  ResourceType product = "solar" \/ ResourceType product = "battery".
Proof.
  unfold isEnergyProduct. rewrite orb_true_iff, !String.eqb_eq. tauto.
Qed.

Lemma energyProductsOf_acc (products acc : list EnergyProduct) :
  fold_left
    (fun (energyProducts : list EnergyProduct) product =>
       if String.eqb (ResourceType product) "solar"
          || String.eqb (ResourceType product) "battery"
       then (energyProducts ++ [product])%list
       else energyProducts)
    products acc
  = (acc ++ List.filter isEnergyProduct products)%list.
Proof.
  revert acc. induction products as [| p ps IH]; intros acc; simpl.
  - now rewrite app_nil_r.
  - rewrite IH. unfold isEnergyProduct at 2.
    destruct (String.eqb (ResourceType p) "solar" || String.eqb (ResourceType p) "battery").
    + now rewrite <- app_assoc.
    + reflexivity.
Qed.

Lemma energyProductsOf_filter (products : list EnergyProduct) :
  energyProductsOf products = List.filter isEnergyProduct products.
Proof. unfold energyProductsOf. now rewrite energyProductsOf_acc. Qed.

(** A product with the given resource type and identifier. *)
Definition productOf (resourceType : string) (id : Z) : EnergyProduct :=
  mkEnergyProduct id "" resourceType "" "" "" "" "" None "" None None ∅ ∅.

(** C7: whatever list of products [GetProducts] returns, [GetEnergyProducts]
    returns (in the same final state) exactly its sublist of the entries
    whose resource type is the string solar or the string battery, in their
    original order, and fails as [GetProducts] fails; from the resource
    types solar, vehicle, battery, vehicle it keeps the first and the
    third entry. *)
Theorem C7_GetEnergyProducts_filters (st : State) :
  GetEnergyProducts st =
    match GetProducts st with
    | (Ok products, st') =>
        (Ok (List.filter
               (fun product =>
                  bool_decide (ResourceType product = "solar"
                               \/ ResourceType product = "battery"))
               products), st')
    | (Err e, st') => (Err e, st')
    | (Panic msg, st') => (Panic msg, st')
    end /\
  energyProductsOf
    [productOf "solar" 1; productOf "vehicle" 2; productOf "battery" 3;
     productOf "vehicle" 4]
  = [productOf "solar" 1; productOf "battery" 3].
Proof.
  split; [| reflexivity].
  unfold GetEnergyProducts, bind at 1.
  destruct (GetProducts st) as [[products | e | msg] st']; try reflexivity.
  unfold ret. rewrite energyProductsOf_filter. f_equal. f_equal.
  apply filter_ext. intros p. unfold isEnergyProduct.
  destruct (bool_decide_reflect (ResourceType p = "solar" \/ ResourceType p = "battery"))
    as [H | H].
  - apply orb_true_iff. rewrite !String.eqb_eq. exact H.
  - apply orb_false_iff. rewrite !String.eqb_neq. tauto.
Qed.


(** ** Reads derived from the live status *)

(** The entry a present power field [p] produces. *)
Definition aggregateEntry (ls : LiveStatus) (p : float.float64) : MeterAggregatesData :=
  MeterAggregatesData_of (Timestamp ls) (float.float32_of_float64 p).

Lemma aggregateEntry_fields (ls : LiveStatus) (p : float.float64) :
  InstantPower (aggregateEntry ls p) = float.float32_of_float64 p /\
  LastCommunicationTime (aggregateEntry ls p) = Timestamp ls.
Proof. split; reflexivity. Qed.

Lemma metersAggregatesOf_lookup (ls : LiveStatus) :
  metersAggregatesOf ls !! "solar" = aggregateEntry ls <$> SolarPower ls /\
  metersAggregatesOf ls !! "battery" = aggregateEntry ls <$> BatteryPower ls /\
  metersAggregatesOf ls !! "site" = aggregateEntry ls <$> GridPower ls /\
  metersAggregatesOf ls !! "load" = aggregateEntry ls <$> LoadPower ls.
Proof.
  unfold metersAggregatesOf, aggregateEntry.
  destruct (SolarPower ls), (BatteryPower ls), (GridPower ls), (LoadPower ls);
    repeat split; simpl; by simplify_map_eq.
Qed.

Lemma metersAggregatesOf_keys (ls : LiveStatus) (key : string) :
  is_Some (metersAggregatesOf ls !! key) ->
  key = "solar" \/ key = "battery" \/ key = "site" \/ key = "load".
Proof.
  unfold metersAggregatesOf. intros [e He].
  destruct (decide (key = "solar")); [tauto |].
  destruct (decide (key = "battery")); [tauto |].
  destruct (decide (key = "site")); [tauto |].
  destruct (decide (key = "load")); [tauto |].
  exfalso.
  destruct (SolarPower ls), (BatteryPower ls), (GridPower ls), (LoadPower ls);
    by simplify_map_eq.
Qed.

(** C8 (amended): when the live-status response of a selected site decodes
    to [r], [GetMetersAggregates] returns a map that holds, for each of the
    four power fields (solar_power, battery_power, grid_power and
    load_power, under the keys solar, battery, site and load: the grid
    reading is filed under site), an entry exactly when the field is
    present, and no other entry; an entry's [InstantPower] is the field's
    float64 value converted to float32 (rounded to the nearest float32, so
    equal to it only when it is representable) and its
    [LastCommunicationTime] the response's timestamp.  An absent field
    leaves no entry at all. *)
Theorem C8_GetMetersAggregates_omits_absent (st st' : State) (r : LiveStatusResponse) :
  selectedSiteID (client st) <> 0 ->
  apiGetJson (siteEndpoint (selectedSiteID (client st)) "live_status") st = (Ok r, st') ->
  let ls := ls_Response r in
  exists m : gmap string MeterAggregatesData,
    GetMetersAggregates st = (Ok m, st') /\
    m !! "solar" = aggregateEntry ls <$> SolarPower ls /\
    m !! "battery" = aggregateEntry ls <$> BatteryPower ls /\
    m !! "site" = aggregateEntry ls <$> GridPower ls /\
    m !! "load" = aggregateEntry ls <$> LoadPower ls /\
    (is_Some (m !! "solar") <-> is_Some (SolarPower ls)) /\
    (is_Some (m !! "battery") <-> is_Some (BatteryPower ls)) /\
    (is_Some (m !! "site") <-> is_Some (GridPower ls)) /\
    (is_Some (m !! "load") <-> is_Some (LoadPower ls)) /\
    (forall key, is_Some (m !! key) ->
                 key = "solar" \/ key = "battery" \/ key = "site" \/ key = "load") /\
    (forall p, InstantPower (aggregateEntry ls p) = float.float32_of_float64 p /\
               LastCommunicationTime (aggregateEntry ls p) = Timestamp ls).
Proof.
  intros Hsite Hget ls. exists (metersAggregatesOf ls).
  destruct (metersAggregatesOf_lookup ls) as (H1 & H2 & H3 & H4).
  split.
  { unfold GetMetersAggregates. rewrite gated_nonzero by assumption.
    unfold bind at 1, getClient.
    now rewrite (bind_Ok _ _ _ _ _ Hget). }
  repeat split; try assumption;
    try (rewrite ?H1, ?H2, ?H3, ?H4; rewrite <- ?fmap_is_Some; tauto);
    try (rewrite ?H1, ?H2, ?H3, ?H4, ?fmap_is_Some; tauto).
  apply metersAggregatesOf_keys.
Qed.

(** C10: when the live-status response of a selected site decodes to [r],
    [GetSOE] succeeds; its [Percentage] is 0 when percentage_charged is
    absent and the field's value when it is present. *)
Theorem C10_GetSOE_defaults_to_zero (st st' : State) (r : LiveStatusResponse) :
  selectedSiteID (client st) <> 0 ->
  apiGetJson (siteEndpoint (selectedSiteID (client st)) "live_status") st = (Ok r, st') ->
  exists soe : SOEData,
    GetSOE st = (Ok soe, st') /\
    (PercentageCharged (ls_Response r) = None -> Percentage soe = float.zero) /\
    (forall p, PercentageCharged (ls_Response r) = Some p -> Percentage soe = p).
Proof.
  intros Hsite Hget.
  exists (mkSOEData (default float.zero (PercentageCharged (ls_Response r)))).
  split.
  { unfold GetSOE. rewrite gated_nonzero by assumption.
    unfold bind at 1, getClient.
    rewrite (bind_Ok _ _ _ _ _ Hget). unfold ret.
    now destruct (PercentageCharged (ls_Response r)). }
  split; [intros -> | intros p ->]; reflexivity.
Qed.


(** ** What reaches the network *)

Lemma httpDo_sent (req : Request) (st : State) :
  sent (world (snd (httpDo req st))) = (sent (world st) ++ [req])%list /\
  client (snd (httpDo req st)) = client st.
Proof.
  unfold httpDo. destruct (script (world st)) as [| x rest]; [split; reflexivity |].
  destruct (reply x); split; reflexivity.
Qed.

Lemma RefreshToken_sent (st : State) :
  exists req, sent (world (snd (RefreshToken st))) = (sent (world st) ++ [req])%list.
Proof.
  unfold RefreshToken, bind at 1, getClient.
  match goal with |- context [httpDo ?r] => exists r; set (req := r) end.
  unfold bind at 1.
  pose proof (httpDo_sent req st) as [Hs _].
  destruct (httpDo req st) as [[resp | e | msg] st1]; simpl in *; try exact Hs.
  destruct (negb (StatusCode resp =? 200)); [exact Hs |].
  destruct (json_Unmarshal (RespBody resp)) as [err | r]; [exact Hs |].
  unfold bind, modifyClient, Now, ret.
  destruct (negb (String.eqb (tokenResp.RefreshToken r) "")); exact Hs.
Qed.

Lemma rateLimitWait_frame (st : State) :
  RealtimeDataRPM (rateLimitConfig (client st)) <> 0 ->
  exists st',
    rateLimitWait st = (Ok tt, st') /\
    sent (world st') = sent (world st) /\
    script (world st') = script (world st) /\
    client st' = set_lastRequestTime (clock (world st')) (client st).
Proof.
  intros Hrpm. unfold rateLimitWait, bind at 1, getClient.
  unfold rateLimitInterval.
  destruct (Z.eqb_spec (RealtimeDataRPM (rateLimitConfig (client st))) 0);
    [contradiction |].
  unfold bind, Now, Sleep, ret, modifyClient.
  destruct (_ <? _); eexists; repeat split; reflexivity.
Qed.

Lemma fleetStatus_state (endpoint apiURL : string) (resp : Response) (st : State) :
  snd (fleetStatus endpoint apiURL resp st) = st.
Proof.
  unfold fleetStatus.
  destruct ((StatusCode resp =? 200) || (StatusCode resp =? 201)); [reflexivity |].
  destruct (StatusCode resp =? 401); [reflexivity |].
  destruct (StatusCode resp =? 429); reflexivity.
Qed.

(** With a non-zero ceiling, a call through [doFleetRequest] hands at least
    one request to the HTTP client, whatever comes back. *)
Lemma doFleetRequest_sends (method endpoint : string) (payload : option string)
    (st : State) :
  RealtimeDataRPM (rateLimitConfig (client st)) <> 0 ->
  (length (sent (world st)) <
   length (sent (world (snd (doFleetRequest method endpoint payload st)))))%nat.
Proof.
  intros Hrpm.
  destruct (rateLimitWait_frame st Hrpm) as (st1 & Hw & Hs1 & _ & _).
  unfold doFleetRequest, bind at 1.
  assert (Hx : (length (sent (world st)) <
                length (sent (world (snd (fleetExchange method endpoint payload st)))))%nat).
  { unfold fleetExchange. rewrite (bind_Ok _ _ _ _ _ Hw).
    unfold bind at 1. rewrite IsTokenExpired_eq.
    destruct (tokenExpiry (client st1) <? clock (world st1) + 5 * time.Minute).
    - unfold bind at 1.
      destruct (RefreshToken_sent st1) as [req Hr].
      destruct (RefreshToken st1) as [[[] | e | msg] st2]; simpl in Hr;
        try (simpl; rewrite Hr, length_app, Hs1; simpl; lia).
      unfold bind at 1, getClient. unfold bind at 1.
      match goal with |- context [httpDo ?r st2] =>
        pose proof (httpDo_sent r st2) as [Hh _];
        destruct (httpDo r st2) as [[resp | e | msg] st3]
      end; simpl in *; rewrite Hh, Hr, !length_app, Hs1; simpl; lia.
    - unfold bind at 1, ret. unfold bind at 1, getClient. unfold bind at 1.
      match goal with |- context [httpDo ?r st1] =>
        pose proof (httpDo_sent r st1) as [Hh _];
        destruct (httpDo r st1) as [[resp | e | msg] st3]
      end; simpl in *; rewrite Hh, length_app, Hs1; simpl; lia. }
  destruct (fleetExchange method endpoint payload st) as [[[u resp] | e | msg] st2];
    simpl in *; try exact Hx.
  pose proof (fleetStatus_state endpoint u resp st2) as Hst.
  destruct (fleetStatus endpoint u resp st2) as [res st3]. simpl in Hst. now subst st3.
Qed.

Lemma fetchHistory_sends (fullEndpoint : string) (st : State) :
  RealtimeDataRPM (rateLimitConfig (client st)) <> 0 ->
  (length (sent (world st)) <
   length (sent (world (snd (fetchHistory fullEndpoint st)))))%nat.
Proof.
  intros Hrpm. pose proof (doFleetRequest_sends "GET" fullEndpoint None st Hrpm) as H.
  unfold fetchHistory, apiGetJson, bind.
  destruct (doFleetRequest "GET" fullEndpoint None st) as [[body | e | msg] st1];
    simpl in *; try exact H.
  destruct (json_Unmarshal body); exact H.
Qed.


(** ** Local validation of the history queries *)

Definition isPeriod (period : string) : Prop :=
  period = "day" \/ period = "week" \/ period = "month" \/ period = "year".

Definition isKind (kind : string) : Prop :=
  kind = "energy" \/ kind = "backup".

Lemma validPeriods_spec (period : string) :
  index validPeriods period = true <-> isPeriod period.
Proof.
  unfold index, validPeriods, isPeriod.
  destruct (decide (period = "day")) as [-> | ?]; [by simplify_map_eq; tauto |].
  destruct (decide (period = "week")) as [-> | ?]; [by simplify_map_eq; tauto |].
  destruct (decide (period = "month")) as [-> | ?]; [by simplify_map_eq; tauto |].
  destruct (decide (period = "year")) as [-> | ?]; [by simplify_map_eq; tauto |].
  simplify_map_eq. split; [discriminate | tauto].
Qed.

Lemma validKinds_spec (kind : string) :
  index validKinds kind = true <-> isKind kind.
Proof.
  unfold index, validKinds, isKind.
  destruct (decide (kind = "energy")) as [-> | ?]; [by simplify_map_eq; tauto |].
  destruct (decide (kind = "backup")) as [-> | ?]; [by simplify_map_eq; tauto |].
  simplify_map_eq. split; [discriminate | tauto].
Qed.

Lemma invalid_period (period : string) :
  ~ isPeriod period -> index validPeriods period = false.
Proof.
  intros H. apply not_true_is_false. now rewrite validPeriods_spec.
Qed.

Lemma invalid_kind (kind : string) :
  ~ isKind kind -> index validKinds kind = false.
Proof.
  intros H. apply not_true_is_false. now rewrite validKinds_spec.
Qed.

(** The message of a local failure: the site gate comes first. *)
Definition localFailure (st : State) (msg : string) : error :=
  if selectedSiteID (client st) =? 0 then noSiteSelected else PlainError msg.

Lemma gated_fail {A : Type} (st : State) (msg : string) :
  (run ensureSiteSelected; fail (A := A) (PlainError msg)) st
  = (Err (localFailure st msg), st).
Proof.
  unfold localFailure.
  destruct (Z.eqb_spec (selectedSiteID (client st)) 0) as [E | E].
  - now apply gated_zero.
  - now rewrite gated_nonzero.
Qed.

(** C6: a period outside day, week, month, year makes [GetEnergyHistory],
    [GetBackupHistory] and [GetCalendarHistory] fail with a local error,
    and so does a kind outside energy, backup for [GetCalendarHistory]; the
    state, and with it the log of HTTP requests, is as before the call, so
    no request was made.  The error is the validation message naming the
    offending argument (the kind first), unless no site is selected, when it
    is the site gate's.  Valid arguments on a selected site pass the local
    validation: the call is then the GET of the calendar_history endpoint,
    which (with a non-zero ceiling) hands a request to the HTTP client. *)
Theorem C6_history_arguments_validated_locally
    (st : State) (kind startDate endDate period : string) (timeZone : list string) :
  (~ isPeriod period ->
   GetEnergyHistory startDate endDate period timeZone st
   = (Err (localFailure st
             ("invalid period for energy history: " +:+ period +:+
              " (supported: day, week, month, year)")), st) /\
   GetBackupHistory startDate endDate period timeZone st
   = (Err (localFailure st
             ("invalid period for backup history: " +:+ period +:+
              " (supported: day, week, month, year)")), st) /\
   (isKind kind ->
    GetCalendarHistory kind startDate endDate period timeZone st
    = (Err (localFailure st
              ("invalid period for calendar history: " +:+ period +:+
               " (supported: day, week, month, year)")), st))) /\
  (~ isKind kind ->
   GetCalendarHistory kind startDate endDate period timeZone st
   = (Err (localFailure st
             ("invalid kind for calendar history: " +:+ kind +:+
              " (supported: energy, backup)")), st)) /\
  (isPeriod period -> selectedSiteID (client st) <> 0 ->
   let site := selectedSiteID (client st) in
   GetEnergyHistory startDate endDate period timeZone st
   = fetchHistory (calendarEndpoint site "energy" startDate endDate period timeZone) st /\
   GetBackupHistory startDate endDate period timeZone st
   = fetchHistory (calendarEndpoint site "backup" startDate endDate period timeZone) st /\
   (isKind kind ->
    GetCalendarHistory kind startDate endDate period timeZone st
    = fetchHistory (calendarEndpoint site kind startDate endDate period timeZone) st) /\
   (RealtimeDataRPM (rateLimitConfig (client st)) <> 0 ->
    (length (sent (world st)) <
     length (sent (world (snd (GetEnergyHistory startDate endDate period timeZone st)))))%nat)).
Proof.
  split; [| split].
  - intros Hp. pose proof (invalid_period period Hp) as Hi.
    split; [| split].
    + unfold GetEnergyHistory. rewrite Hi. apply gated_fail.
    + unfold GetBackupHistory. rewrite Hi. apply gated_fail.
    + intros Hk. apply validKinds_spec in Hk.
      unfold GetCalendarHistory. rewrite Hk, Hi. apply gated_fail.
  - intros Hk. unfold GetCalendarHistory. rewrite (invalid_kind kind Hk).
    apply gated_fail.
  - intros Hp Hsite site. apply validPeriods_spec in Hp.
    assert (He : GetEnergyHistory startDate endDate period timeZone st
                 = fetchHistory
                     (calendarEndpoint site "energy" startDate endDate period timeZone) st).
    { unfold GetEnergyHistory. rewrite Hp. simpl negb. cbv iota.
      now rewrite gated_nonzero. }
    split; [exact He | split; [| split]].
    + unfold GetBackupHistory. rewrite Hp. simpl negb. cbv iota.
      now rewrite gated_nonzero.
    + intros Hk. apply validKinds_spec in Hk.
      unfold GetCalendarHistory. rewrite Hk, Hp. simpl negb. cbv iota.
      now rewrite gated_nonzero.
    + intros Hrpm. rewrite He. now apply fetchHistory_sends.
Qed.


(** ** Token refresh *)

(** A whole number of seconds as a [Duration]: exact whenever the count
    stays within the roughly 292 years an int64 of nanoseconds can hold. *)
Lemma seconds_exact (n : Z) :
  Z.abs n <= 9223372036 -> time.mul n time.Second = n * 1000000000.
Proof.
  intros H. unfold time.mul. rewrite Second_value.
  apply GoInt.wrap64_id. unfold GoInt.in_int64, GoInt.MinInt64, GoInt.MaxInt64. lia.
Qed.

(** C4 (amended): when the token endpoint answers 200 with a body that
    decodes to [r] (an absent refresh_token member decodes to the empty
    string), [RefreshToken] succeeds; the stored refresh token is unchanged
    if [r]'s is empty and replaced by it otherwise; the stored access token
    is [r]'s; the stored expiry is
    [time.Now().Add(time.Duration(expires_in) * time.Second)] at the clock's
    reading after the exchange, which is that reading plus expires_in
    seconds whenever expires_in is at most 9223372036 in magnitude (beyond
    that the int64 count of nanoseconds wraps around); nothing else in the
    client changes. *)
Theorem C4_RefreshToken_updates_tokens
    (st : State) (x : Exchange) (rest : list Exchange) (resp : Response)
    (r : tokenResp.t) :
  script (world st) = x :: rest ->
  reply x = inr resp ->
  StatusCode resp = 200 ->
  json_Unmarshal (RespBody resp) = inr r ->
  exists st',
    RefreshToken st = (Ok tt, st') /\
    (tokenResp.RefreshToken r = "" -> refreshToken (client st') = refreshToken (client st)) /\
    (tokenResp.RefreshToken r <> "" -> refreshToken (client st') = tokenResp.RefreshToken r) /\
    accessToken (client st') = tokenResp.AccessToken r /\
    clock (world st') = clock (world st) + Z.max 0 (took x) /\
    tokenExpiry (client st')
    = time.Add (clock (world st')) (time.mul (tokenResp.ExpiresIn r) time.Second) /\
    (Z.abs (tokenResp.ExpiresIn r) <= 9223372036 ->
     tokenExpiry (client st') = clock (world st') + tokenResp.ExpiresIn r * time.Second) /\
    clientID (client st') = clientID (client st) /\
    selectedSiteID (client st') = selectedSiteID (client st) /\
    rateLimitConfig (client st') = rateLimitConfig (client st) /\
    lastRequestTime (client st') = lastRequestTime (client st).
Proof.
  intros Hscript Hreply Hcode Hjson.
  unfold RefreshToken, bind at 1, getClient. unfold bind at 1, httpDo.
  rewrite Hscript, Hreply, Hcode. simpl negb. cbv iota. rewrite Hjson.
  unfold bind, modifyClient, Now, ret.
  destruct (String.eqb_spec (tokenResp.RefreshToken r) "") as [E | E]; simpl;
    eexists; (split; [reflexivity |]); simpl;
    repeat split; try reflexivity; try congruence;
    intros Hrange; unfold time.Add; rewrite (seconds_exact _ Hrange), Second_value;
    reflexivity.
Qed.

(** ** The status switch of doFleetRequest *)

(** The retry-after seconds of a 429 response. *)
Definition retryAfterOf (resp : Response) : Z :=
  let retryHeader := Header_Get (RespHeader resp) "Retry-After" in
  if negb (String.eqb retryHeader "") then fmt.Sscanf_d retryHeader 60 else 60.

Lemma retryAfterOf_cases (resp : Response) :
  let retryHeader := Header_Get (RespHeader resp) "Retry-After" in
  (retryHeader = "" -> retryAfterOf resp = 60) /\
  (fmt.scanInt retryHeader = None -> retryAfterOf resp = 60) /\
  (forall n, retryHeader <> "" -> fmt.scanInt retryHeader = Some n -> retryAfterOf resp = n).
Proof.
  intros retryHeader. unfold retryAfterOf. fold retryHeader.
  destruct (String.eqb_spec retryHeader "") as [E | E]; simpl; unfold fmt.Sscanf_d.
  - repeat split; try reflexivity. intros n Hn. contradiction.
  - repeat split.
    + intros H. contradiction.
    + intros ->. reflexivity.
    + intros n _ ->. reflexivity.
Qed.

(** C2 (amended): once [doFleetRequest] has received a response (the exchange left
    the state [st1]), the call ends in [st1] with: the raw body for status
    200 or 201; a token-expired error of kind access with the recorded
    expiry for 401; for 429 a rate-limit error whose retry-after seconds
    are 60 when the Retry-After header is absent (or empty) or does not
    scan as an integer, and the scanned integer otherwise, and whose reset
    time is [time.Now().Add(time.Duration(retryAfter) * time.Second)],
    which is the clock's time plus that many seconds whenever they are at
    most 9223372036 in magnitude (beyond that the int64 count of
    nanoseconds wraps around); and for any other status the generic API
    error with the request URL, the status code and the body as
    received. *)
Theorem C2_doFleetRequest_status_mapping
    (method endpoint : string) (payload : option string)
    (st st1 : State) (apiURL : string) (resp : Response) :
  fleetExchange method endpoint payload st = (Ok (apiURL, resp), st1) ->
  let code := StatusCode resp in
  let retryHeader := Header_Get (RespHeader resp) "Retry-After" in
  apiURL = FleetAPIBaseURL +:+ endpoint /\
  (code = 200 \/ code = 201 ->
   doFleetRequest method endpoint payload st = (Ok (RespBody resp), st1)) /\
  (code = 401 ->
   doFleetRequest method endpoint payload st
   = (Err (TokenExpiredError "access" (tokenExpiry (client st1))), st1)) /\
  (code = 429 ->
   exists retryAfter,
     doFleetRequest method endpoint payload st
     = (Err (RateLimitError endpoint (RealtimeDataRPM (rateLimitConfig (client st1))) 0
               (time.Add (clock (world st1)) (time.mul retryAfter time.Second))
               retryAfter), st1) /\
     (retryHeader = "" -> retryAfter = 60) /\
     (fmt.scanInt retryHeader = None -> retryAfter = 60) /\
     (forall n, retryHeader <> "" -> fmt.scanInt retryHeader = Some n -> retryAfter = n) /\
     (Z.abs retryAfter <= 9223372036 ->
      time.Add (clock (world st1)) (time.mul retryAfter time.Second)
      = clock (world st1) + retryAfter * time.Second)) /\
  (code <> 200 -> code <> 201 -> code <> 401 -> code <> 429 ->
   doFleetRequest method endpoint payload st
   = (Err (ApiError apiURL code (RespBody resp)), st1)).
Proof.
  intros Hx code retryHeader.
  assert (Hurl : apiURL = FleetAPIBaseURL +:+ endpoint).
  { revert Hx. unfold fleetExchange, bind, getClient, ret. intros Hx.
    repeat match type of Hx with
           | context [match ?t with _ => _ end] => destruct t; try discriminate
           end.
    now injection Hx as <- _ _. }
  split; [exact Hurl |].
  unfold doFleetRequest. rewrite (bind_Ok _ _ _ _ _ Hx). simpl fst. simpl snd.
  unfold fleetStatus. fold code.
  split; [| split; [| split]].
  - intros [-> | ->]; reflexivity.
  - intros ->. reflexivity.
  - intros ->. exists (retryAfterOf resp). split; [reflexivity |].
    destruct (retryAfterOf_cases resp) as (H1 & H2 & H3).
    repeat split; try assumption.
    intros Hrange. unfold time.Add.
    now rewrite (seconds_exact _ Hrange), Second_value.
  - intros H200 H201 H401 H429.
    destruct (Z.eqb_spec code 200); [contradiction |].
    destruct (Z.eqb_spec code 201); [contradiction |].
    destruct (Z.eqb_spec code 401); [contradiction |].
    destruct (Z.eqb_spec code 429); [contradiction |].
    reflexivity.
Qed.


(** ** The request pipeline: what is sent, and when *)

Lemma quot60_bound (rpm : Z) : rpm <> 0 -> -60 <= 60 ÷ rpm <= 60.
Proof.
  intros H.
  assert (Z.abs (60 ÷ rpm) <= 60); [| lia].
  destruct (Z.eq_dec (Z.abs rpm) 1) as [E | E].
  - assert (rpm = 1 \/ rpm = -1) as [-> | ->] by lia; vm_compute; discriminate.
  - rewrite <- (Z.abs_eq 60) at 2 by lia.
    rewrite <- (Z.quot_abs 60 _ H).
    apply Z.lt_le_incl, Z.quot_lt; lia.
Qed.

Lemma quot60_inert (rpm : Z) : 60 < rpm \/ rpm < 0 -> 60 ÷ rpm <= 0.
Proof.
  intros [H | H].
  - rewrite Z.quot_small; lia.
  - replace rpm with (- - rpm) by lia. rewrite Z.quot_opp_r by lia.
    pose proof (Z.quot_pos 60 (- rpm)). lia.
Qed.

(** The state [rateLimitWait] leaves when it returns at time [t]. *)
Definition waited (st : State) (t : time.Time) : State :=
  mkState (set_lastRequestTime t (client st))
    (mkWorld t (sent (world st)) (script (world st))).

Lemma rateLimitWait_effect (st : State) :
  RealtimeDataRPM (rateLimitConfig (client st)) <> 0 ->
  exists t : time.Time,
    rateLimitWait st = (Ok tt, waited st t) /\
    clock (world st) <= t /\
    (lastRequestTime (client st) <= clock (world st) ->
     t <= clock (world st) + 60 * time.Second /\
     lastRequestTime (client st)
       + (60 ÷ RealtimeDataRPM (rateLimitConfig (client st))) * time.Second <= t) /\
    (60 ÷ RealtimeDataRPM (rateLimitConfig (client st)) <= 0 ->
     lastRequestTime (client st) <= clock (world st) -> t = clock (world st)).
Proof.
  intros Hrpm. destruct st as [c [now log replies]]. unfold waited. simpl in *.
  unfold rateLimitWait, bind, getClient. simpl.
  rewrite (rateLimitInterval_value _ Hrpm).
  pose proof (quot60_bound _ Hrpm) as Hq.
  set (q := 60 ÷ RealtimeDataRPM (rateLimitConfig c)) in *.
  unfold Now. simpl.
  unfold time.Sub, GoInt.MinInt64, GoInt.MaxInt64. rewrite Second_value.
  destruct (Z.ltb_spec
              (Z.max (- 2 ^ 63) (Z.min (2 ^ 63 - 1) (now - lastRequestTime c)))
              (q * 1000000000)) as [Hlt | Hge].
  - unfold Sleep, modifyClient, time.sub. simpl.
    eexists. split; [reflexivity |].
    split; [lia |]. split.
    + intros Hmono.
      assert (Hel : Z.max (- 2 ^ 63) (Z.min (2 ^ 63 - 1) (now - lastRequestTime c))
                    = now - lastRequestTime c) by lia.
      rewrite Hel in *.
      rewrite GoInt.wrap64_id
        by (unfold GoInt.in_int64, GoInt.MinInt64, GoInt.MaxInt64; lia).
      lia.
    + intros Hq0 Hmono. lia.
  - unfold ret, modifyClient. simpl.
    exists (now). split; [reflexivity |]. split; [lia |]. split; [| reflexivity].
    intros Hmono. lia.
Qed.

(** The request [RefreshToken] posts to the token endpoint. *)
Definition refreshRequest (c : Client) : Request :=
  mkRequest "POST" TokenURL
    [("Content-Type", "application/x-www-form-urlencoded")]
    (Some (url_Values_Encode
             (<["client_id" := [clientID c]]>
                (<["refresh_token" := [refreshToken c]]>
                   (<["grant_type" := ["refresh_token"]]> ∅))))).

(** The request [doFleetRequest] builds, given the access token in force. *)
Definition fleetRequest (method endpoint : string) (payload : option string)
    (token : string) : Request :=
  mkRequest method (FleetAPIBaseURL +:+ endpoint)
    (match payload with
     | Some _ => [("Content-Type", "application/json")]
     | None => []
     end ++
     [("Authorization", "Bearer " +:+ token); ("User-Agent", "go-powerwall/v2.0")])
    payload.

(** The state after the next scripted exchange [x] answered request [req]. *)
Definition exchanged (st : State) (req : Request) (x : Exchange) (rest : list Exchange)
  : State :=
  mkState (client st)
    (mkWorld (clock (world st) + Z.max 0 (took x)) (sent (world st) ++ [req]) rest).

Lemma httpDo_next (req : Request) (st : State) (x : Exchange) (rest : list Exchange) :
  script (world st) = x :: rest ->
  httpDo req st =
    match reply x with
    | inl e => (Err e, exchanged st req x rest)
    | inr resp => (Ok resp, exchanged st req x rest)
    end.
Proof. intros H. unfold httpDo, exchanged. rewrite H. now destruct (reply x). Qed.

(** Whatever comes back, the HTTP client leaves the client record alone,
    logs the request and lets time pass, never run backwards. *)
Lemma httpDo_keeps (req : Request) (st : State) :
  client (snd (httpDo req st)) = client st /\
  sent (world (snd (httpDo req st))) = (sent (world st) ++ [req])%list /\
  clock (world st) <= clock (world (snd (httpDo req st))).
Proof.
  unfold httpDo. destruct (script (world st)) as [| x rest]; simpl.
  - repeat split; lia.
  - destruct (reply x); simpl; repeat split; lia.
Qed.

(** The client record after a refresh that decoded to [r] at time [now]. *)
Definition refreshed (r : tokenResp.t) (now : time.Time) (c : Client) : Client :=
  let c := set_accessToken (tokenResp.AccessToken r) c in
  let c :=
    if negb (String.eqb (tokenResp.RefreshToken r) "")
    then set_refreshToken (tokenResp.RefreshToken r) c
    else c in
  set_tokenExpiry (time.Add now (time.mul (tokenResp.ExpiresIn r) time.Second)) c.

Lemma RefreshToken_cases (st : State) :
  RefreshToken st =
    match httpDo (refreshRequest (client st)) st with
    | (Ok resp, st1) =>
        if negb (StatusCode resp =? 200)
        then (Err (TokenExpiredError "refresh" (clock (world st1))), st1)
        else
          match json_Unmarshal (RespBody resp) with
          | inl err => (Err err, st1)
          | inr r =>
              (Ok tt, mkState (refreshed r (clock (world st1)) (client st1)) (world st1))
          end
    | (Err e, st1) => (Err e, st1)
    | (Panic msg, st1) => (Panic msg, st1)
    end.
Proof.
  unfold RefreshToken, bind at 1, getClient. fold (refreshRequest (client st)).
  unfold bind at 1.
  destruct (httpDo (refreshRequest (client st)) st) as [[resp | e | msg] st1];
    try reflexivity.
  destruct (negb (StatusCode resp =? 200)); [reflexivity |].
  destruct (json_Unmarshal (RespBody resp)) as [err | r]; [reflexivity |].
  unfold refreshed, bind, modifyClient, Now, ret.
  now destruct (negb (String.eqb (tokenResp.RefreshToken r) "")).
Qed.

(** [RefreshToken] posts exactly one request, touches nothing of the rate
    limiter or the site selection, and lets time pass. *)
Lemma RefreshToken_keeps (st : State) :
  let st' := snd (RefreshToken st) in
  sent (world st') = (sent (world st) ++ [refreshRequest (client st)])%list /\
  lastRequestTime (client st') = lastRequestTime (client st) /\
  rateLimitConfig (client st') = rateLimitConfig (client st) /\
  selectedSiteID (client st') = selectedSiteID (client st) /\
  clientID (client st') = clientID (client st) /\
  clock (world st) <= clock (world st').
Proof.
  cbv zeta. rewrite RefreshToken_cases.
  pose proof (httpDo_keeps (refreshRequest (client st)) st) as (Hc & Hs & Ht).
  destruct (httpDo (refreshRequest (client st)) st) as [[resp | e | msg] st1];
    simpl in *; try (rewrite Hc; repeat split; assumption).
  destruct (negb (StatusCode resp =? 200)).
  { simpl. rewrite Hc. repeat split; assumption. }
  destruct (json_Unmarshal (RespBody resp)) as [err | r].
  { simpl. rewrite Hc. repeat split; assumption. }
  unfold refreshed.
  destruct (negb (String.eqb (tokenResp.RefreshToken r) "")); simpl;
    rewrite Hc; repeat split; assumption.
Qed.

(** [fleetExchange] after the wait, split on the expiry check. *)
Lemma fleetExchange_steps (method endpoint : string) (payload : option string)
    (st : State) :
  RealtimeDataRPM (rateLimitConfig (client st)) <> 0 ->
  exists t : time.Time,
    clock (world st) <= t /\
    (lastRequestTime (client st) <= clock (world st) ->
     t <= clock (world st) + 60 * time.Second /\
     lastRequestTime (client st)
       + (60 ÷ RealtimeDataRPM (rateLimitConfig (client st))) * time.Second <= t) /\
    fleetExchange method endpoint payload st =
      (if tokenExpiry (client st) <? t + 5 * time.Minute then
         match RefreshToken (waited st t) with
         | (Ok _, st2) =>
             match httpDo (fleetRequest method endpoint payload (accessToken (client st2))) st2 with
             | (Ok resp, st3) => (Ok (FleetAPIBaseURL +:+ endpoint, resp), st3)
             | (Err e, st3) => (Err e, st3)
             | (Panic msg, st3) => (Panic msg, st3)
             end
         | (Err e, st2) => (Err e, st2)
         | (Panic msg, st2) => (Panic msg, st2)
         end
       else
         match httpDo (fleetRequest method endpoint payload (accessToken (client st)))
                 (waited st t) with
         | (Ok resp, st3) => (Ok (FleetAPIBaseURL +:+ endpoint, resp), st3)
         | (Err e, st3) => (Err e, st3)
         | (Panic msg, st3) => (Panic msg, st3)
         end).
Proof.
  intros Hrpm. destruct (rateLimitWait_effect st Hrpm) as (t & Hw & Hge & Hle & _).
  exists t. split; [exact Hge |]. split; [exact Hle |].
  unfold fleetExchange. rewrite (bind_Ok _ _ _ _ _ Hw).
  unfold bind at 1. rewrite IsTokenExpired_eq.
  change (tokenExpiry (client (waited st t))) with (tokenExpiry (client st)).
  change (clock (world (waited st t))) with t.
  destruct (tokenExpiry (client st) <? t + 5 * time.Minute).
  - unfold bind at 1.
    now destruct (RefreshToken (waited st t)) as [[[] | e | msg] st2].
  - reflexivity.
Qed.


(** X2: with a token good for six more minutes (the five of the safety margin
    and the minute the rate limiter may wait at most), [doFleetRequest]
    hands exactly one request to the HTTP client: the method and payload
    it was given, the base URL followed by the endpoint, the stored access
    token as bearer; the outcome is the transport's error or the status
    switch on the response. *)
Theorem doFleetRequest_valid_token_single_request
    (method endpoint : string) (payload : option string)
    (st : State) (x : Exchange) (rest : list Exchange) :
  RealtimeDataRPM (rateLimitConfig (client st)) <> 0 ->
  lastRequestTime (client st) <= clock (world st) ->
  clock (world st) + 60 * time.Second + 5 * time.Minute <= tokenExpiry (client st) ->
  script (world st) = x :: rest ->
  exists t : time.Time,
    clock (world st) <= t <= clock (world st) + 60 * time.Second /\
    let st' := snd (doFleetRequest method endpoint payload st) in
    sent (world st')
    = (sent (world st) ++ [fleetRequest method endpoint payload (accessToken (client st))])%list /\
    script (world st') = rest /\
    clock (world st') = t + Z.max 0 (took x) /\
    client st' = set_lastRequestTime t (client st) /\
    doFleetRequest method endpoint payload st =
      match reply x with
      | inl err => (Err err, st')
      | inr resp => fleetStatus endpoint (FleetAPIBaseURL +:+ endpoint) resp st'
      end.
Proof.
  intros Hrpm Hmono Hfresh Hscript.
  destruct (fleetExchange_steps method endpoint payload st Hrpm) as (t & Hge & Hle & Hx). destruct (Hle Hmono) as [Hle60 _].
  exists t. split; [lia |].
  destruct (Z.ltb_spec (tokenExpiry (client st)) (t + 5 * time.Minute)) as [Hexp | _];
    [lia |].
  rewrite (httpDo_next _ (waited st t) x rest Hscript) in Hx.
  unfold doFleetRequest, bind. rewrite Hx.
  destruct (reply x) as [err | resp]; simpl.
  - repeat split; reflexivity.
  - pose proof (fleetStatus_state endpoint (FleetAPIBaseURL +:+ endpoint) resp
                  (exchanged (waited st t)
                     (fleetRequest method endpoint payload (accessToken (client st)))
                     x rest)) as Hst.
    rewrite !Hst. repeat split; reflexivity.
Qed.

(** X3: with an expired token and a token endpoint that answers 200 with a
    decodable body, [doFleetRequest] sends two requests, the refresh and
    then the API request, and the API request already carries the access
    token the refresh returned. *)
Theorem doFleetRequest_refreshes_expired_token
    (method endpoint : string) (payload : option string)
    (st : State) (x1 x2 : Exchange) (rest : list Exchange)
    (resp1 : Response) (r : tokenResp.t) :
  RealtimeDataRPM (rateLimitConfig (client st)) <> 0 ->
  tokenExpiry (client st) < clock (world st) + 5 * time.Minute ->
  script (world st) = x1 :: x2 :: rest ->
  reply x1 = inr resp1 ->
  StatusCode resp1 = 200 ->
  json_Unmarshal (RespBody resp1) = inr r ->
  let st' := snd (doFleetRequest method endpoint payload st) in
  sent (world st')
  = (sent (world st) ++
     [refreshRequest (client st);
      fleetRequest method endpoint payload (tokenResp.AccessToken r)])%list /\
  script (world st') = rest /\
  accessToken (client st') = tokenResp.AccessToken r /\
  doFleetRequest method endpoint payload st =
    match reply x2 with
    | inl err => (Err err, st')
    | inr resp => fleetStatus endpoint (FleetAPIBaseURL +:+ endpoint) resp st'
    end.
Proof.
  intros Hrpm Hexp Hscript Hreply Hcode Hjson.
  destruct (fleetExchange_steps method endpoint payload st Hrpm) as (t & Hge & _ & Hx).
  destruct (Z.ltb_spec (tokenExpiry (client st)) (t + 5 * time.Minute)) as [_ | Hno];
    [| lia].
  rewrite RefreshToken_cases in Hx.
  rewrite (httpDo_next _ (waited st t) x1 (x2 :: rest) Hscript), Hreply, Hcode in Hx.
  simpl negb in Hx. cbv iota in Hx. rewrite Hjson in Hx.
  match type of Hx with
  | context [httpDo ?req ?s] =>
      rewrite (httpDo_next req s x2 rest eq_refl) in Hx
  end.
  assert (Htoken : forall c now,
             accessToken (refreshed r now c) = tokenResp.AccessToken r).
  { intros c now. unfold refreshed.
    now destruct (negb (String.eqb (tokenResp.RefreshToken r) "")). }
  unfold exchanged, waited in Hx. cbn [client world clock sent script] in Hx.
  rewrite Htoken in Hx.
  cbv zeta. unfold doFleetRequest, bind. rewrite Hx.
  destruct (reply x2) as [err | resp]; cbn [fst snd client world sent script].
  - rewrite Htoken, <- app_assoc. repeat split; reflexivity.
  - match goal with
    | |- context [fleetStatus ?a ?b ?c ?s] =>
        pose proof (fleetStatus_state a b c s) as Hst
    end.
    rewrite !Hst. cbn [client world sent script].
    rewrite Htoken, <- app_assoc. repeat split; reflexivity.
Qed.

(** X4: with an expired token and a token endpoint that answers anything but
    200, [doFleetRequest] fails with the token-expired error of kind
    refresh, dated at the clock's reading after that exchange; the refresh
    is the only request sent (the API request never leaves), and the stored
    tokens and expiry stay as they were. *)
Theorem doFleetRequest_refused_refresh_stops
    (method endpoint : string) (payload : option string)
    (st : State) (x : Exchange) (rest : list Exchange) (resp : Response) :
  RealtimeDataRPM (rateLimitConfig (client st)) <> 0 ->
  tokenExpiry (client st) < clock (world st) + 5 * time.Minute ->
  script (world st) = x :: rest ->
  reply x = inr resp ->
  StatusCode resp <> 200 ->
  exists st' : State,
    doFleetRequest method endpoint payload st
    = (Err (TokenExpiredError "refresh" (clock (world st'))), st') /\
    sent (world st') = (sent (world st) ++ [refreshRequest (client st)])%list /\
    script (world st') = rest /\
    accessToken (client st') = accessToken (client st) /\
    refreshToken (client st') = refreshToken (client st) /\
    tokenExpiry (client st') = tokenExpiry (client st).
Proof.
  intros Hrpm Hexp Hscript Hreply Hcode.
  destruct (fleetExchange_steps method endpoint payload st Hrpm) as (t & Hge & _ & Hx).
  destruct (Z.ltb_spec (tokenExpiry (client st)) (t + 5 * time.Minute)) as [_ | Hno];
    [| lia].
  rewrite RefreshToken_cases in Hx.
  rewrite (httpDo_next _ (waited st t) x rest Hscript), Hreply in Hx.
  destruct (Z.eqb_spec (StatusCode resp) 200) as [E | _]; [contradiction |].
  simpl negb in Hx. cbv iota in Hx.
  eexists. unfold doFleetRequest, bind. rewrite Hx.
  split; [reflexivity |]. repeat split; reflexivity.
Qed.

(** X5: a client fresh from [NewClient] has no token expiry on record, so its
    token counts as expired at any time of the common era: whatever access
    token it was constructed with, the first request through
    [doFleetRequest] is the refresh. *)
Theorem NewClient_first_request_is_refresh
    (clientID accessToken refreshToken : string) (w : World)
    (method endpoint : string) (payload : option string) :
  time.zeroTime <= clock w ->
  let c := NewClient clientID accessToken refreshToken in
  IsTokenExpired (mkState c w) = (Ok true, mkState c w) /\
  exists more : list Request,
    sent (world (snd (doFleetRequest method endpoint payload (mkState c w))))
    = (sent w ++ refreshRequest c :: more)%list.
Proof.
  intros Hera c. split.
  { rewrite IsTokenExpired_eq. simpl.
    destruct (Z.ltb_spec time.zeroTime (clock w + 5 * time.Minute)) as [_ | H];
      [reflexivity |].
    exfalso. revert H. rewrite (eq_refl : 5 * time.Minute = 300000000000). lia. }
  assert (Hrpm : RealtimeDataRPM (rateLimitConfig (client (mkState c w))) <> 0)
    by discriminate.
  destruct (fleetExchange_steps method endpoint payload _ Hrpm) as (t & Hge & _ & Hx).
  simpl in Hge.
  change (tokenExpiry (client (mkState c w))) with time.zeroTime in Hx.
  destruct (Z.ltb_spec time.zeroTime (t + 5 * time.Minute)) as [_ | H].
  2: { exfalso. revert H. rewrite (eq_refl : 5 * time.Minute = 300000000000). lia. }
  pose proof (RefreshToken_keeps (waited (mkState c w) t)) as Hk.
  cbv zeta in Hk. destruct Hk as (Hsent & _).
  change (sent (world (waited (mkState c w) t))) with (sent w) in Hsent.
  change (refreshRequest (client (waited (mkState c w) t))) with (refreshRequest c)
    in Hsent.
  unfold doFleetRequest, bind. rewrite Hx.
  destruct (RefreshToken (waited (mkState c w) t)) as [[[] | e | msg] st2];
    simpl in Hsent; try (exists []; simpl; exact Hsent).
  match goal with
  | |- context [httpDo ?req st2] =>
      pose proof (httpDo_keeps req st2) as (_ & Hs3 & _);
      exists [req]; destruct (httpDo req st2) as [[resp | e | msg] st3]
  end; simpl in Hs3 |- *; try (rewrite Hs3, Hsent, <- app_assoc; reflexivity).
  match goal with
  | |- context [fleetStatus ?a ?b ?c ?s] =>
      pose proof (fleetStatus_state a b c s) as Hst;
      destruct (fleetStatus a b c s) as [res st4]
  end.
  simpl in Hst. subst st4. simpl. rewrite Hs3, Hsent, <- app_assoc. reflexivity.
Qed.

(** X6: a ceiling of zero turns every call through [doFleetRequest] into a
    run-time panic (the division by zero in [rateLimitWait]) before
    anything is sent: after [SetRateLimit(0)] the product listing panics
    too, in the state the setter left. *)
Theorem SetRateLimit_zero_panics
    (method endpoint : string) (payload : option string) (st : State) :
  let st0 := mkState (set_RealtimeDataRPM 0 (client st)) (world st) in
  SetRateLimit 0 st = (Ok tt, st0) /\
  doFleetRequest method endpoint payload st0
  = (Panic "runtime error: integer divide by zero", st0) /\
  GetProducts st0 = (Panic "runtime error: integer divide by zero", st0) /\
  GetEnergyProducts st0 = (Panic "runtime error: integer divide by zero", st0).
Proof. repeat split; reflexivity. Qed.

(** X7: a ceiling above 60 per minute, or a negative one, switches the
    limiter off: the truncated interval is zero or negative, so
    [rateLimitWait] never sleeps and only records the time. *)
Theorem rateLimitWait_inert_outside_1_to_60 (st : State) :
  60 < RealtimeDataRPM (rateLimitConfig (client st))
  \/ RealtimeDataRPM (rateLimitConfig (client st)) < 0 ->
  lastRequestTime (client st) <= clock (world st) ->
  rateLimitWait st
  = (Ok tt, mkState (set_lastRequestTime (clock (world st)) (client st)) (world st)).
Proof.
  intros Hrpm Hmono.
  assert (Hne : RealtimeDataRPM (rateLimitConfig (client st)) <> 0) by lia.
  destruct (rateLimitWait_effect st Hne) as (t & Hw & _ & _ & Hinert).
  rewrite (Hinert (quot60_inert _ Hrpm) Hmono) in Hw. rewrite Hw.
  unfold waited. now destruct st as [c [now log replies]].
Qed.

(** X8: the limiter's precondition is an invariant of the pipeline: from a
    non-zero ceiling and a last request time not after the clock, a call
    through [doFleetRequest] ends, whatever its outcome, with the same
    ceiling, a last request time still not after the clock and at least
    the (truncated) interval after the previous one. *)
Theorem doFleetRequest_keeps_spacing
    (method endpoint : string) (payload : option string) (st : State) :
  RealtimeDataRPM (rateLimitConfig (client st)) <> 0 ->
  lastRequestTime (client st) <= clock (world st) ->
  let st' := snd (doFleetRequest method endpoint payload st) in
  rateLimitConfig (client st') = rateLimitConfig (client st) /\
  lastRequestTime (client st') <= clock (world st') /\
  lastRequestTime (client st)
    + (60 ÷ RealtimeDataRPM (rateLimitConfig (client st))) * time.Second
  <= lastRequestTime (client st') /\
  clock (world st) <= clock (world st').
Proof.
  intros Hrpm Hmono.
  destruct (fleetExchange_steps method endpoint payload st Hrpm) as (t & Hge & Hle & Hx). destruct (Hle Hmono) as [_ Hspaced].
  assert (Hend : forall (req : Request) (s : State),
             rateLimitConfig (client s) = rateLimitConfig (client st) ->
             lastRequestTime (client s) = t -> t <= clock (world s) ->
             let s' := snd (match httpDo req s with
                            | (Ok resp, st3) =>
                                fleetStatus endpoint (FleetAPIBaseURL +:+ endpoint) resp st3
                            | (Err e, st3) => (Err e, st3)
                            | (Panic msg, st3) => (Panic msg, st3)
                            end) in
             rateLimitConfig (client s') = rateLimitConfig (client st) /\
             lastRequestTime (client s') <= clock (world s') /\
             lastRequestTime (client st)
               + (60 ÷ RealtimeDataRPM (rateLimitConfig (client st))) * time.Second
             <= lastRequestTime (client s') /\
             clock (world st) <= clock (world s')).
  { intros req s Hcfg Hlast Hclock.
    pose proof (httpDo_keeps req s) as (Hc & _ & Ht).
    destruct (httpDo req s) as [[resp | e | msg] st3]; simpl in Hc, Ht |- *.
    2, 3: rewrite Hc, Hcfg, Hlast; repeat split; lia.
    pose proof (fleetStatus_state endpoint (FleetAPIBaseURL +:+ endpoint) resp st3) as Hst.
    destruct (fleetStatus _ _ _ _) as [res st4]. simpl in Hst |- *. subst st4.
    rewrite Hc, Hcfg, Hlast. repeat split; lia. }
  cbv zeta. unfold doFleetRequest, bind. rewrite Hx.
  destruct (tokenExpiry (client st) <? t + 5 * time.Minute).
  - pose proof (RefreshToken_keeps (waited st t)) as Hk. cbv zeta in Hk.
    destruct Hk as (_ & Hlast & Hcfg & _ & _ & Ht).
    simpl in Hlast, Hcfg, Ht.
    destruct (RefreshToken (waited st t)) as [[[] | e | msg] st2];
      simpl in Hlast, Hcfg, Ht |- *.
    2, 3: rewrite Hcfg, Hlast; repeat split; lia.
    specialize (Hend (fleetRequest method endpoint payload (accessToken (client st2)))
                  st2 Hcfg Hlast Ht).
    cbv zeta in Hend.
    destruct (httpDo _ st2) as [[resp | e | msg] st3]; exact Hend.
  - specialize (Hend (fleetRequest method endpoint payload (accessToken (client st)))
                  (waited st t) eq_refl eq_refl (Z.le_refl _)).
    cbv zeta in Hend.
    destruct (httpDo _ (waited st t)) as [[resp | e | msg] st3]; exact Hend.
Qed.


(** ** Tokens set by hand, and the site selection *)

(** The failure of a call, if any: its error or its panic. *)
Definition failure {A : Type} (r : Result A) : option (error + string) :=
  match r with
  | Ok _ => None
  | Err e => Some (inl e)
  | Panic msg => Some (inr msg)
  end.

(** X9: [SetAuthToken] and [SetRefreshToken] replace one token and nothing
    else: the getter reads the new token back, the next refresh posts the
    new refresh token, and the expiry on record is untouched, so a token
    set by hand is judged expired or not exactly as the one it replaced. *)
Theorem token_setters_take_effect (token : string) (st : State) :
  let st1 := mkState (set_accessToken token (client st)) (world st) in
  let st2 := mkState (set_refreshToken token (client st)) (world st) in
  SetAuthToken token st = (Ok tt, st1) /\
  GetAuthToken st1 = (Ok token, st1) /\
  fst (IsTokenExpired st1) = fst (IsTokenExpired st) /\
  SetRefreshToken token st = (Ok tt, st2) /\
  GetRefreshToken st2 = (Ok token, st2) /\
  refreshToken (client st1) = refreshToken (client st) /\
  accessToken (client st2) = accessToken (client st) /\
  exists req : Request,
    sent (world (snd (RefreshToken st2))) = (sent (world st) ++ [req])%list /\
    Method req = "POST" /\ URL req = TokenURL /\
    Body req
    = Some (url_Values_Encode
              (<["client_id" := [clientID (client st)]]>
                 (<["refresh_token" := [token]]>
                    (<["grant_type" := ["refresh_token"]]> ∅)))).
Proof.
  cbv zeta. repeat (split; [reflexivity |]).
  eexists. split.
  - pose proof (RefreshToken_keeps
                  (mkState (set_refreshToken token (client st)) (world st))) as Hk.
    cbv zeta in Hk. destruct Hk as (Hsent & _). exact Hsent.
  - repeat split; reflexivity.
Qed.

(** X10: [SelectEnergySite] stores any identifier, unchecked and without a
    request; the getter reads it back; a non-zero identifier opens the
    site gate, and selecting zero closes it again for the site-scoped
    calls. *)
Theorem SelectEnergySite_sets_the_gate (energySiteID : Z) (st : State) :
  let st1 := mkState (set_selectedSiteID energySiteID (client st)) (world st) in
  let st0 := mkState (set_selectedSiteID 0 (client st)) (world st) in
  SelectEnergySite energySiteID st = (Ok tt, st1) /\
  GetSelectedEnergySite st1 = (Ok energySiteID, st1) /\
  (energySiteID <> 0 -> ensureSiteSelected st1 = (Ok tt, st1)) /\
  SelectEnergySite 0 st = (Ok tt, st0) /\
  GetSOE st0 = (Err noSiteSelected, st0) /\
  (forall enabled, SetStormMode enabled st0 = (Err noSiteSelected, st0)).
Proof.
  cbv zeta. split; [reflexivity |]. split; [reflexivity |].
  split; [intros H; now apply ensureSiteSelected_nonzero |].
  split; [reflexivity |]. split; [reflexivity |]. intros enabled. reflexivity.
Qed.

(** ** The four reads of the live status *)

(** X11: [GetStatus], [GetMetersAggregates], [GetSOE] and [GetGridStatus] are
    four views of the same GET of [live_status]: called in the same state
    they end in the same state, and they fail together, with the same
    error, or succeed together. *)
Theorem live_status_reads_agree (st : State) :
  snd (GetStatus st) = snd (GetSOE st) /\
  snd (GetMetersAggregates st) = snd (GetSOE st) /\
  snd (GetGridStatus st) = snd (GetSOE st) /\
  failure (fst (GetStatus st)) = failure (fst (GetSOE st)) /\
  failure (fst (GetMetersAggregates st)) = failure (fst (GetSOE st)) /\
  failure (fst (GetGridStatus st)) = failure (fst (GetSOE st)).
Proof.
  unfold GetStatus, GetMetersAggregates, GetSOE, GetGridStatus, bind, getClient.
  destruct (ensureSiteSelected st) as [[[] | e | msg] st1]; cbv beta iota;
    try (repeat split; reflexivity).
  destruct (apiGetJson (siteEndpoint (selectedSiteID (client st1)) "live_status") st1)
    as [[ls | e | msg] st2]; repeat split; reflexivity.
Qed.

(** ** Site information: watts to kilowatts *)

(** X12: when the site-info response of a selected site decodes to [r],
    [GetSiteInfo] succeeds; the two site-meter limits are the watts
    divided by 1000 with the remainder dropped, towards zero for either
    sign; both system-power fields are the same float32 quotient of the
    nameplate power; name, time zone and utility are passed through and
    every other grid field is empty. *)
Theorem GetSiteInfo_truncates_to_kilowatts
    (st st' : State) (r : SiteInfoResponse) :
  selectedSiteID (client st) <> 0 ->
  apiGetJson (siteEndpoint (selectedSiteID (client st)) "site_info") st = (Ok r, st') ->
  exists info : SiteInfoData,
    GetSiteInfo st = (Ok info, st') /\
    (let W := MaxSiteMeterPowerAC (si_Response r) in
     let k := MaxSiteMeterPowerKW info in
     Z.abs (1000 * k) <= Z.abs W < Z.abs (1000 * k) + 1000 /\ 0 <= k * W) /\
    (let W := MinSiteMeterPowerAC (si_Response r) in
     let k := MinSiteMeterPowerKW info in
     Z.abs (1000 * k) <= Z.abs W < Z.abs (1000 * k) + 1000 /\ 0 <= k * W) /\
    MaxSystemPowerKW info = NominalSystemPowerKW info /\
    NominalSystemPowerKW info
    = float.div32 (float.float32_of_int (NameplatePower (si_Response r)))
        (float.float32_of_int 1000) /\
    SiteName info = si_SiteName (si_Response r) /\
    TimeZone info = InstallationTimeZone (si_Response r) /\
    GridData info = mkGridData "" 0 0 "" "" "" "" (si_Utility (si_Response r)) "" "".
Proof.
  intros Hsite Hget.
  assert (Hq : forall W, Z.abs (1000 * (W ÷ 1000)) <= Z.abs W
                         < Z.abs (1000 * (W ÷ 1000)) + 1000
                         /\ 0 <= (W ÷ 1000) * W).
  { intros W. pose proof (Z.quot_rem W 1000 ltac:(lia)) as Hqr.
    pose proof (Z.rem_bound_abs W 1000 ltac:(lia)) as Hb.
    destruct (Z.le_gt_cases 0 W) as [Hpos | Hneg].
    - pose proof (Z.rem_nonneg W 1000 ltac:(lia) Hpos).
      pose proof (Z.quot_pos W 1000 Hpos ltac:(lia)). nia.
    - pose proof (Z.rem_nonpos W 1000 ltac:(lia) ltac:(lia)).
      assert (W ÷ 1000 <= 0).
      { replace W with (- - W) by lia. rewrite Z.quot_opp_l by lia.
        pose proof (Z.quot_pos (- W) 1000 ltac:(lia) ltac:(lia)). lia. }
      nia. }
  eexists. split.
  { unfold GetSiteInfo. rewrite gated_nonzero by assumption.
    unfold bind at 1, getClient. rewrite (bind_Ok _ _ _ _ _ Hget). reflexivity. }
  cbn [MaxSiteMeterPowerKW MinSiteMeterPowerKW MaxSystemPowerKW NominalSystemPowerKW
       SiteName TimeZone GridData].
  split; [apply Hq |]. split; [apply Hq |]. repeat split; reflexivity.
Qed.

(** ** The control commands *)

(** X13: [SetBackupReserve] on a selected site: a percentage below 0 or above
    100 fails locally, with a message that quotes the number, in the state
    the call was made in (nothing is sent); 0 and 100 themselves, and
    everything between, pass and the call becomes the POST of the one-member
    payload to the site's backup endpoint. *)
Theorem SetBackupReserve_checks_range (percent : Z) (st : State) :
  selectedSiteID (client st) <> 0 ->
  (percent < 0 \/ 100 < percent ->
   SetBackupReserve percent st
   = (Err (PlainError ("backup reserve percent must be between 0 and 100, got " +:+
                       fmt.Sprintf_d percent)), st)) /\
  (0 <= percent <= 100 ->
   SetBackupReserve percent st
   = (do response <- apiPostJson (A := gmap string JValue)
                       (siteEndpoint (selectedSiteID (client st)) "backup")
                       (Some {[ "backup_reserve_percent" := JInt percent ]});
      ret tt) st).
Proof.
  intros Hsite. unfold SetBackupReserve. rewrite gated_nonzero by assumption.
  split; intros H.
  - destruct (Z.ltb_spec percent 0); destruct (Z.ltb_spec 100 percent);
      simpl; try reflexivity; lia.
  - destruct (Z.ltb_spec percent 0); destruct (Z.ltb_spec 100 percent);
      simpl; try lia. reflexivity.
Qed.

(** X14: [SetSiteName] on a selected site: the empty name fails locally, in the
    state the call was made in; any other name, blank ones included, is
    posted as it is to the site's site_name endpoint. *)
Theorem SetSiteName_rejects_empty (name : string) (st : State) :
  selectedSiteID (client st) <> 0 ->
  SetSiteName "" st = (Err (PlainError "site name cannot be empty"), st) /\
  (name <> "" ->
   SetSiteName name st
   = (do response <- apiPostJson (A := gmap string JValue)
                       (siteEndpoint (selectedSiteID (client st)) "site_name")
                       (Some {[ "site_name" := JString name ]});
      ret tt) st).
Proof.
  intros Hsite. unfold SetSiteName. rewrite !gated_nonzero by assumption.
  split; [reflexivity |]. intros Hname.
  destruct (String.eqb_spec name "") as [E | _]; [contradiction | reflexivity].
Qed.

(** X15: the four command shortcuts never meet a local validation error: with
    no site selected they stop at the site gate, and otherwise each is the
    POST of its fixed payload (5 and 100 percent, Storm Watch on and off). *)
Theorem command_shortcuts_pass_validation (st : State) :
  (selectedSiteID (client st) = 0 ->
   SetMinimumBackupReserve st = (Err noSiteSelected, st) /\
   SetMaximumBackupReserve st = (Err noSiteSelected, st) /\
   EnableStormWatch st = (Err noSiteSelected, st) /\
   DisableStormWatch st = (Err noSiteSelected, st)) /\
  (selectedSiteID (client st) <> 0 ->
   let post (leaf : string) (payload : gmap string JValue) : M unit :=
     do response <- apiPostJson (A := gmap string JValue)
                      (siteEndpoint (selectedSiteID (client st)) leaf) (Some payload);
     ret tt in
   SetMinimumBackupReserve st = post "backup" {[ "backup_reserve_percent" := JInt 5 ]} st /\
   SetMaximumBackupReserve st = post "backup" {[ "backup_reserve_percent" := JInt 100 ]} st /\
   EnableStormWatch st = post "storm_mode" {[ "enabled" := JBool true ]} st /\
   DisableStormWatch st = post "storm_mode" {[ "enabled" := JBool false ]} st).
Proof.
  unfold SetMinimumBackupReserve, SetMaximumBackupReserve, EnableStormWatch,
    DisableStormWatch, SetBackupReserve, SetStormMode.
  split; intros Hsite.
  - repeat split; now apply gated_zero.
  - cbv zeta. rewrite !gated_nonzero by assumption. repeat split; reflexivity.
Qed.

(** ** The history queries: time zone and kind *)

Lemma withTimeZone_first (tz : string) (more : list string)
    (params : gmap string (list string)) :
  withTimeZone (tz :: more) params = withTimeZone [tz] params /\
  withTimeZone ("" :: more) params = withTimeZone [] params.
Proof. split; reflexivity. Qed.

(** X16: of the optional time zones only the first counts, and an empty first
    one counts as none, for each of the four history queries. *)
Theorem history_time_zone_first_only
    (kind startDate endDate period tz : string) (more : list string) (st : State) :
  GetTelemetryHistory startDate endDate (tz :: more) st
  = GetTelemetryHistory startDate endDate [tz] st /\
  GetEnergyHistory startDate endDate period (tz :: more) st
  = GetEnergyHistory startDate endDate period [tz] st /\
  GetBackupHistory startDate endDate period (tz :: more) st
  = GetBackupHistory startDate endDate period [tz] st /\
  GetCalendarHistory kind startDate endDate period (tz :: more) st
  = GetCalendarHistory kind startDate endDate period [tz] st /\
  GetTelemetryHistory startDate endDate ("" :: more) st
  = GetTelemetryHistory startDate endDate [] st /\
  GetEnergyHistory startDate endDate period ("" :: more) st
  = GetEnergyHistory startDate endDate period [] st /\
  GetBackupHistory startDate endDate period ("" :: more) st
  = GetBackupHistory startDate endDate period [] st /\
  GetCalendarHistory kind startDate endDate period ("" :: more) st
  = GetCalendarHistory kind startDate endDate period [] st.
Proof. repeat split; reflexivity. Qed.

(** X17: with a period the calendar accepts, [GetEnergyHistory] and
    [GetBackupHistory] are [GetCalendarHistory] with the kind energy and
    backup: the same query, the same outcome, in every state. *)
Theorem energy_and_backup_history_are_calendar_history
    (startDate endDate period : string) (timeZone : list string) (st : State) :
  isPeriod period ->
  GetEnergyHistory startDate endDate period timeZone st
  = GetCalendarHistory "energy" startDate endDate period timeZone st /\
  GetBackupHistory startDate endDate period timeZone st
  = GetCalendarHistory "backup" startDate endDate period timeZone st.
Proof.
  intros Hp. apply validPeriods_spec in Hp.
  assert (He : index validKinds "energy" = true)
    by (apply validKinds_spec; left; reflexivity).
  assert (Hb : index validKinds "backup" = true)
    by (apply validKinds_spec; right; reflexivity).
  unfold GetEnergyHistory, GetBackupHistory, GetCalendarHistory.
  rewrite He, Hb, Hp. split; reflexivity.
Qed.


(** ** What the Fleet API does not serve, and the placeholders *)

(** The six calls the Fleet API has no counterpart for fail with the
    unsupported-operation error that names the call, in any state (no site
    need be selected, no token be valid, the ceiling may be zero) and
    without touching it: nothing is sent. *)
Lemma unsupported_operations_fail_locally (st : State) (category : string) :
  (exists reason, GetOperation st = (Err (UnsupportedError "GetOperation" reason), st)) /\
  (exists reason, GetSystemStatus st = (Err (UnsupportedError "GetSystemStatus" reason), st)) /\
  (exists reason, GetSitemaster st = (Err (UnsupportedError "GetSitemaster" reason), st)) /\
  (exists reason, GetNetworks st = (Err (UnsupportedError "GetNetworks" reason), st)) /\
  (exists reason, GetGridFaults st = (Err (UnsupportedError "GetGridFaults" reason), st)) /\
  (exists reason, GetMeters category st = (Err (UnsupportedError "GetMeters" reason), st)).
Proof. repeat split; eexists; reflexivity. Qed.

(** The rate-limit status is a placeholder: whatever ceiling
    [SetRateLimit] has just stored, it reports 60 remaining requests and a
    reset one minute after the clock's reading; the usage statistics are
    zero in every state. *)
Lemma rate_limit_status_ignores_ceiling (requestsPerMinute : Z) (st : State) :
  let st1 := mkState (set_RealtimeDataRPM requestsPerMinute (client st)) (world st) in
  (run SetRateLimit requestsPerMinute; GetRateLimitStatus) st
  = (Ok (60, clock (world st) + time.Minute), st1) /\
  RealtimeDataRPM (rateLimitConfig (client st1)) = requestsPerMinute /\
  GetAPIUsageStats st1 = (Ok (0, float.zero), st1).
Proof. repeat split; reflexivity. Qed.


(** ** A read and a command, end to end *)

Lemma doFleetRequest_valid_200
    (method endpoint : string) (payload : option string)
    (st : State) (x : Exchange) (rest : list Exchange) (resp : Response) :
  RealtimeDataRPM (rateLimitConfig (client st)) <> 0 ->
  lastRequestTime (client st) <= clock (world st) ->
  clock (world st) + 60 * time.Second + 5 * time.Minute <= tokenExpiry (client st) ->
  script (world st) = x :: rest ->
  reply x = inr resp ->
  StatusCode resp = 200 ->
  exists t : time.Time,
    doFleetRequest method endpoint payload st
    = (Ok (RespBody resp),
       exchanged (waited st t)
         (fleetRequest method endpoint payload (accessToken (client st))) x rest).
Proof.
  intros Hrpm Hmono Hfresh Hscript Hreply Hcode.
  destruct (fleetExchange_steps method endpoint payload st Hrpm) as (t & Hge & Hle & Hx).
  destruct (Hle Hmono) as [Hle60 _]. exists t.
  destruct (Z.ltb_spec (tokenExpiry (client st)) (t + 5 * time.Minute)) as [Hexp | _];
    [lia |].
  rewrite (httpDo_next _ (waited st t) x rest Hscript), Hreply in Hx.
  unfold doFleetRequest. rewrite (bind_Ok _ _ _ _ _ Hx).
  unfold fleetStatus. cbn [fst snd]. now rewrite Hcode.
Qed.

(** X19: with a token good for six more minutes, and a 200 whose body
    decodes to [r], [GetProducts] returns the products of [r] after
    exactly one request: a GET of the base URL followed by
    /api/1/products, with the bearer token and the user agent as its only
    headers and no body. *)
Theorem GetProducts_is_one_get
    (st : State) (x : Exchange) (rest : list Exchange) (resp : Response)
    (r : ProductsResponse) :
  RealtimeDataRPM (rateLimitConfig (client st)) <> 0 ->
  lastRequestTime (client st) <= clock (world st) ->
  clock (world st) + 60 * time.Second + 5 * time.Minute <= tokenExpiry (client st) ->
  script (world st) = x :: rest ->
  reply x = inr resp ->
  StatusCode resp = 200 ->
  json_Unmarshal (RespBody resp) = inr r ->
  exists st' : State,
    GetProducts st = (Ok (pr_Response r), st') /\
    sent (world st')
    = (sent (world st) ++
       [mkRequest "GET" (FleetAPIBaseURL +:+ "/api/1/products")
          [("Authorization", "Bearer " +:+ accessToken (client st));
           ("User-Agent", "go-powerwall/v2.0")]
          None])%list /\
    script (world st') = rest.
Proof.
  intros Hrpm Hmono Hfresh Hscript Hreply Hcode Hjson.
  destruct (doFleetRequest_valid_200 "GET" "/api/1/products" None st x rest resp
              Hrpm Hmono Hfresh Hscript Hreply Hcode) as (t & Hrun).
  eexists. split.
  - unfold GetProducts, apiGetJson, bind. rewrite Hrun, Hjson. reflexivity.
  - split; reflexivity.
Qed.

(** X20: on a selected site, with a token good for six more minutes, a
    payload that marshals to [data] and a 200 whose body decodes as an
    object, [SetStormMode] succeeds after exactly one request: a POST of
    [data], declared as JSON, to the site's storm_mode endpoint. *)
Theorem SetStormMode_is_one_post
    (enabled : bool) (st : State) (x : Exchange) (rest : list Exchange)
    (resp : Response) (data : string) (object : gmap string JValue) :
  selectedSiteID (client st) <> 0 ->
  RealtimeDataRPM (rateLimitConfig (client st)) <> 0 ->
  lastRequestTime (client st) <= clock (world st) ->
  clock (world st) + 60 * time.Second + 5 * time.Minute <= tokenExpiry (client st) ->
  script (world st) = x :: rest ->
  reply x = inr resp ->
  StatusCode resp = 200 ->
  json_Marshal {[ "enabled" := JBool enabled ]} = inr data ->
  json_Unmarshal (RespBody resp) = inr object ->
  exists st' : State,
    SetStormMode enabled st = (Ok tt, st') /\
    sent (world st')
    = (sent (world st) ++
       [mkRequest "POST"
          (FleetAPIBaseURL +:+ "/api/1/energy_sites/" +:+
           fmt.Sprintf_d (selectedSiteID (client st)) +:+ "/storm_mode")
          [("Content-Type", "application/json");
           ("Authorization", "Bearer " +:+ accessToken (client st));
           ("User-Agent", "go-powerwall/v2.0")]
          (Some data)])%list /\
    script (world st') = rest.
Proof.
  intros Hsite Hrpm Hmono Hfresh Hscript Hreply Hcode Hdata Hjson.
  destruct (doFleetRequest_valid_200 "POST"
              (siteEndpoint (selectedSiteID (client st)) "storm_mode") (Some data)
              st x rest resp Hrpm Hmono Hfresh Hscript Hreply Hcode) as (t & Hrun).
  eexists. split.
  - unfold SetStormMode. rewrite gated_nonzero by assumption.
    unfold apiPostJson, bind, getClient. rewrite Hdata. unfold ret at 1.
    rewrite Hrun, Hjson. reflexivity.
  - split; reflexivity.
Qed.


(** ** A refreshed token and the safety margin *)

(** X29: a refresh that succeeds with a lifetime of [expires_in] seconds,
    at most 9223372036 in magnitude (so that the seconds fit an int64 count
    of nanoseconds), stores a token that [IsTokenExpired] judges, at that
    very instant, expired exactly when [expires_in] is below 300: a
    lifetime shorter than the five-minute safety margin (zero, the value of
    an absent member, included) is expired as soon as it is stored, and 300
    itself is not. *)
Theorem RefreshToken_lifetime_against_margin
    (st : State) (x : Exchange) (rest : list Exchange) (resp : Response)
    (r : tokenResp.t) :
  script (world st) = x :: rest ->
  reply x = inr resp ->
  StatusCode resp = 200 ->
  json_Unmarshal (RespBody resp) = inr r ->
  Z.abs (tokenResp.ExpiresIn r) <= 9223372036 ->
  exists st' : State,
    RefreshToken st = (Ok tt, st') /\
    IsTokenExpired st' = (Ok (tokenResp.ExpiresIn r <? 300), st').
Proof.
  intros Hscript Hreply Hcode Hjson Hrange.
  eexists. split.
  - rewrite RefreshToken_cases, (httpDo_next _ st x rest Hscript), Hreply, Hcode.
    simpl negb. cbv iota. rewrite Hjson. reflexivity.
  - rewrite IsTokenExpired_eq. f_equal. f_equal.
    cbn [client world clock exchanged]. unfold refreshed.
    assert (Hexpiry : forall c : Client,
               tokenExpiry
                 (set_tokenExpiry
                    (time.Add (clock (world st) + Z.max 0 (took x))
                       (time.mul (tokenResp.ExpiresIn r) time.Second)) c)
               = clock (world st) + Z.max 0 (took x)
                 + tokenResp.ExpiresIn r * 1000000000).
    { intros c. cbn [tokenExpiry set_tokenExpiry]. unfold time.Add.
      now rewrite (seconds_exact _ Hrange). }
    cbv zeta. rewrite Hexpiry.
    rewrite (eq_refl : 5 * time.Minute = 300 * 1000000000).
    destruct (Z.ltb_spec (tokenResp.ExpiresIn r) 300);
      [apply Z.ltb_lt | apply Z.ltb_ge]; lia.
Qed.


End Core.

(** * The Duration codec *)

Section DurationCodec.

Import Decimal.

(** ** float64 arithmetic on small integers is exact *)

Lemma iter_pos_iter {A : Type} (f : A -> A) (p : positive) (x : A) :
  SpecFloat.iter_pos f p x = Pos.iter f x p.
Proof.
  revert x. induction p as [p IH | p IH |]; intros x; simpl.
  - rewrite !IH. now rewrite <- !Pos.iter_swap.
  - now rewrite !IH.
  - reflexivity.
Qed.

Lemma digits2_pos_shift (k d : positive) :
  digits2_pos (Pos.iter xO k d) = (digits2_pos k + d)%positive.
Proof.
  induction d as [| d IH] using Pos.peano_ind.
  - simpl. lia.
  - rewrite (Pos.iter_succ d _ xO). simpl. rewrite IH. lia.
Qed.

Lemma shift_value (k d : positive) :
  Zpos (Pos.iter xO k d) = Zpos k * 2 ^ Zpos d.
Proof.
  induction d as [| d IH] using Pos.peano_ind.
  - simpl. lia.
  - rewrite (Pos.iter_succ d _ xO), Pos2Z.inj_succ, Z.pow_succ_r by lia.
    change (Zpos (Pos.iter xO k d)~0) with (2 * Zpos (Pos.iter xO k d)).
    rewrite IH. lia.
Qed.

(** Shifting right over zeros that a shift to the left put there loses
    nothing. *)
Lemma shr_shift (k n r : positive) :
  SpecFloat.iter_pos shr_1 n (Build_shr_record (Zpos (Pos.iter xO k (n + r))) false false)
  = Build_shr_record (Zpos (Pos.iter xO k r)) false false.
Proof.
  rewrite iter_pos_iter.
  induction n as [| n IH] using Pos.peano_ind.
  - replace (1 + r)%positive with (Pos.succ r) by lia.
    rewrite (Pos.iter_succ r _ xO). reflexivity.
  - rewrite (Pos.iter_succ_r n _ shr_1).
    replace (Pos.succ n + r)%positive with (Pos.succ (n + r)) by lia.
    rewrite (Pos.iter_succ (n + r) _ xO). cbn [shr_1 orb]. exact IH.
Qed.

Lemma digits2_pos_bounds (p : positive) :
  2 ^ (Zpos (digits2_pos p) - 1) <= Zpos p < 2 ^ Zpos (digits2_pos p).
Proof.
  assert (Hstep : forall d : positive,
             2 ^ (Zpos (Pos.succ d) - 1) = 2 * 2 ^ (Zpos d - 1)
             /\ 2 ^ Zpos (Pos.succ d) = 2 * 2 ^ Zpos d).
  { intros d. rewrite Pos2Z.inj_succ. split.
    - replace (Z.succ (Zpos d) - 1) with (Z.succ (Zpos d - 1)) by lia.
      apply Z.pow_succ_r. lia.
    - apply Z.pow_succ_r. lia. }
  induction p as [p IH | p IH |]; cbn [digits2_pos].
  - destruct (Hstep (digits2_pos p)) as [-> ->]. rewrite Pos2Z.inj_xI.
    clear Hstep. revert IH.
    generalize (2 ^ (Zpos (digits2_pos p) - 1)) (2 ^ Zpos (digits2_pos p)). lia.
  - destruct (Hstep (digits2_pos p)) as [-> ->].
    change (Zpos p~0) with (2 * Zpos p).
    clear Hstep. revert IH.
    generalize (2 ^ (Zpos (digits2_pos p) - 1)) (2 ^ Zpos (digits2_pos p)). lia.
  - simpl. lia.
Qed.

Lemma digits2_pos_small (p : positive) :
  Zpos p < 2 ^ 52 -> Zpos (digits2_pos p) <= 52.
Proof.
  intros H. pose proof (digits2_pos_bounds p) as [Hlo _].
  destruct (Z.le_gt_cases (Zpos (digits2_pos p)) 52) as [Hle | Hgt]; [exact Hle |].
  assert (2 ^ 52 <= 2 ^ (Zpos (digits2_pos p) - 1)) by (apply Z.pow_le_mono_r; lia).
  lia.
Qed.

(** The float64 of a small positive integer: the integer shifted to 53
    bits. *)
Definition normal64 (p : positive) : spec_float :=
  S754_finite false
    (Pos.iter xO p (Z.to_pos (53 - Zpos (digits2_pos p))))
    (Zpos (digits2_pos p) - 53).

Lemma round_normal64 (p : positive) :
  Zpos p < 2 ^ 52 ->
  binary_round_aux 53 1024 false
    (Zpos (Pos.iter xO p (Z.to_pos (53 - Zpos (digits2_pos p)))))
    (Zpos (digits2_pos p) - 53) loc_Exact
  = normal64 p.
Proof.
  intros Hp. pose proof (digits2_pos_small p Hp) as Hd.
  set (dg := digits2_pos p) in *.
  set (sh := Z.to_pos (53 - Zpos dg)).
  assert (Hsh : Zpos sh = 53 - Zpos dg) by (subst sh; rewrite Z2Pos.id; lia).
  unfold binary_round_aux, shr_fexp, normal64. fold dg sh.
  cbn [Zdigits2]. rewrite digits2_pos_shift. fold dg.
  unfold fexp, emin.
  replace (Z.max (Zpos (dg + sh) + (Zpos dg - 53) - 53) (3 - 1024 - 53)
           - (Zpos dg - 53)) with 0 by lia.
  cbn [shr shr_record_of_loc shr_m loc_of_shr_record round_nearest_even Zdigits2].
  rewrite digits2_pos_shift. fold dg.
  replace (Z.max (Zpos (dg + sh) + (Zpos dg - 53) - 53) (3 - 1024 - 53)
           - (Zpos dg - 53)) with 0 by lia.
  cbn [shr shr_m].
  destruct (Z.leb_spec (Zpos dg - 53) (1024 - 53)) as [H | H]; [reflexivity | lia].
Qed.

Lemma float64_of_small (p : positive) :
  Zpos p < 2 ^ 52 -> float.float64_of_uint64 (Zpos p) = normal64 p.
Proof.
  intros Hp. pose proof (digits2_pos_small p Hp) as Hd.
  unfold float.float64_of_uint64, binary_normalize, binary_round.
  unfold fexp, emin, shl_align.
  replace (Z.max (Zpos (digits2_pos p) + 0 - 53) (3 - 1024 - 53) - 0)
    with (Z.neg (Z.to_pos (53 - Zpos (digits2_pos p)))).
  2:{ rewrite <- Pos2Z.opp_pos, Z2Pos.id by lia. lia. }
  replace (Z.max (Zpos (digits2_pos p) + 0 - 53) (3 - 1024 - 53))
    with (Zpos (digits2_pos p) - 53) by lia.
  now apply round_normal64.
Qed.

Lemma mul64_small (a b : positive) :
  Zpos a * Zpos b < 2 ^ 52 ->
  float.mul64 (normal64 a) (normal64 b) = normal64 (a * b).
Proof.
  intros Hab.
  assert (Ha : Zpos a < 2 ^ 52) by nia.
  assert (Hb : Zpos b < 2 ^ 52) by nia.
  pose proof (digits2_pos_small a Ha) as Hda.
  pose proof (digits2_pos_small b Hb) as Hdb.
  pose proof (digits2_pos_small (a * b) Hab) as Hdab.
  pose proof (digits2_pos_bounds a) as [Hla Hua].
  pose proof (digits2_pos_bounds b) as [Hlb Hub].
  pose proof (digits2_pos_bounds (a * b)) as [Hlab Huab].
  rewrite Pos2Z.inj_mul in Hlab, Huab.
  set (da := digits2_pos a) in *. set (db := digits2_pos b) in *.
  set (dab := digits2_pos (a * b)) in *.
  (* dab is da + db or da + db - 1 *)
  assert (Hlow : Zpos da + Zpos db - 1 <= Zpos dab).
  { destruct (Z.le_gt_cases (Zpos da + Zpos db - 1) (Zpos dab)) as [H | H]; [exact H |].
    assert (2 ^ Zpos dab <= 2 ^ (Zpos da + Zpos db - 2)) by (apply Z.pow_le_mono_r; lia).
    assert (2 ^ (Zpos da - 1) * 2 ^ (Zpos db - 1) = 2 ^ (Zpos da + Zpos db - 2)).
    { rewrite <- Z.pow_add_r by lia. f_equal. lia. }
    nia. }
  set (sa := Z.to_pos (53 - Zpos da)). set (sb := Z.to_pos (53 - Zpos db)).
  set (sab := Z.to_pos (53 - Zpos dab)).
  assert (Hsa : Zpos sa = 53 - Zpos da) by (subst sa; rewrite Z2Pos.id; lia).
  assert (Hsb : Zpos sb = 53 - Zpos db) by (subst sb; rewrite Z2Pos.id; lia).
  assert (Hsab : Zpos sab = 53 - Zpos dab) by (subst sab; rewrite Z2Pos.id; lia).
  unfold float.mul64, normal64. fold da db dab sa sb sab. cbn [SFmul xorb].
  (* the product of the mantissas is the product shifted *)
  set (n := Z.to_pos (Zpos sa + Zpos sb - Zpos sab)).
  assert (Hn : Zpos n = Zpos sa + Zpos sb - Zpos sab) by (subst n; rewrite Z2Pos.id; lia).
  assert (Hprod : (Pos.iter xO a sa * Pos.iter xO b sb)%positive
                  = Pos.iter xO (a * b)%positive (n + sab)%positive).
  { apply Pos2Z.inj. rewrite Pos2Z.inj_mul, !shift_value, Pos2Z.inj_mul.
    rewrite Pos2Z.inj_add, Hn.
    replace (Zpos sa + Zpos sb - Zpos sab + Zpos sab) with (Zpos sa + Zpos sb) by lia.
    rewrite Z.pow_add_r by lia. ring. }
  rewrite Hprod.
  unfold binary_round_aux, shr_fexp.
  cbn [Zdigits2]. rewrite digits2_pos_shift. fold dab.
  unfold fexp, emin.
  replace (Z.max (Zpos (dab + (n + sab)) + (Zpos da - 53 + (Zpos db - 53)) - 53)
             (3 - 1024 - 53) - (Zpos da - 53 + (Zpos db - 53)))
    with (Zpos n) by lia.
  cbn [shr shr_record_of_loc]. rewrite shr_shift.
  cbn [shr_m loc_of_shr_record round_nearest_even Zdigits2].
  rewrite digits2_pos_shift. fold dab.
  replace (Z.max (Zpos (dab + sab) + (Zpos da - 53 + (Zpos db - 53) + Zpos n) - 53)
             (3 - 1024 - 53) - (Zpos da - 53 + (Zpos db - 53) + Zpos n))
    with 0 by lia.
  cbn [shr shr_m].
  destruct (Z.leb_spec (Zpos da - 53 + (Zpos db - 53) + Zpos n) (1024 - 53)) as [H | H];
    [| lia].
  f_equal. lia.
Qed.

Lemma uint64_of_normal64 (p : positive) :
  Zpos p < 2 ^ 52 -> float.uint64_of_float64 (normal64 p) = Zpos p.
Proof.
  intros Hp. pose proof (digits2_pos_small p Hp) as Hd.
  unfold float.uint64_of_float64, normal64.
  set (sh := Z.to_pos (53 - Zpos (digits2_pos p))).
  assert (Hsh : Zpos sh = 53 - Zpos (digits2_pos p)) by (subst sh; rewrite Z2Pos.id; lia).
  replace (Zpos (digits2_pos p) - 53) with (Z.neg sh) by (rewrite <- Pos2Z.opp_pos; lia).
  rewrite shift_value. apply Z.div_mul. apply Z.pow_nonzero; lia.
Qed.

(** When the quotient of unit and scale is the float64 of an integer [q]
    and [f * q] is small, the fraction is [f * q] exactly. *)
Lemma fractionOf_exact (f unit scale q : Z) :
  float.div64 (float.float64_of_uint64 unit) (float.float64_of_uint64 scale)
  = float.float64_of_uint64 q ->
  0 < f -> 0 < q -> f * q < 2 ^ 52 ->
  time.fractionOf f unit scale = f * q.
Proof.
  intros Hdiv Hf Hq Hfq. unfold time.fractionOf. rewrite Hdiv.
  destruct f as [| a |]; try lia. destruct q as [| b |]; try lia.
  rewrite !float64_of_small by nia.
  rewrite mul64_small by exact Hfq.
  rewrite uint64_of_normal64 by (rewrite Pos2Z.inj_mul; exact Hfq).
  apply Pos2Z.inj_mul.
Qed.

(** The fractions [Duration_String] writes: a unit of 10^prec nanoseconds
    (prec 3, 6 or 9) and a scale 10^j of at most as many digits. *)
Lemma fractionOf_pow10 (prec j : nat) (f : Z) :
  (prec = 3 \/ prec = 6 \/ prec = 9)%nat -> (j <= prec)%nat ->
  0 < f < 10 ^ Z.of_nat j ->
  time.fractionOf f (10 ^ Z.of_nat prec) (10 ^ Z.of_nat j)
  = f * 10 ^ (Z.of_nat prec - Z.of_nat j).
Proof.
  intros Hprec Hj Hf.
  assert (Hcase : forall U sc q : Z,
             float.div64 (float.float64_of_uint64 U) (float.float64_of_uint64 sc)
             = float.float64_of_uint64 q ->
             0 < q -> sc * q <= 10 ^ 9 -> 0 < f < sc ->
             time.fractionOf f U sc = f * q).
  { intros U sc q Hdiv Hq Hsmall Hfsc.
    apply fractionOf_exact; [exact Hdiv | lia | exact Hq |].
    assert (f * q < sc * q) by (apply Z.mul_lt_mono_pos_r; lia). lia. }
  destruct Hprec as [-> | [-> | ->]];
    do 10 (try (destruct j as [| j];
                [ first [ exfalso; simpl in Hf; lia
                        | apply Hcase;
                          [ vm_compute; reflexivity | reflexivity
                          | vm_compute; discriminate | exact Hf ] ]
                | ]));
    exfalso; lia.
Qed.

(** ** Digits *)

Lemma code_digitChar (d : Z) : 0 <= d < 10 -> code (digitChar d) = 48 + d.
Proof.
  intros H. unfold code, digitChar.
  rewrite N_ascii_embedding by lia. lia.
Qed.

Lemma isDigit_digitChar (d : Z) : 0 <= d < 10 -> isDigit (digitChar d) = true.
Proof.
  intros H. unfold isDigit. rewrite (code_digitChar d H).
  apply andb_true_iff. split; apply Z.leb_le; lia.
Qed.

(** The first byte is a decimal digit. *)
Definition headDigit (s : string) : bool :=
  match s with
  | String c _ => isDigit c
  | EmptyString => false
  end.

Lemma fmtDigits_length (fuel : nat) (v : Z) (tail : string) :
  (String.length tail <= String.length (fmtDigits fuel v tail))%nat.
Proof.
  revert v tail. induction fuel as [| fuel IH]; intros v tail; simpl; [lia |].
  destruct (v <=? 0); [lia |].
  specialize (IH (v / 10) (String (digitChar (v mod 10)) tail)). simpl in IH. lia.
Qed.

Lemma fmtDigits_headDigit (fuel : nat) (v : Z) (tail : string) :
  headDigit tail = true -> headDigit (fmtDigits fuel v tail) = true.
Proof.
  revert v tail. induction fuel as [| fuel IH]; intros v tail H; simpl; [exact H |].
  destruct (v <=? 0); [exact H |].
  apply IH. simpl. apply isDigit_digitChar. apply Z.mod_pos_bound. lia.
Qed.

Lemma fmtDigits_step (fuel : nat) (v : Z) (tail : string) :
  0 < v ->
  fmtDigits (S fuel) v tail
  = fmtDigits fuel (v / 10) (String (digitChar (v mod 10)) tail).
Proof.
  intros Hv. simpl. destruct (Z.leb_spec v 0) as [Hle | Hgt]; [lia | reflexivity].
Qed.

Lemma fmtUint_length (v : Z) (tail : string) :
  0 <= v -> (String.length tail < String.length (fmtUint v tail))%nat.
Proof.
  intros Hv. unfold fmtUint. destruct (Z.eqb_spec v 0) as [E | E]; [simpl; lia |].
  rewrite fmtDigits_step by lia.
  pose proof (fmtDigits_length 19 (v / 10) (String (digitChar (v mod 10)) tail)) as H.
  cbn [String.length] in H. lia.
Qed.

Lemma fmtUint_headDigit (v : Z) (tail : string) :
  0 <= v -> headDigit (fmtUint v tail) = true.
Proof.
  intros Hv. unfold fmtUint. destruct (Z.eqb_spec v 0) as [E | E]; [reflexivity |].
  rewrite fmtDigits_step by lia.
  apply fmtDigits_headDigit. simpl. apply isDigit_digitChar.
  apply Z.mod_pos_bound. lia.
Qed.

(** ** Reading back an integer *)

Lemma leadingIntLoop_stop (x : Z) (tail : string) :
  headDigit tail = false -> time.leadingIntLoop x tail = Some (x, tail).
Proof.
  destruct tail as [| c tail]; simpl; [reflexivity |]. now intros ->.
Qed.

Lemma leadingIntLoop_digit (x d : Z) (tail : string) :
  0 <= d < 10 -> 0 <= x -> x * 10 + d <= 2 ^ 63 ->
  time.leadingIntLoop x (String (digitChar d) tail)
  = time.leadingIntLoop (x * 10 + d) tail.
Proof.
  intros Hd Hx Hle. simpl. rewrite (isDigit_digitChar d Hd). simpl.
  rewrite (code_digitChar d Hd).
  assert (Hq : x <= 2 ^ 63 / 10) by (apply Z.div_le_lower_bound; lia).
  destruct (Z.ltb_spec (2 ^ 63 / 10) x); [lia |].
  replace (x * 10 + (48 + d - 48)) with (x * 10 + d) by lia.
  destruct (Z.ltb_spec (2 ^ 63) (x * 10 + d)); [lia | reflexivity].
Qed.

Lemma leadingIntLoop_fmtDigits (fuel : nat) (v : Z) (tail : string) :
  0 <= v <= 2 ^ 63 -> v < 10 ^ Z.of_nat fuel ->
  time.leadingIntLoop 0 (fmtDigits fuel v tail) = time.leadingIntLoop v tail.
Proof.
  revert v tail. induction fuel as [| fuel IH]; intros v tail Hv Hlt.
  - simpl in *. assert (v = 0) by lia. now subst.
  - simpl fmtDigits. destruct (Z.leb_spec v 0) as [H0 | Hpos].
    + assert (v = 0) by lia. now subst.
    + pose proof (Z.mod_pos_bound v 10 ltac:(lia)) as Hm.
      pose proof (Z.div_mod v 10 ltac:(lia)) as Hdm.
      rewrite IH.
      * rewrite leadingIntLoop_digit by lia. f_equal. lia.
      * split; [apply Z.div_pos; lia |].
        apply Z.div_le_upper_bound; lia.
      * apply Z.div_lt_upper_bound; [lia |].
        rewrite Nat2Z.inj_succ, Z.pow_succ_r in Hlt by lia. exact Hlt.
Qed.

Lemma leadingInt_fmtUint (v : Z) (tail : string) :
  0 <= v <= 2 ^ 63 -> headDigit tail = false ->
  time.leadingInt (fmtUint v tail) = Some (v, tail).
Proof.
  intros Hv Htail. unfold time.leadingInt, fmtUint.
  destruct (Z.eqb_spec v 0) as [-> | Hne].
  - change (String "0" tail) with (String (digitChar 0) tail).
    rewrite leadingIntLoop_digit by lia. now apply leadingIntLoop_stop.
  - rewrite leadingIntLoop_fmtDigits by (simpl; lia).
    now apply leadingIntLoop_stop.
Qed.

(** ** Reading back a fraction *)

Lemma leadingFractionLoop_stop (x scale : Z) (tail : string) :
  headDigit tail = false ->
  time.leadingFractionLoop x scale false tail = (x, scale, tail).
Proof.
  destruct tail as [| c tail]; simpl; [reflexivity |]. now intros ->.
Qed.

Lemma leadingFractionLoop_digit (x scale d : Z) (tail : string) :
  0 <= d < 10 -> 0 <= x < 10 ^ 17 ->
  time.leadingFractionLoop x scale false (String (digitChar d) tail)
  = time.leadingFractionLoop (x * 10 + d) (scale * 10) false tail.
Proof.
  intros Hd Hx. simpl. rewrite (isDigit_digitChar d Hd). simpl.
  rewrite (code_digitChar d Hd).
  assert (Hq : x <= (2 ^ 63 - 1) / 10) by (apply Z.div_le_lower_bound; lia).
  destruct (Z.ltb_spec ((2 ^ 63 - 1) / 10) x); [lia |].
  replace (x * 10 + (48 + d - 48)) with (x * 10 + d) by lia.
  destruct (Z.ltb_spec (2 ^ 63) (x * 10 + d)); [lia | reflexivity].
Qed.

Lemma mod_pow10_succ (v : Z) (k : nat) :
  0 <= v ->
  v mod 10 ^ Z.of_nat (S k) = (v / 10) mod 10 ^ Z.of_nat k * 10 + v mod 10.
Proof.
  intros Hv. rewrite Nat2Z.inj_succ, Z.pow_succ_r by lia.
  rewrite Z.rem_mul_r by lia. lia.
Qed.

Lemma div_pow10_succ (v : Z) (k : nat) :
  0 <= v -> v / 10 ^ Z.of_nat (S k) = v / 10 / 10 ^ Z.of_nat k.
Proof.
  intros Hv. rewrite Nat2Z.inj_succ, Z.pow_succ_r by lia.
  rewrite Z.div_div by lia. reflexivity.
Qed.

(** Once a digit has been printed, every further digit is: the [k] digits
    of [v mod 10^k] are written and read back as such. *)
Lemma fmtFracLoop_printing (k : nat) (v : Z) (tail : string) :
  0 <= v -> (k <= 17)%nat ->
  exists out,
    time.fmtFracLoop k v true tail = (out, v / 10 ^ Z.of_nat k, true) /\
    (String.length tail <= String.length out)%nat /\
    time.leadingFractionLoop 0 1 false out
    = time.leadingFractionLoop (v mod 10 ^ Z.of_nat k) (10 ^ Z.of_nat k) false tail.
Proof.
  revert v tail. induction k as [| k IH]; intros v tail Hv Hk.
  - exists tail. simpl. rewrite Z.div_1_r, Z.mod_1_r. repeat split; lia.
  - pose proof (Z.mod_pos_bound v 10 ltac:(lia)) as Hm.
    destruct (IH (v / 10) (String (digitChar (v mod 10)) tail)) as (out & Hout & Hlen & Hread).
    { apply Z.div_pos; lia. } { lia. }
    exists out. cbn [time.fmtFracLoop]. cbv zeta. simpl orb. cbv iota.
    rewrite Hout, div_pow10_succ by lia.
    split; [reflexivity |]. split; [simpl in Hlen; lia |].
    rewrite Hread.
    assert (Hb : 0 <= (v / 10) mod 10 ^ Z.of_nat k < 10 ^ 17).
    { pose proof (Z.mod_pos_bound (v / 10) (10 ^ Z.of_nat k) ltac:(lia)) as Hb.
      split; [lia |]. eapply Z.lt_le_trans; [apply Hb |].
      apply Z.pow_le_mono_r; lia. }
    rewrite leadingFractionLoop_digit by lia.
    rewrite mod_pow10_succ by lia.
    rewrite Nat2Z.inj_succ, Z.pow_succ_r by lia.
    f_equal. lia.
Qed.

(** Before that, trailing zeros are passed over. *)
Lemma fmtFracLoop_scanning (k : nat) (v : Z) (tail : string) :
  0 <= v -> (k <= 17)%nat ->
  (v mod 10 ^ Z.of_nat k = 0 ->
   time.fmtFracLoop k v false tail = (tail, v / 10 ^ Z.of_nat k, false)) /\
  (v mod 10 ^ Z.of_nat k <> 0 ->
   exists out f j,
     time.fmtFracLoop k v false tail = (out, v / 10 ^ Z.of_nat k, true) /\
     (j <= k)%nat /\ 0 < f /\
     f * 10 ^ (Z.of_nat k - Z.of_nat j) = v mod 10 ^ Z.of_nat k /\
     (String.length tail <= String.length out)%nat /\
     time.leadingFractionLoop 0 1 false out
     = time.leadingFractionLoop f (10 ^ Z.of_nat j) false tail).
Proof.
  revert v tail. induction k as [| k IH]; intros v tail Hv Hk.
  - simpl. rewrite Z.div_1_r, Z.mod_1_r. split; [reflexivity | lia].
  - pose proof (Z.mod_pos_bound v 10 ltac:(lia)) as Hm.
    pose proof (mod_pow10_succ v k Hv) as Hsucc.
    pose proof (Z.mod_pos_bound (v / 10) (10 ^ Z.of_nat k) ltac:(lia)) as Hb.
    destruct (Z.eq_dec (v mod 10) 0) as [Hz | Hnz].
    + (* a trailing zero *)
      assert (Hstep : forall t, time.fmtFracLoop (S k) v false t
                                = time.fmtFracLoop k (v / 10) false t).
      { intros t. cbn [time.fmtFracLoop]. cbv zeta. rewrite Hz. reflexivity. }
      destruct (IH (v / 10) tail) as [IH0 IH1]; [apply Z.div_pos; lia | lia |].
      split.
      * intros H0. rewrite Hstep, IH0 by lia. now rewrite div_pow10_succ.
      * intros H1. destruct IH1 as (out & f & j & Hout & Hj & Hf & Hval & Hlen & Hread);
          [lia |].
        exists out, f, j. rewrite Hstep, Hout, div_pow10_succ by lia.
        split; [reflexivity |]. split; [lia |]. split; [lia |].
        split; [| split; assumption].
        rewrite Hsucc, Hz, <- Hval.
        replace (Z.of_nat (S k) - Z.of_nat j) with (Z.succ (Z.of_nat k - Z.of_nat j)) by lia.
        rewrite Z.pow_succ_r by lia. lia.
    + (* the first digit to print *)
      assert (Hstep : time.fmtFracLoop (S k) v false tail
                      = time.fmtFracLoop (S k) v true tail).
      { cbn [time.fmtFracLoop]. cbv zeta.
        destruct (Z.eqb_spec (v mod 10) 0); [contradiction | reflexivity]. }
      split; [intros H0; lia |]. intros _.
      destruct (fmtFracLoop_printing (S k) v tail Hv Hk) as (out & Hout & Hlen & Hread).
      exists out, (v mod 10 ^ Z.of_nat (S k)), (S k).
      rewrite Hstep, Hout. split; [reflexivity |]. split; [lia |].
      split; [lia |]. split; [| split; assumption].
      rewrite Z.sub_diag. lia.
Qed.

(** ** One segment: a number, its fraction, its unit *)

Lemma fmtFrac_spec (tail : string) (v : Z) (prec : nat) :
  0 <= v -> (prec <= 17)%nat -> headDigit tail = false ->
  exists w,
    time.fmtFrac tail v prec = (w, v / 10 ^ Z.of_nat prec) /\
    (v mod 10 ^ Z.of_nat prec = 0 -> w = tail) /\
    (v mod 10 ^ Z.of_nat prec <> 0 ->
     exists out f j,
       w = String "." out /\ (j <= prec)%nat /\ 0 < f /\
       f * 10 ^ (Z.of_nat prec - Z.of_nat j) = v mod 10 ^ Z.of_nat prec /\
       time.leadingFraction out = (f, 10 ^ Z.of_nat j, tail)).
Proof.
  intros Hv Hprec Htail. unfold time.fmtFrac.
  destruct (fmtFracLoop_scanning prec v tail Hv Hprec) as [H0 H1].
  destruct (Z.eq_dec (v mod 10 ^ Z.of_nat prec) 0) as [E | E].
  - rewrite (H0 E). exists tail. split; [reflexivity |].
    split; [reflexivity | intros; contradiction].
  - destruct (H1 E) as (out & f & j & Hout & Hj & Hf & Hval & _ & Hread).
    rewrite Hout. exists (String "." out). split; [reflexivity |].
    split; [intros; contradiction |]. intros _.
    exists out, f, j. repeat split; try assumption.
    unfold time.leadingFraction. rewrite Hread.
    now apply leadingFractionLoop_stop.
Qed.

(** [unitName] is read as a unit of [U] nanoseconds in front of [rest]. *)
Definition unitAt (unitName rest : string) (U : Z) : Prop :=
  time.spanUnit (unitName +:+ rest) = (unitName, rest) /\
  time.unitMap !! unitName = Some U /\
  exists c r, unitName = String c r /\ isDigit c = false /\ code c <> 46.

Lemma unitAt_ns : unitAt "ns" "" time.Nanosecond.
Proof. split; [reflexivity |]. split; [reflexivity |]. eexists _, _. repeat split; discriminate. Qed.

Lemma unitAt_micro : unitAt time.microSign "" time.Microsecond.
Proof. split; [reflexivity |]. split; [reflexivity |]. eexists _, _. repeat split; discriminate. Qed.

Lemma unitAt_ms : unitAt "ms" "" time.Millisecond.
Proof. split; [reflexivity |]. split; [reflexivity |]. eexists _, _. repeat split; discriminate. Qed.

Lemma unitAt_s : unitAt "s" "" time.Second.
Proof. split; [reflexivity |]. split; [reflexivity |]. eexists _, _. repeat split; discriminate. Qed.

Lemma spanUnit_headDigit (rest : string) :
  headDigit rest = true -> time.spanUnit rest = (EmptyString, rest).
Proof.
  destruct rest as [| c rest]; simpl; [discriminate |].
  intros ->. now rewrite orb_true_r.
Qed.

Lemma spanUnit_letter (c : ascii) (rest : string) :
  isDigit c = false -> code c <> 46 -> headDigit rest = true ->
  time.spanUnit (String c rest) = (String c EmptyString, rest).
Proof.
  intros Hc Hdot Hrest. cbn [time.spanUnit].
  rewrite (spanUnit_headDigit rest Hrest), Hc.
  destruct (Z.eqb_spec (code c) 46) as [E | E]; [contradiction | reflexivity].
Qed.

Lemma unitAt_m (rest : string) : headDigit rest = true -> unitAt "m" rest time.Minute.
Proof.
  intros H. split; [| split; [reflexivity |]].
  - apply spanUnit_letter; [reflexivity | discriminate | exact H].
  - eexists _, _. repeat split; discriminate.
Qed.

Lemma unitAt_h (rest : string) : headDigit rest = true -> unitAt "h" rest time.Hour.
Proof.
  intros H. split; [| split; [reflexivity |]].
  - apply spanUnit_letter; [reflexivity | discriminate | exact H].
  - eexists _, _. repeat split; discriminate.
Qed.

Lemma parseSegment_number (unitName rest : string) (U0 : Z) (prec : nat) (u n d : Z) :
  unitAt unitName rest (U0 * 10 ^ Z.of_nat prec) ->
  (forall (f : Z) (j : nat),
      (j <= prec)%nat -> 0 < f < 10 ^ Z.of_nat j ->
      time.fractionOf f (U0 * 10 ^ Z.of_nat prec) (10 ^ Z.of_nat j)
      = f * 10 ^ (Z.of_nat prec - Z.of_nat j) * U0) ->
  0 < U0 -> (prec <= 17)%nat -> 0 <= u -> 0 <= n -> 0 <= d ->
  d + n * (U0 * 10 ^ Z.of_nat prec) + u mod 10 ^ Z.of_nat prec * U0 <= 2 ^ 63 ->
  time.parseSegment
    (time.fmtInt (fst (time.fmtFrac (unitName +:+ rest) u prec)) n) d
  = inr (rest, d + n * (U0 * 10 ^ Z.of_nat prec) + u mod 10 ^ Z.of_nat prec * U0).
Proof.
  intros (Hspan & Hmap & c & r & -> & Hc & Hdot) Hexact HU0 Hprec Hu Hn Hd Hsum.
  change (String c r +:+ rest) with (String c (r +:+ rest)) in *.
  set (U := U0 * 10 ^ Z.of_nat prec) in *.
  assert (HU : 0 < U) by (subst U; apply Z.mul_pos_pos; lia).
  pose proof (Z.mod_pos_bound u (10 ^ Z.of_nat prec) ltac:(lia)) as Hm.
  assert (HnU : 0 <= n * U) by (apply Z.mul_nonneg_nonneg; lia).
  assert (HmU : 0 <= u mod 10 ^ Z.of_nat prec * U0) by (apply Z.mul_nonneg_nonneg; lia).
  assert (Hn63 : n <= 2 ^ 63).
  { assert (n * 1 <= n * U) by (apply Z.mul_le_mono_nonneg_l; lia). lia. }
  assert (Hq : n <= 2 ^ 63 / U) by (apply Z.div_le_lower_bound; lia).
  assert (Htail : headDigit (String c (r +:+ rest)) = false) by exact Hc.
  destruct (fmtFrac_spec (String c (r +:+ rest)) u prec Hu Hprec Htail)
    as (w & Hw & Hw0 & Hw1).
  rewrite Hw. cbn [fst]. unfold time.fmtInt.
  assert (Hwhead : headDigit w = false).
  { destruct (Z.eq_dec (u mod 10 ^ Z.of_nat prec) 0) as [E | E].
    - now rewrite (Hw0 E).
    - destruct (Hw1 E) as (out & f & j & -> & _). reflexivity. }
  pose proof (fmtUint_headDigit n w Hn) as Hhead.
  pose proof (fmtUint_length n w Hn) as Hlen.
  pose proof (leadingInt_fmtUint n w ltac:(lia) Hwhead) as Hint.
  unfold time.parseSegment.
  destruct (fmtUint n w) as [| c0 s0] eqn:Es; [discriminate |].
  cbn [headDigit] in Hhead. rewrite Hhead, orb_true_r. cbn [negb].
  rewrite Hint.
  destruct (Nat.eqb_spec (String.length (String c0 s0)) (String.length w)) as [El | El];
    [lia |]. cbn [negb andb].
  destruct (Z.eq_dec (u mod 10 ^ Z.of_nat prec) 0) as [E | E].
  - rewrite (Hw0 E).
    destruct (Z.eqb_spec (code c) 46) as [Ec | Ec]; [contradiction |].
    rewrite Hspan, Hmap.
    destruct (Z.ltb_spec (2 ^ 63 / U) n) as [Hlt | Hge]; [lia |].
    cbn [Z.ltb Z.compare andb].
    rewrite Z.mod_small by lia.
    destruct (Z.ltb_spec (2 ^ 63) (d + n * U)) as [Hlt' | Hge']; [lia |].
    rewrite E. do 2 f_equal. lia.
  - destruct (Hw1 E) as (out & f & j & -> & Hj & Hf & Hval & Hfrac).
    change (code ".") with 46. cbn [Z.eqb Pos.eqb]. rewrite Hfrac.
    rewrite Hspan, Hmap.
    destruct (Z.ltb_spec (2 ^ 63 / U) n) as [Hlt | Hge]; [lia |].
    destruct (Z.ltb_spec 0 f) as [Hfpos | Hfneg]; [| lia].
    assert (Hfrac_val : time.fractionOf f U (10 ^ Z.of_nat j)
                        = u mod 10 ^ Z.of_nat prec * U0).
    { rewrite <- Hval. apply Hexact; [exact Hj |]. split; [exact Hf |].
      assert (H10 : 10 ^ Z.of_nat prec
                    = 10 ^ (Z.of_nat prec - Z.of_nat j) * 10 ^ Z.of_nat j).
      { rewrite <- Z.pow_add_r by lia. f_equal. lia. }
      assert (Hpos : 0 < 10 ^ (Z.of_nat prec - Z.of_nat j)) by (apply Z.pow_pos_nonneg; lia).
      destruct Hm as [_ Hm]. rewrite <- Hval, H10, (Z.mul_comm f) in Hm.
      now apply Z.mul_lt_mono_pos_l in Hm. }
    rewrite Hfrac_val. cbn [andb].
    destruct (Z.ltb_spec (2 ^ 63) (n * U + u mod 10 ^ Z.of_nat prec * U0)) as [Hlt' | Hge'];
      [lia |].
    rewrite Z.mod_small by lia.
    destruct (Z.ltb_spec (2 ^ 63)
                (d + (n * U + u mod 10 ^ Z.of_nat prec * U0))) as [Hlt'' | Hge''];
      [lia |].
    do 2 f_equal. lia.
Qed.

Lemma parseSegment_whole (unitName rest : string) (U n d : Z) :
  unitAt unitName rest U -> 0 < U -> 0 <= n -> 0 <= d -> d + n * U <= 2 ^ 63 ->
  time.parseSegment (time.fmtInt (unitName +:+ rest) n) d = inr (rest, d + n * U).
Proof.
  intros Hunit HU Hn Hd Hsum.
  pose proof (parseSegment_number unitName rest U 0 0 n d) as H.
  cbn [Z.of_nat] in H. rewrite Z.pow_0_r, Z.mul_1_r, Z.mod_1_r in H.
  rewrite Z.mul_0_l, Z.add_0_r in H.
  apply H; try assumption; try lia.
  intros f j Hj Hf. assert (j = 0%nat) by lia. subst j. simpl in Hf. lia.
Qed.

(** ** The whole text *)

Lemma parseSegments_step (fuel : nat) (s : string) (d : Z) :
  headDigit s = true ->
  time.parseSegments (S fuel) s d
  = match time.parseSegment s d with
    | inl msg => inl msg
    | inr (s', d') => time.parseSegments fuel s' d'
    end.
Proof. destruct s; [discriminate | reflexivity]. Qed.

Lemma parseSegments_done (fuel : nat) (d : Z) :
  time.parseSegments fuel EmptyString d = inr d.
Proof. destruct fuel; reflexivity. Qed.

(** The text of a magnitude [u], without the sign. *)
Definition magnitudeText (u : Z) : string :=
  if u <? time.Second then
    if u =? 0 then "0s"
    else
      let '(unitName, prec) :=
        if u <? time.Microsecond then ("ns", 0%nat)
        else if u <? time.Millisecond then (time.microSign, 3%nat)
        else ("ms", 6%nat) in
      let '(w, u') := time.fmtFrac unitName u prec in
      time.fmtInt w u'
  else
    let '(w, u1) := time.fmtFrac "s" u 9 in
    let w := time.fmtInt w (u1 mod 60) in
    let u2 := u1 / 60 in
    if 0 <? u2 then
      let w := time.fmtInt (String "m" w) (u2 mod 60) in
      let u3 := u2 / 60 in
      if 0 <? u3 then time.fmtInt (String "h" w) u3 else w
    else w.

Lemma Duration_String_eq (d : Z) :
  time.Duration_String d
  = if d <? 0 then String "-" (magnitudeText (Z.abs d)) else magnitudeText (Z.abs d).
Proof. reflexivity. Qed.

(** A magnitude below one second: one segment in ns, microseconds or ms. *)
Lemma subsecond_text (unitName : string) (prec : nat) (u : Z) :
  unitAt unitName "" (10 ^ Z.of_nat prec) ->
  (prec = 0 \/ prec = 3 \/ prec = 6 \/ prec = 9)%nat ->
  0 <= u <= 2 ^ 63 ->
  let w := time.fmtInt (fst (time.fmtFrac unitName u prec))
             (snd (time.fmtFrac unitName u prec)) in
  headDigit w = true /\
  (2 <= String.length w)%nat /\
  forall fuel, (1 <= fuel)%nat -> time.parseSegments fuel w 0 = inr u.
Proof.
  intros Hunit Hcases Hu w.
  assert (Hprec : (prec <= 17)%nat) by lia.
  assert (Hexact : forall (f : Z) (j : nat),
             (j <= prec)%nat -> 0 < f < 10 ^ Z.of_nat j ->
             time.fractionOf f (1 * 10 ^ Z.of_nat prec) (10 ^ Z.of_nat j)
             = f * 10 ^ (Z.of_nat prec - Z.of_nat j) * 1).
  { intros f j Hj Hf. rewrite Z.mul_1_l, Z.mul_1_r.
    destruct Hcases as [-> | Hcases]; [| now apply fractionOf_pow10].
    assert (j = 0%nat) by lia. subst j. simpl in Hf. lia. }
  destruct Hunit as (Hspan & Hmap & c & r & Hname & Hc & Hdot).
  assert (Hunit : unitAt unitName "" (1 * 10 ^ Z.of_nat prec)).
  { rewrite Z.mul_1_l. split; [exact Hspan |]. split; [exact Hmap |]. now exists c, r. }
  assert (Happ : unitName +:+ "" = unitName).
  { clear. induction unitName as [| a s IH]; [reflexivity |].
    change (String a s +:+ "") with (String a (s +:+ "")). now rewrite IH. }
  assert (Htail : headDigit unitName = false) by (subst unitName; exact Hc).
  destruct (fmtFrac_spec unitName u prec ltac:(lia) Hprec Htail) as (w0 & Hw0 & Hz & Hnz).
  pose proof (Z.mod_pos_bound u (10 ^ Z.of_nat prec) ltac:(lia)) as Hm.
  pose proof (Z.div_mod u (10 ^ Z.of_nat prec) ltac:(lia)) as Hdm.
  assert (Hn : 0 <= u / 10 ^ Z.of_nat prec) by (apply Z.div_pos; lia).
  pose proof (parseSegment_number unitName "" 1 prec u (u / 10 ^ Z.of_nat prec) 0
                Hunit Hexact ltac:(lia) Hprec ltac:(lia) Hn ltac:(lia)) as Hseg.
  rewrite Happ in Hseg.
  subst w. rewrite Hw0 in *. cbn [fst snd] in *.
  assert (Hlen0 : (1 <= String.length w0)%nat).
  { destruct (Z.eq_dec (u mod 10 ^ Z.of_nat prec) 0) as [E | E].
    - rewrite (Hz E). subst unitName. simpl. lia.
    - destruct (Hnz E) as (out & f & j & -> & _). simpl. lia. }
  pose proof (fmtUint_length (u / 10 ^ Z.of_nat prec) w0 Hn) as Hlen.
  split; [now apply fmtUint_headDigit |]. split; [unfold time.fmtInt; lia |].
  intros [| fuel] Hfuel; [lia |].
  rewrite parseSegments_step by now apply fmtUint_headDigit.
  rewrite Hseg by lia. rewrite parseSegments_done. f_equal. lia.
Qed.

Lemma magnitudeText_spec (u : Z) :
  0 <= u <= 2 ^ 63 ->
  headDigit (magnitudeText u) = true /\
  (2 <= String.length (magnitudeText u))%nat /\
  time.parseSegments (String.length (magnitudeText u)) (magnitudeText u) 0 = inr u.
Proof.
  intros Hu. unfold magnitudeText.
  destruct (Z.ltb_spec u time.Second) as [Hsub | Hsec].
  - destruct (Z.eqb_spec u 0) as [-> | Hne]; [repeat split; reflexivity |].
    assert (Hgoal : forall unitName prec,
               unitAt unitName "" (10 ^ Z.of_nat prec) ->
               (prec = 0 \/ prec = 3 \/ prec = 6 \/ prec = 9)%nat ->
               let w := (let '(w, u') := time.fmtFrac unitName u prec in time.fmtInt w u') in
               headDigit w = true /\ (2 <= String.length w)%nat /\
               time.parseSegments (String.length w) w 0 = inr u).
    { intros unitName prec Hunit Hprec.
      destruct (subsecond_text unitName prec u Hunit Hprec Hu) as (H1 & H2 & H3).
      destruct (time.fmtFrac unitName u prec) as [w0 u']. cbn [fst snd] in *.
      split; [exact H1 |]. split; [exact H2 |]. apply H3. lia. }
    destruct (Z.ltb_spec u time.Microsecond) as [Hns | Hus].
    + apply (Hgoal "ns" 0%nat); [exact unitAt_ns | tauto].
    + destruct (Z.ltb_spec u time.Millisecond) as [Hus' | Hms].
      * apply (Hgoal time.microSign 3%nat); [exact unitAt_micro | tauto].
      * apply (Hgoal "ms" 6%nat); [exact unitAt_ms | tauto].
  - (* seconds, minutes, hours *)
    change time.Second with 1000000000 in Hsec.
    assert (Htail : headDigit "s" = false) by reflexivity.
    destruct (fmtFrac_spec "s" u 9 ltac:(lia) ltac:(lia) Htail) as (w0 & Hw0 & Hz & Hnz).
    change (10 ^ Z.of_nat 9) with 1000000000 in *.
    pose proof (Z.mod_pos_bound u 1000000000 ltac:(lia)) as Hm.
    pose proof (Z.div_mod u 1000000000 ltac:(lia)) as Hdm.
    set (u1 := u / 1000000000) in *.
    rewrite Hw0. cbv beta iota zeta.
    pose proof (Z.mod_pos_bound u1 60 ltac:(lia)) as Hm1.
    pose proof (Z.div_mod u1 60 ltac:(lia)) as Hdm1.
    set (u2 := u1 / 60) in *.
    pose proof (Z.mod_pos_bound u2 60 ltac:(lia)) as Hm2.
    pose proof (Z.div_mod u2 60 ltac:(lia)) as Hdm2.
    set (u3 := u2 / 60) in *.
    assert (Hu1 : 0 <= u1) by (subst u1; apply Z.div_pos; lia).
    assert (Hu2 : 0 <= u2) by (subst u2; apply Z.div_pos; lia).
    assert (Hu3 : 0 <= u3) by (subst u3; apply Z.div_pos; lia).
    (* the seconds segment *)
    set (secs := time.fmtInt w0 (u1 mod 60)).
    assert (Hsecs : forall d, 0 <= d ->
               d + u1 mod 60 * 1000000000 + u mod 1000000000 <= 2 ^ 63 ->
               time.parseSegment secs d
               = inr (EmptyString, d + u1 mod 60 * 1000000000 + u mod 1000000000)).
    { intros d Hd Hsum.
      pose proof (parseSegment_number "s" "" 1 9 u (u1 mod 60) d) as H.
      change ("s" +:+ "") with "s" in H. rewrite Hw0 in H. cbn [fst] in H.
      rewrite !Z.mul_1_l, Z.mul_1_r in H.
      change (10 ^ Z.of_nat 9) with 1000000000 in H at 3 4 5.
      subst secs. apply H; try lia; [exact unitAt_s |].
      intros f j Hj Hf. rewrite Z.mul_1_r. apply fractionOf_pow10; [tauto | lia | exact Hf]. }
    assert (Hsecs_head : headDigit secs = true) by (apply fmtUint_headDigit; lia).
    assert (Hsecs_len : (2 <= String.length secs)%nat).
    { pose proof (fmtUint_length (u1 mod 60) w0 ltac:(lia)) as Hl.
      assert ((1 <= String.length w0)%nat); [| unfold secs, time.fmtInt; lia].
      destruct (Z.eq_dec (u mod 1000000000) 0) as [E | E].
      - rewrite (Hz E). simpl. lia.
      - destruct (Hnz E) as (out & f & j & -> & _). simpl. lia. }
    destruct (Z.ltb_spec 0 u2) as [Hmin | Hnomin].
    + (* the minutes segment *)
      set (mins := time.fmtInt (String "m" secs) (u2 mod 60)).
      assert (Hmins : forall d, 0 <= d -> d + u2 mod 60 * 60000000000 <= 2 ^ 63 ->
                 time.parseSegment mins d = inr (secs, d + u2 mod 60 * 60000000000)).
      { intros d Hd Hsum. subst mins.
        change (String "m" secs) with ("m" +:+ secs).
        apply parseSegment_whole; try lia. now apply unitAt_m. }
      assert (Hmins_head : headDigit mins = true) by (apply fmtUint_headDigit; lia).
      assert (Hmins_len : (3 <= String.length mins)%nat).
      { pose proof (fmtUint_length (u2 mod 60) (String "m" secs) ltac:(lia)) as Hl.
        cbn [String.length] in Hl. unfold mins, time.fmtInt. lia. }
      destruct (Z.ltb_spec 0 u3) as [Hhour | Hnohour].
      * set (hours := time.fmtInt (String "h" mins) u3).
        assert (Hhours_len : (4 <= String.length hours)%nat).
        { pose proof (fmtUint_length u3 (String "h" mins) ltac:(lia)) as Hl.
          cbn [String.length] in Hl. unfold hours, time.fmtInt. lia. }
        assert (Hhours_head : headDigit hours = true) by (apply fmtUint_headDigit; lia).
        split; [exact Hhours_head |]. split; [lia |].
        destruct (String.length hours) as [| [| [| fuel]]] eqn:El; try lia.
        rewrite parseSegments_step by exact Hhours_head.
        assert (Hh : time.parseSegment hours 0 = inr (mins, 0 + u3 * 3600000000000)).
        { subst hours. change (String "h" mins) with ("h" +:+ mins).
          apply parseSegment_whole; try lia. now apply unitAt_h. }
        rewrite Hh, parseSegments_step by exact Hmins_head.
        rewrite Hmins by lia.
        rewrite parseSegments_step by exact Hsecs_head.
        rewrite Hsecs by lia. rewrite parseSegments_done. f_equal. lia.
      * assert (u3 = 0) by lia.
        split; [exact Hmins_head |]. split; [lia |].
        destruct (String.length mins) as [| [| fuel]] eqn:El; try lia.
        rewrite parseSegments_step by exact Hmins_head.
        rewrite Hmins by lia.
        rewrite parseSegments_step by exact Hsecs_head.
        rewrite Hsecs by lia. rewrite parseSegments_done. f_equal. lia.
    + assert (u2 = 0) by lia.
      split; [exact Hsecs_head |]. split; [lia |].
      destruct (String.length secs) as [| fuel] eqn:El; try lia.
      rewrite parseSegments_step by exact Hsecs_head.
      rewrite Hsecs by lia. rewrite parseSegments_done. f_equal. lia.
Qed.

Lemma eqb_longer (w : string) :
  (2 <= String.length w)%nat -> String.eqb w "0" = false /\ String.eqb w "" = false.
Proof.
  destruct w as [| a [| b w]]; simpl; try lia. intros _.
  split; [| reflexivity]. now destruct (Ascii.eqb a "0").
Qed.

Lemma isDigit_not_sign (c : ascii) :
  isDigit c = true -> (code c =? 45) || (code c =? 43) = false.
Proof.
  unfold isDigit. rewrite andb_true_iff, !Z.leb_le. intros [H1 H2].
  apply orb_false_iff. split; apply Z.eqb_neq; lia.
Qed.

(** Parsing the text of any int64 duration gives the duration back. *)
Lemma ParseDuration_String (d : Z) :
  GoInt.in_int64 d -> time.ParseDuration (time.Duration_String d) = inr d.
Proof.
  unfold GoInt.in_int64, GoInt.MinInt64, GoInt.MaxInt64. intros Hd.
  assert (Hu : 0 <= Z.abs d <= 2 ^ 63) by lia.
  destruct (magnitudeText_spec (Z.abs d) Hu) as (Hhead & Hlen & Hparse).
  destruct (eqb_longer _ Hlen) as [Hzero Hempty].
  rewrite Duration_String_eq. unfold time.ParseDuration.
  destruct (Z.ltb_spec d 0) as [Hneg | Hpos].
  - change (code "-" =? 45) with true. cbn [orb].
    rewrite Hzero, Hempty, Hparse. f_equal.
    destruct (Z.eq_dec d (- 2 ^ 63)) as [-> | Hne]; [reflexivity |].
    rewrite (GoInt.wrap64_id (Z.abs d))
      by (unfold GoInt.in_int64, GoInt.MinInt64, GoInt.MaxInt64; lia).
    rewrite GoInt.wrap64_id
      by (unfold GoInt.in_int64, GoInt.MinInt64, GoInt.MaxInt64; lia).
    lia.
  - destruct (magnitudeText (Z.abs d)) as [| c w] eqn:Ew; [discriminate |].
    cbn [headDigit] in Hhead. rewrite (isDigit_not_sign c Hhead).
    rewrite Hzero, Hempty, Hparse.
    destruct (Z.ltb_spec (2 ^ 63 - 1) (Z.abs d)) as [Hbig | Hok]; [lia |].
    f_equal. lia.
Qed.

(** ** The JSON string around the text *)

(** Text made of plain ASCII (written as it is by [json.Marshal], and not
    a quote) and of the micro sign. *)
Fixpoint plain (s : string) : bool :=
  match s with
  | EmptyString => true
  | String c s' =>
      if code c <? 128 then json.htmlSafe (code c) && plain s'
      else
        match s' with
        | String c' s'' => (code c =? 194) && (code c' =? 181) && plain s''
        | EmptyString => false
        end
  end.

Lemma plain_cons (c : ascii) (s : string) :
  code c < 128 -> json.htmlSafe (code c) = true -> plain s = true ->
  plain (String c s) = true.
Proof.
  intros Hc Hsafe Hs. cbn [plain].
  destruct (Z.ltb_spec (code c) 128) as [H | H]; [| lia]. now rewrite Hsafe, Hs.
Qed.

Lemma plain_digit (d : Z) (s : string) :
  0 <= d < 10 -> plain s = true -> plain (String (digitChar d) s) = true.
Proof.
  intros Hd Hs. apply plain_cons; [| | exact Hs]; rewrite (code_digitChar d Hd).
  - lia.
  - assert (d = 0 \/ d = 1 \/ d = 2 \/ d = 3 \/ d = 4 \/ d = 5 \/ d = 6 \/ d = 7
            \/ d = 8 \/ d = 9) as H by lia.
    repeat (destruct H as [-> | H]; [reflexivity |]). now subst.
Qed.

Lemma plain_fmtDigits (fuel : nat) (v : Z) (tail : string) :
  plain tail = true -> plain (fmtDigits fuel v tail) = true.
Proof.
  revert v tail. induction fuel as [| fuel IH]; intros v tail H; simpl; [exact H |].
  destruct (v <=? 0); [exact H |].
  apply IH, plain_digit; [apply Z.mod_pos_bound; lia | exact H].
Qed.

Lemma plain_fmtInt (v : Z) (tail : string) :
  plain tail = true -> plain (time.fmtInt tail v) = true.
Proof.
  intros H. unfold time.fmtInt, fmtUint. destruct (v =? 0).
  - now apply (plain_digit 0).
  - now apply plain_fmtDigits.
Qed.

Lemma plain_fmtFracLoop (k : nat) (v : Z) (print : bool) (tail : string) :
  plain tail = true -> plain (fst (fst (time.fmtFracLoop k v print tail))) = true.
Proof.
  revert v print tail. induction k as [| k IH]; intros v print tail H; [exact H |].
  cbn [time.fmtFracLoop]. cbv zeta. apply IH.
  destruct (print || negb (v mod 10 =? 0)); [| exact H].
  apply plain_digit; [apply Z.mod_pos_bound; lia | exact H].
Qed.

Lemma plain_fmtFrac (tail : string) (v : Z) (prec : nat) :
  plain tail = true -> plain (fst (time.fmtFrac tail v prec)) = true.
Proof.
  intros H. unfold time.fmtFrac.
  pose proof (plain_fmtFracLoop prec v false tail H) as Hloop.
  destruct (time.fmtFracLoop prec v false tail) as [[w v'] print]. cbn [fst] in *.
  destruct print; [| exact Hloop].
  now apply plain_cons.
Qed.

Lemma plain_magnitudeText (u : Z) : plain (magnitudeText u) = true.
Proof.
  unfold magnitudeText.
  assert (Hsub : forall unitName prec, plain unitName = true ->
             plain (let '(w, u') := time.fmtFrac unitName u prec in time.fmtInt w u') = true).
  { intros unitName prec H. pose proof (plain_fmtFrac unitName u prec H) as Hw.
    destruct (time.fmtFrac unitName u prec) as [w u']. now apply plain_fmtInt. }
  destruct (u <? time.Second).
  - destruct (u =? 0); [reflexivity |].
    destruct (u <? time.Microsecond); [now apply Hsub |].
    destruct (u <? time.Millisecond); now apply Hsub.
  - pose proof (plain_fmtFrac "s" u 9 eq_refl) as Hw.
    destruct (time.fmtFrac "s" u 9) as [w u1]. cbn [fst] in Hw. cbv zeta.
    assert (Hs : plain (time.fmtInt w (u1 mod 60)) = true) by now apply plain_fmtInt.
    destruct (0 <? u1 / 60); [| exact Hs].
    assert (Hm : plain (time.fmtInt (String "m" (time.fmtInt w (u1 mod 60)))
                          ((u1 / 60) mod 60)) = true).
    { apply plain_fmtInt. now apply plain_cons. }
    destruct (0 <? u1 / 60 / 60); [| exact Hm].
    apply plain_fmtInt. now apply plain_cons.
Qed.

Lemma plain_Duration_String (d : Z) : plain (time.Duration_String d) = true.
Proof.
  rewrite Duration_String_eq. pose proof (plain_magnitudeText (Z.abs d)) as H.
  destruct (d <? 0); [| exact H]. now apply plain_cons.
Qed.

(** [json.Marshal] writes plain text between two quotes, as it is. *)
Lemma appendStringLoop_plain (s : string) :
  plain s = true -> json.appendStringLoop false 0 s = s +:+ json.quote.
Proof.
  assert (H : forall n s, (String.length s <= n)%nat -> plain s = true ->
                          json.appendStringLoop false 0 s = s +:+ json.quote).
  { clear s. induction n as [| n IH]; intros s Hlen Hs.
    - destruct s; [reflexivity | simpl in Hlen; lia].
    - destruct s as [| c s]; [reflexivity |].
      cbn [plain] in Hs. cbn [json.appendStringLoop]. cbv zeta.
      cbn [String.length] in Hlen.
      destruct (code c <? 128).
      + apply andb_true_iff in Hs as [Hsafe Hs]. rewrite Hsafe.
        change (String c s +:+ json.quote) with (String c (s +:+ json.quote)).
        f_equal. apply IH; [lia | exact Hs].
      + destruct s as [| c' s]; [discriminate |].
        apply andb_true_iff in Hs as [Hcc Hs]. apply andb_true_iff in Hcc as [Hc Hc'].
        apply Z.eqb_eq in Hc, Hc'.
        cbn [String.length] in Hlen.
        assert (Hsize : json.runeSize (code c) (String c' s) = 2%nat).
        { unfold json.runeSize. rewrite Hc, Hc'. reflexivity. }
        assert (Hsep : json.lineSeparator (code c) (String c' s) = None).
        { unfold json.lineSeparator. rewrite Hc. now destruct s. }
        rewrite Hsize, Hsep. cbn [json.appendStringLoop].
        change (String c (String c' s) +:+ json.quote)
          with (String c (String c' (s +:+ json.quote))).
        do 2 f_equal. apply IH; [lia | exact Hs]. }
  intros Hs. now apply (H (String.length s)).
Qed.

(** Plain text holds no quote: removing quotes changes nothing. *)
Lemma ReplaceByte_plain (s : string) :
  plain s = true -> strings.ReplaceByte s json.quoteByte EmptyString = s.
Proof.
  assert (Hquote : forall c, Ascii.eqb c json.quoteByte = true -> code c = 34).
  { intros c H. apply Ascii.eqb_eq in H. now subst. }
  assert (H : forall n s, (String.length s <= n)%nat -> plain s = true ->
                          strings.ReplaceByte s json.quoteByte EmptyString = s).
  { clear s. induction n as [| n IH]; intros s Hlen Hs.
    - destruct s; [reflexivity | simpl in Hlen; lia].
    - destruct s as [| c s]; [reflexivity |].
      cbn [plain] in Hs. cbn [strings.ReplaceByte]. cbn [String.length] in Hlen.
      destruct (Z.ltb_spec (code c) 128) as [Hlt | Hge].
      + apply andb_true_iff in Hs as [Hsafe Hs].
        destruct (Ascii.eqb c json.quoteByte) eqn:E.
        * rewrite (Hquote c E) in Hsafe. discriminate.
        * f_equal. apply IH; [lia | exact Hs].
      + destruct s as [| c' s]; [discriminate |].
        apply andb_true_iff in Hs as [Hcc Hs]. apply andb_true_iff in Hcc as [Hc Hc'].
        apply Z.eqb_eq in Hc, Hc'. cbn [String.length] in Hlen.
        destruct (Ascii.eqb c json.quoteByte) eqn:E; [apply Hquote in E; lia |].
        cbn [strings.ReplaceByte].
        destruct (Ascii.eqb c' json.quoteByte) eqn:E'; [apply Hquote in E'; lia |].
        do 2 f_equal. apply IH; [lia | exact Hs]. }
  intros Hs. now apply (H (String.length s)).
Qed.

Lemma ReplaceByte_quoted (s : string) :
  plain s = true ->
  strings.ReplaceByte (json.MarshalString s) json.quoteByte EmptyString = s.
Proof.
  intros Hs. unfold json.MarshalString. rewrite (appendStringLoop_plain s Hs).
  cbn [strings.ReplaceByte]. rewrite Ascii.eqb_refl.
  change (EmptyString +:+ ?x) with x.
  assert (Happ : forall a, strings.ReplaceByte (a +:+ json.quote) json.quoteByte EmptyString
                           = strings.ReplaceByte a json.quoteByte EmptyString).
  { induction a as [| c a IH]; [reflexivity |].
    change (String c a +:+ json.quote) with (String c (a +:+ json.quote)).
    cbn [strings.ReplaceByte]. rewrite IH. reflexivity. }
  rewrite Happ. now apply ReplaceByte_plain.
Qed.

(** C9: for every duration value (an int64 count of nanoseconds),
    [MarshalJSON] succeeds, and [UnmarshalJSON] of what it produced succeeds
    and stores the original duration, whatever was stored before. *)
Theorem C9_Duration_json_roundtrip (d : time.Duration) (v : Duration.t) :
  GoInt.in_int64 d ->
  exists p : string,
    Duration.MarshalJSON (Duration.mk d) = (p, None) /\
    Duration.UnmarshalJSON v p = (Duration.mk d, None).
Proof.
  intros Hd. eexists. split; [reflexivity |].
  unfold Duration.UnmarshalJSON. cbn [Duration.Duration].
  rewrite (ReplaceByte_quoted _ (plain_Duration_String d)).
  now rewrite (ParseDuration_String d Hd).
Qed.

End DurationCodec.

(** * More of the codecs *)

Section Codecs.

Import Decimal.

(** ** The Retry-After header of a 429 *)

Lemma digitsValue_fmtDigits (fuel : nat) (v : Z) (tail : string) :
  0 <= v -> v < 10 ^ Z.of_nat fuel ->
  fmt.digitsValue 0 (fmtDigits fuel v tail) = fmt.digitsValue v tail.
Proof.
  revert v tail. induction fuel as [| fuel IH]; intros v tail Hv Hlt.
  - simpl in *. now replace v with 0 by lia.
  - destruct (Z.eq_dec v 0) as [-> | Hnz]; [reflexivity |].
    rewrite fmtDigits_step by lia.
    rewrite IH.
    + cbn [fmt.digitsValue].
      rewrite code_digitChar by (apply Z.mod_pos_bound; lia).
      f_equal. pose proof (Z.div_mod v 10 ltac:(lia)). lia.
    + apply Z.div_pos; lia.
    + apply Z.div_lt_upper_bound; [lia |].
      rewrite Nat2Z.inj_succ, Z.pow_succ_r in Hlt by lia. exact Hlt.
Qed.

Lemma spanDigits_fmtDigits (fuel : nat) (v : Z) (tail ds rest : string) :
  fmt.spanDigits tail = (ds, rest) ->
  fmt.spanDigits (fmtDigits fuel v tail) = (fmtDigits fuel v ds, rest).
Proof.
  revert v tail ds. induction fuel as [| fuel IH]; intros v tail ds Hspan.
  - exact Hspan.
  - cbn [fmtDigits]. destruct (v <=? 0); [exact Hspan |].
    apply IH. cbn [fmt.spanDigits].
    rewrite isDigit_digitChar by (apply Z.mod_pos_bound; lia).
    now rewrite Hspan.
Qed.

(** A visible ASCII character is no space of [fmt]'s. *)
Lemma SkipSpace_visible (c : ascii) (s : string) :
  32 < code c < 128 -> fmt.SkipSpace (String c s) = Some (String c s).
Proof.
  intros Hc.
  assert (Hne : forall k, k <> code c -> (code c =? k) = false)
    by (intros k Hk; apply Z.eqb_neq; lia).
  assert (H13 : (code c <=? 13) = false) by (apply Z.leb_gt; lia).
  destruct s as [| c1 [| c2 s3]]; cbn [fmt.SkipSpace]; unfold fmt.isSpace3;
    rewrite ?(Hne 10), ?(Hne 32), ?(Hne 194), ?(Hne 225), ?(Hne 226), ?(Hne 227),
      ?H13 by lia;
    rewrite ?andb_false_r; reflexivity.
Qed.

(** Scanning the decimal text of an int64 gives the number back. *)
Lemma scanInt_Sprintf_d (n : Z) :
  GoInt.in_int64 n -> fmt.scanInt (fmt.Sprintf_d n) = Some n.
Proof.
  intros Hn. pose proof Hn as Hb. apply GoInt.in_int64b_spec in Hb.
  unfold GoInt.in_int64, GoInt.MinInt64, GoInt.MaxInt64 in Hn.
  assert (Hdigits : forall v, 0 <= v <= 2 ^ 63 ->
             fmt.spanDigits (fmtUint v "") = (fmtUint v "", "") /\
             fmt.digitsValue 0 (fmtUint v "") = v).
  { intros v Hv. unfold fmtUint. destruct (Z.eqb_spec v 0) as [-> | Hnz].
    - split; reflexivity.
    - split; [now apply spanDigits_fmtDigits |].
      rewrite digitsValue_fmtDigits; [reflexivity | lia |].
      change (10 ^ Z.of_nat 20) with 100000000000000000000. lia. }
  unfold fmt.Sprintf_d, fmt.scanInt.
  destruct (Z.ltb_spec n 0) as [Hneg | Hpos].
  - rewrite SkipSpace_visible by (vm_compute; split; reflexivity).
    change (code "-" =? 45) with true. change (code "-" =? 43) with false.
    cbn [orb]. destruct (Hdigits (- n) ltac:(lia)) as [Hspan Hval].
    rewrite Hspan, Hval.
    pose proof (fmtUint_length (- n) "" ltac:(lia)) as Hlen.
    destruct (fmtUint (- n) "") as [| c0 s0]; [simpl in Hlen; lia |].
    rewrite Z.opp_involutive, Hb. reflexivity.
  - destruct (Hdigits n ltac:(lia)) as [Hspan Hval].
    pose proof (fmtUint_headDigit n "" ltac:(lia)) as Hhead.
    destruct (fmtUint n "") as [| c0 s0] eqn:E; [discriminate |].
    cbn [headDigit] in Hhead.
    assert (Hc : 48 <= code c0 <= 57).
    { unfold isDigit in Hhead. apply andb_true_iff in Hhead. lia. }
    rewrite SkipSpace_visible by lia.
    destruct (Z.eqb_spec (code c0) 45) as [? | _]; [lia |].
    destruct (Z.eqb_spec (code c0) 43) as [? | _]; [lia |].
    cbn [orb]. rewrite Hspan, Hval, Hb. reflexivity.
Qed.

(** What starts with a visible character that is neither a digit nor a
    sign does not scan as an integer. *)
Lemma scanInt_no_number (c : ascii) (rest : string) :
  32 < code c < 128 -> isDigit c = false -> code c <> 43 -> code c <> 45 ->
  fmt.scanInt (String c rest) = None.
Proof.
  intros Hc Hd H43 H45. unfold fmt.scanInt.
  rewrite SkipSpace_visible by exact Hc.
  destruct (Z.eqb_spec (code c) 45) as [? | _]; [contradiction |].
  destruct (Z.eqb_spec (code c) 43) as [? | _]; [contradiction |].
  cbn [orb fmt.spanDigits]. now rewrite Hd.
Qed.

(** X21: a 429 whose Retry-After header holds the decimal text of an int64
    [n] (zero and negative numbers included: the sign is not checked)
    yields, in the unchanged state, the rate-limit error with exactly [n]
    retry-after seconds; its reset time is
    [time.Now().Add(time.Duration(n) * time.Second)], which is [n] seconds
    from the clock's reading whenever [n] is at most 9223372036 in
    magnitude; beyond that the int64 count of nanoseconds wraps around, and
    for 9223372037 the reset time lies before the clock's reading. *)
Theorem Retry_After_seconds_are_read_back
    (endpoint apiURL : string) (resp : Response) (st : State)
    (n : Z) (more : list string) :
  GoInt.in_int64 n ->
  StatusCode resp = 429 ->
  RespHeader resp !! "Retry-After" = Some (fmt.Sprintf_d n :: more) ->
  exists reset : time.Time,
    fleetStatus endpoint apiURL resp st
    = (Err (RateLimitError endpoint (RealtimeDataRPM (rateLimitConfig (client st))) 0
              reset n), st) /\
    reset = time.Add (clock (world st)) (time.mul n time.Second) /\
    (Z.abs n <= 9223372036 -> reset = clock (world st) + n * time.Second) /\
    (n = 9223372037 -> reset < clock (world st)).
Proof.
  intros Hn Hcode Hheader.
  exists (time.Add (clock (world st)) (time.mul n time.Second)).
  split; [| split; [reflexivity | split]].
  - unfold fleetStatus, Header_Get. rewrite Hcode, Hheader.
    change ((429 =? 200) || (429 =? 201)) with false.
    change (429 =? 401) with false. change (429 =? 429) with true. cbv iota.
    assert (Hne : String.eqb (fmt.Sprintf_d n) "" = false).
    { pose proof (scanInt_Sprintf_d n Hn) as Hs.
      destruct (fmt.Sprintf_d n); [discriminate | reflexivity]. }
    rewrite Hne. cbn [negb]. unfold fmt.Sscanf_d.
    rewrite (scanInt_Sprintf_d n Hn). reflexivity.
  - intros Hrange. unfold time.Add.
    now rewrite (seconds_exact _ Hrange), Second_value.
  - intros ->. unfold time.Add.
    rewrite (eq_refl : time.mul 9223372037 time.Second = -9223372036709551616). lia.
Qed.

(** X22: a 429 whose Retry-After header starts with a visible character that
    is neither a digit nor a sign (the header's HTTP-date form, which
    starts with the letter of a weekday, is one) falls back to the default:
    60 retry-after seconds and a reset 60 seconds from the clock's
    reading. *)
Theorem Retry_After_date_falls_back_to_60
    (endpoint apiURL : string) (resp : Response) (st : State)
    (c : ascii) (rest : string) (more : list string) :
  StatusCode resp = 429 ->
  RespHeader resp !! "Retry-After" = Some (String c rest :: more) ->
  32 < code c < 128 -> isDigit c = false -> code c <> 43 -> code c <> 45 ->
  fleetStatus endpoint apiURL resp st
  = (Err (RateLimitError endpoint (RealtimeDataRPM (rateLimitConfig (client st))) 0
            (clock (world st) + 60 * time.Second) 60), st).
Proof.
  intros Hcode Hheader Hc Hd H43 H45.
  unfold fleetStatus, Header_Get. rewrite Hcode, Hheader.
  change ((429 =? 200) || (429 =? 201)) with false.
  change (429 =? 401) with false. change (429 =? 429) with true. cbv iota.
  change (String.eqb (String c rest) "") with false. cbn [negb].
  unfold fmt.Sscanf_d. rewrite (scanInt_no_number c rest Hc Hd H43 H45).
  reflexivity.
Qed.

(** ** The JSON text of a Duration *)

(** X23: [MarshalJSON] never fails and writes the text of [String] between two
    double quotes, byte for byte: nothing in it, the micro sign of the
    microsecond unit included, is escaped. *)
Theorem Duration_MarshalJSON_is_quoted_String (d : time.Duration) :
  Duration.MarshalJSON (Duration.mk d)
  = (json.quote +:+ time.Duration_String d +:+ json.quote, None) /\
  strings.ReplaceByte (time.Duration_String d) json.quoteByte EmptyString
  = time.Duration_String d.
Proof.
  split.
  - unfold Duration.MarshalJSON, json.MarshalString. cbn [Duration.Duration].
    now rewrite (appendStringLoop_plain _ (plain_Duration_String d)).
  - apply ReplaceByte_plain, plain_Duration_String.
Qed.

(** X24: distinct durations have distinct JSON texts. *)
Theorem Duration_MarshalJSON_injective (d1 d2 : time.Duration) :
  GoInt.in_int64 d1 -> GoInt.in_int64 d2 ->
  d1 <> d2 ->
  Duration.MarshalJSON (Duration.mk d1) <> Duration.MarshalJSON (Duration.mk d2).
Proof.
  intros H1 H2 Hne Heq. apply Hne. clear Hne.
  unfold Duration.MarshalJSON in Heq. cbn [Duration.Duration] in Heq.
  apply (f_equal fst) in Heq. cbn [fst] in Heq.
  apply (f_equal (fun p => time.ParseDuration
                             (strings.ReplaceByte p json.quoteByte EmptyString))) in Heq.
  cbv beta in Heq. rewrite !ReplaceByte_quoted in Heq by apply plain_Duration_String.
  rewrite !ParseDuration_String in Heq by assumption.
  now injection Heq.
Qed.

(** Texts made of digits and periods only. *)
Fixpoint numeric (s : string) : bool :=
  match s with
  | EmptyString => true
  | String c s' => (isDigit c || (code c =? 46)) && numeric s'
  end.

Lemma numeric_cons (c : ascii) (s : string) :
  numeric (String c s) = true ->
  (isDigit c = true \/ code c = 46) /\ numeric s = true.
Proof.
  cbn [numeric]. rewrite andb_true_iff, orb_true_iff, Z.eqb_eq. tauto.
Qed.

Lemma leadingIntLoop_numeric (s : string) (x v : Z) (s1 : string) :
  numeric s = true -> time.leadingIntLoop x s = Some (v, s1) ->
  numeric s1 = true /\ headDigit s1 = false.
Proof.
  revert x. induction s as [| c s IH]; intros x Hnum Hloop.
  - injection Hloop as _ <-. split; reflexivity.
  - cbn [time.leadingIntLoop] in Hloop.
    destruct (isDigit c) eqn:Ed; cbn [negb] in Hloop.
    + destruct (2 ^ 63 / 10 <? x); [discriminate |].
      destruct (2 ^ 63 <? x * 10 + (code c - 48)); [discriminate |].
      apply (IH _ (proj2 (numeric_cons _ _ Hnum)) Hloop).
    + injection Hloop as _ <-. split; [exact Hnum | exact Ed].
Qed.

Lemma leadingFractionLoop_numeric (s : string) (x scale : Z) (overflow : bool) :
  numeric s = true ->
  numeric (snd (time.leadingFractionLoop x scale overflow s)) = true /\
  headDigit (snd (time.leadingFractionLoop x scale overflow s)) = false.
Proof.
  revert x scale overflow. induction s as [| c s IH]; intros x scale overflow Hnum.
  - split; reflexivity.
  - cbn [time.leadingFractionLoop].
    destruct (isDigit c) eqn:Ed; cbn [negb].
    + pose proof (proj2 (numeric_cons _ _ Hnum)) as Hs.
      destruct overflow; [now apply IH |].
      destruct ((2 ^ 63 - 1) / 10 <? x); [now apply IH |].
      cbv zeta. destruct (2 ^ 63 <? x * 10 + (code c - 48)); now apply IH.
    + split; [exact Hnum | exact Ed].
Qed.

Lemma spanUnit_numeric (s : string) :
  numeric s = true -> headDigit s = false -> fst (time.spanUnit s) = EmptyString.
Proof.
  destruct s as [| c s]; [reflexivity |]. intros Hnum Hhead.
  cbn [headDigit] in Hhead. destruct (numeric_cons _ _ Hnum) as [[Hd | Hdot] _].
  - congruence.
  - cbn [time.spanUnit]. rewrite Hdot. reflexivity.
Qed.

(** A text of digits and periods has no unit: its first segment fails. *)
Lemma parseSegment_numeric (s : string) (d : Z) :
  numeric s = true -> exists msg, time.parseSegment s d = inl msg.
Proof.
  intros Hnum. destruct s as [| c s0]; [eexists; reflexivity |].
  unfold time.parseSegment.
  destruct (numeric_cons _ _ Hnum) as [Hc _].
  assert (Hguard : (code c =? 46) || isDigit c = true).
  { destruct Hc as [-> | ->]; [apply orb_true_r | reflexivity]. }
  rewrite Hguard. cbn [negb].
  destruct (time.leadingInt (String c s0)) as [[v s1] |] eqn:Eint;
    [| eexists; reflexivity].
  destruct (leadingIntLoop_numeric _ _ _ _ Hnum Eint) as [Hnum1 Hhead1].
  destruct s1 as [| dot s1'].
  - destruct (negb _ && negb false); [eexists; reflexivity |].
    cbn [time.spanUnit]. eexists; reflexivity.
  - cbn [headDigit] in Hhead1.
    destruct (numeric_cons _ _ Hnum1) as [[Hd | Hdot] Hnum1']; [congruence |].
    rewrite Hdot. change (46 =? 46) with true. cbv iota.
    unfold time.leadingFraction.
    destruct (leadingFractionLoop_numeric s1' 0 1 false Hnum1') as [Hnum2 Hhead2].
    destruct (time.leadingFractionLoop 0 1 false s1') as [[f scale] s2].
    cbn [snd] in Hnum2, Hhead2.
    pose proof (spanUnit_numeric s2 Hnum2 Hhead2) as Hunit.
    destruct (negb _ && negb _); [eexists; reflexivity |].
    destruct (time.spanUnit s2) as [u s3]. cbn [fst] in Hunit. subst u.
    eexists; reflexivity.
Qed.

Lemma ParseDuration_numeric (p : string) :
  numeric p = true -> p <> "0" -> exists msg, time.ParseDuration p = inl msg.
Proof.
  intros Hnum Hzero. unfold time.ParseDuration.
  destruct p as [| c s0]; [eexists; reflexivity |].
  destruct (numeric_cons _ _ Hnum) as [Hc _].
  assert (Hsign : (code c =? 45) || (code c =? 43) = false).
  { destruct Hc as [Hd | ->]; [now apply isDigit_not_sign | reflexivity]. }
  rewrite Hsign.
  destruct (String.eqb_spec (String c s0) "0") as [E | _]; [contradiction |].
  change (String.eqb (String c s0) "") with false. cbv iota.
  cbn [String.length time.parseSegments].
  destruct (parseSegment_numeric (String c s0) 0 Hnum) as [msg Hmsg].
  rewrite Hmsg. now exists msg.
Qed.

Lemma ReplaceByte_numeric (p : string) :
  numeric p = true -> strings.ReplaceByte p json.quoteByte EmptyString = p.
Proof.
  induction p as [| c p IH]; [reflexivity |]. intros Hnum.
  destruct (numeric_cons _ _ Hnum) as [Hc Hp].
  cbn [strings.ReplaceByte].
  destruct (Ascii.eqb_spec c json.quoteByte) as [-> | _].
  - exfalso. destruct Hc as [Hd | Hdot]; [discriminate Hd | discriminate Hdot].
  - now rewrite IH.
Qed.

(** X25: [UnmarshalJSON] of a [Duration] rejects a bare JSON number: a text of
    digits and periods (3600, 1.5) other than the single digit 0 has no
    unit, so the call returns an error and leaves the receiver as it was;
    the single digit 0 is the one number it accepts. *)
Theorem Duration_UnmarshalJSON_rejects_bare_numbers (v : Duration.t) (p : string) :
  numeric p = true ->
  p <> "0" ->
  (exists msg, Duration.UnmarshalJSON v p = (v, Some msg)) /\
  Duration.UnmarshalJSON v "0" = (Duration.mk 0, None).
Proof.
  intros Hnum Hzero. split; [| reflexivity].
  unfold Duration.UnmarshalJSON. rewrite (ReplaceByte_numeric p Hnum).
  destruct (ParseDuration_numeric p Hnum Hzero) as [msg ->]. now exists msg.
Qed.

Lemma stripQuotes_app (a b : string) :
  strings.ReplaceByte (a +:+ b) json.quoteByte EmptyString
  = strings.ReplaceByte a json.quoteByte EmptyString
    +:+ strings.ReplaceByte b json.quoteByte EmptyString.
Proof.
  induction a as [| c a IH]; [reflexivity |].
  change (String c a +:+ b) with (String c (a +:+ b)).
  cbn [strings.ReplaceByte]. rewrite IH.
  now destruct (Ascii.eqb c json.quoteByte).
Qed.

(** X26: [UnmarshalJSON] of a [Duration] reads its input with every double
    quote taken out, wherever it stands: a quote in the middle of the text
    changes nothing, and the bare text of a duration is accepted just as
    the quoted one is. *)
Theorem Duration_UnmarshalJSON_ignores_quotes (v : Duration.t) (a b : string) :
  Duration.UnmarshalJSON v (a +:+ json.quote +:+ b) = Duration.UnmarshalJSON v (a +:+ b) /\
  (forall d : time.Duration,
      GoInt.in_int64 d ->
      Duration.UnmarshalJSON v (time.Duration_String d) = (Duration.mk d, None)).
Proof.
  split.
  - unfold Duration.UnmarshalJSON. now rewrite !stripQuotes_app.
  - intros d Hd. unfold Duration.UnmarshalJSON.
    rewrite (ReplaceByte_plain _ (plain_Duration_String d)).
    now rewrite (ParseDuration_String d Hd).
Qed.

(** ** The decoded alert *)

Section Alert.

Context {Unmarshal_string : Unmarshal string}.
Context {Unmarshal_entries : Unmarshal (list DecodedAlert.entry)}.

Lemma entries_lookup (entries : list DecodedAlert.entry) (name : string) :
  fold_left (fun (m : gmap string any) e =>
               <[DecodedAlert.Name e := DecodedAlert.Value e]> m) entries ∅ !! name
  = DecodedAlert.Value
      <$> last (filter (fun e => DecodedAlert.Name e = name) entries).
Proof.
  induction entries as [| e entries IH] using rev_ind; [reflexivity |].
  rewrite fold_left_app, filter_app. cbn [fold_left].
  destruct (decide (DecodedAlert.Name e = name)) as [E | E].
  - rewrite (filter_cons_True (fun e => DecodedAlert.Name e = name) e [] E).
    rewrite filter_nil, last_snoc. cbn [fmap option_fmap option_map].
    rewrite E. by simplify_map_eq.
  - rewrite (filter_cons_False (fun e => DecodedAlert.Name e = name) e [] E).
    rewrite filter_nil, app_nil_r, <- IH. by simplify_map_eq.
Qed.

(** X27: [UnmarshalJSON] of a [DecodedAlert], once the outer JSON string has
    decoded to [strvalue]: the empty string is no error and leaves the
    receiver as it was (a map decoded earlier is kept, not reset); a string
    that does not decode as a list of entries returns that error and leaves
    the receiver too; otherwise the receiver becomes a fresh map, which
    holds under each name the value of the last entry of that name and
    nothing else. *)
Theorem DecodedAlert_UnmarshalJSON_last_entry_wins
    (v : DecodedAlert.t) (data strvalue : string) :
  json_Unmarshal (A := string) data = inr strvalue ->
  (strvalue = "" -> DecodedAlert.UnmarshalJSON v data = (v, None)) /\
  (forall err, strvalue <> "" ->
     json_Unmarshal (A := list DecodedAlert.entry) strvalue = inl err ->
     DecodedAlert.UnmarshalJSON v data = (v, Some err)) /\
  (forall entries, strvalue <> "" ->
     json_Unmarshal (A := list DecodedAlert.entry) strvalue = inr entries ->
     exists m : gmap string any,
       DecodedAlert.UnmarshalJSON v data = (Some m, None) /\
       forall name,
         m !! name
         = DecodedAlert.Value
             <$> last (filter (fun e => DecodedAlert.Name e = name) entries)).
Proof.
  intros Hdata. unfold DecodedAlert.UnmarshalJSON. rewrite Hdata.
  split; [intros ->; reflexivity |].
  split.
  - intros err Hne Herr.
    destruct (String.eqb_spec strvalue "") as [E | _]; [contradiction |].
    now rewrite Herr.
  - intros entries Hne Hentries.
    destruct (String.eqb_spec strvalue "") as [E | _]; [contradiction |].
    rewrite Hentries. eexists. split; [reflexivity |]. apply entries_lookup.
Qed.

End Alert.

End Codecs.


(** * A concrete run: stand-ins for the library calls and a scripted world *)

Module Sample.

(** A stand-in for [url.Values.Encode] on values that need no escaping:
    the members present, in key order, as [key=value] joined by [&]. *)
Definition url_Values_Encode (params : gmap string (list string)) : string :=
  let member (key : string) : list string :=
    match params !! key with
    | Some (v :: _) => [key +:+ "=" +:+ v]
    | _ => []
    end in
  String.concat "&"
    (flat_map member
       ["client_id"; "end_date"; "grant_type"; "kind"; "period";
        "refresh_token"; "start_date"; "time_zone"]).

(** A stand-in for [json.Marshal] of a payload: the member names. *)
Definition json_Marshal (payload : gmap string JValue) : error + string :=
  inr (String.concat "," (map fst (map_to_list payload))).

(** Stand-ins for [json.Unmarshal]: each recognises one body. *)
Definition freshTokens : tokenResp.t :=
  tokenResp.mk "access-2" "" 3600 "Bearer".

Definition rotatedTokens : tokenResp.t :=
  tokenResp.mk "access-2" "refresh-2" 3600 "Bearer".

#[export] Instance Unmarshal_tokenResp : Unmarshal tokenResp.t :=
  fun body =>
    if String.eqb body "tokens" then inr freshTokens
    else if String.eqb body "rotated tokens" then inr rotatedTokens
    else inl (JsonError "invalid character").

(** 1500 W of solar power, 37.5 percent charged, no battery, grid or load
    reading. *)
Definition watts1500 : float.float64 := S754_finite false 6597069766656000 (-42).
Definition percent37_5 : float.float64 := S754_finite false 5277655813324800 (-47).

Definition liveStatus : LiveStatusResponse :=
  mkLiveStatusResponse
    (mkLiveStatus (Some watts1500) None None None None None (Some percent37_5)
       "Active" "on_grid" false false (1700000000 * time.Second)
       None None None None).

Definition liveStatusNoCharge : LiveStatusResponse :=
  mkLiveStatusResponse
    (mkLiveStatus (Some watts1500) None None None None None None
       "Active" "on_grid" false false (1700000000 * time.Second)
       None None None None).

#[export] Instance Unmarshal_liveStatus : Unmarshal LiveStatusResponse :=
  fun body =>
    if String.eqb body "live status" then inr liveStatus
    else if String.eqb body "live status without charge" then inr liveStatusNoCharge
    else inl (JsonError "invalid character").

(** A client with site 42 selected and a token good for an hour. *)
Definition readyClient : Client :=
  set_selectedSiteID 42
    (set_tokenExpiry (1700000000 * time.Second + time.Hour)
       (NewClient "client-id" "access-1" "refresh-1")).

Definition reply200 (body : string) : Exchange :=
  mkExchange (120 * time.Millisecond) (inr (mkResponse 200 ∅ body)).

Definition worldWith (replies : list Exchange) : World :=
  mkWorld (1700000000 * time.Second) [] replies.

Definition readyState (replies : list Exchange) : State :=
  mkState readyClient (worldWith replies).

(** A freshly constructed client: no site selected, token expiry unset. *)
Definition freshState (replies : list Exchange) : State :=
  mkState (NewClient "client-id" "access-1" "refresh-1") (worldWith replies).

#[export] Instance Unmarshal_products : Unmarshal ProductsResponse :=
  fun body =>
    if String.eqb body "products"
    then inr (mkProductsResponse
                [productOf "solar" 1; productOf "vehicle" 2;
                 productOf "battery" 3; productOf "vehicle" 4] 4)
    else inl (JsonError "invalid character").

#[export] Instance Unmarshal_siteInfo : Unmarshal SiteInfoResponse :=
  fun body =>
    if String.eqb body "site info"
    then inr (mkSiteInfoResponse
                (mkSiteInfo "Home" 11500 "America/Los_Angeles" 1000000000 (-1000000000) "PG&E"))
    else inl (JsonError "invalid character").

#[export] Instance Unmarshal_history : Unmarshal historyResponse :=
  fun body =>
    if String.eqb body "history"
    then inr (mkHistoryResponse (mkHistoryData "serial" "day" []))
    else inl (JsonError "invalid character").

#[export] Instance Unmarshal_object : Unmarshal (gmap string JValue) :=
  fun body =>
    if String.eqb body "object" then inr ∅ else inl (JsonError "invalid character").

(** A 429 reply that asks to retry after 30 seconds. *)
Definition reply429 : Exchange :=
  mkExchange (120 * time.Millisecond)
    (inr (mkResponse 429 {[ "Retry-After" := ["30"] ]} "slow down")).

(** Replies of the token endpoint and of the API used below. *)
Definition reply400 : Exchange :=
  mkExchange (120 * time.Millisecond) (inr (mkResponse 400 ∅ "invalid_grant")).

(** A client allowed 120 requests per minute. *)
Definition fastState : State :=
  mkState (set_RealtimeDataRPM 120 readyClient) (worldWith []).

(** A 429 with the number of seconds, and one with the date form. *)
Definition retryIn120 : Response :=
  mkResponse 429 {[ "Retry-After" := ["120"] ]} "slow down".

Definition retryAtDate : Response :=
  mkResponse 429 {[ "Retry-After" := ["Wed, 21 Oct 2015 07:28:00 GMT"] ]} "slow down".

(** Stand-ins for the two decoders of a decoded alert: the outer string,
    and the list of entries it holds (the alert identifier comes twice). *)
Definition alertEntries : list DecodedAlert.entry :=
  [DecodedAlert.mkEntry "PINV_alertID" (AnyString "PINV_a008_vfCheckRocof");
   DecodedAlert.mkEntry "PINV_alertType" (AnyString "Warning");
   DecodedAlert.mkEntry "PINV_alertID" (AnyString "PINV_a010_canNotCharge")].

#[export] Instance Unmarshal_string : Unmarshal string :=
  fun body =>
    if String.eqb body "alert" then inr "entries"
    else if String.eqb body "no alert" then inr ""
    else inl (JsonError "invalid character").

#[export] Instance Unmarshal_entries : Unmarshal (list DecodedAlert.entry) :=
  fun body =>
    if String.eqb body "entries" then inr alertEntries
    else inl (JsonError "invalid character").


(** Values past the range in which seconds fit an int64 of nanoseconds:
    a 429 that asks to retry after 9223372037 seconds, and a token
    response that grants as long a lifetime. *)
Definition reply429Far : Exchange :=
  mkExchange (120 * time.Millisecond)
    (inr (mkResponse 429 {[ "Retry-After" := ["9223372037"] ]} "slow down")).

Definition farTokens : tokenResp.t :=
  tokenResp.mk "access-2" "" 9223372037 "Bearer".

Definition decodeFarTokens : Unmarshal tokenResp.t :=
  fun _ => inr farTokens.

(** A live status whose only reading is a grid power of 0.1 W, the
    float64 nearest to one tenth. *)
Definition tenthOfAWatt : float.float64 := S754_finite false 7205759403792794 (-56).

Definition gridOnly : LiveStatusResponse :=
  mkLiveStatusResponse
    (mkLiveStatus None None None (Some tenthOfAWatt) None None None
       "Active" "on_grid" false false (1700000000 * time.Second)
       None None None None).

Definition decodeGridOnly : Unmarshal LiveStatusResponse :=
  fun _ => inr gridOnly.


End Sample.

Import Sample.

(** ** Runs of the theorems at concrete inputs *)

Lemma C5_site_gate_run :
  selectedSiteID (client (freshState [reply200 "live status"])) = 0 /\
  GetSOE Sample.url_Values_Encode (freshState [reply200 "live status"])
  = (Err noSiteSelected, freshState [reply200 "live status"]) /\
  SetStormMode Sample.url_Values_Encode Sample.json_Marshal true
    (freshState [reply200 "object"])
  = (Err noSiteSelected, freshState [reply200 "object"]) /\
  sent (world (freshState [reply200 "live status"])) = [].
Proof.
  split; [reflexivity |].
  destruct (C5_site_gate_blocks_every_operation
              Sample.url_Values_Encode Sample.json_Marshal
              (freshState [reply200 "live status"]) eq_refl)
    as (_ & _ & _ & Hsoe & _).
  destruct (C5_site_gate_blocks_every_operation
              Sample.url_Values_Encode Sample.json_Marshal
              (freshState [reply200 "object"]) eq_refl)
    as (_ & _ & _ & _ & _ & _ & _ & _ & _ & _ & _ & Hstorm).
  split; [exact Hsoe |]. split; [exact (Hstorm true) | reflexivity].
Defined.

Lemma C8_aggregates_run :
  let st := readyState [reply200 "live status"] in
  selectedSiteID (client st) <> 0 /\
  exists m st',
    GetMetersAggregates Sample.url_Values_Encode st = (Ok m, st') /\
    m !! "solar"
    = Some (MeterAggregatesData_of (1700000000 * time.Second)
              (S754_finite false 12288000 (-13))) /\
    m !! "battery" = None /\ m !! "site" = None /\ m !! "load" = None.
Proof.
  intros st.
  assert (Hsite : selectedSiteID (client st) <> 0) by discriminate.
  split; [exact Hsite |].
  destruct (C8_GetMetersAggregates_omits_absent Sample.url_Values_Encode st
              (snd (apiGetJson Sample.url_Values_Encode
                      (A := LiveStatusResponse)
                      (siteEndpoint (selectedSiteID (client st)) "live_status") st))
              liveStatus Hsite)
    as (m & Hm & Hsolar & Hbattery & Hgrid & Hload & _).
  { vm_compute. reflexivity. }
  exists m. eexists. split; [exact Hm |].
  split; [exact Hsolar |]. split; [exact Hbattery |]. split; [exact Hgrid | exact Hload].
Defined.

Lemma C10_soe_run :
  let st := readyState [reply200 "live status without charge"] in
  selectedSiteID (client st) <> 0 /\
  exists soe st',
    GetSOE Sample.url_Values_Encode st = (Ok soe, st') /\
    Percentage soe = float.zero.
Proof.
  intros st.
  assert (Hsite : selectedSiteID (client st) <> 0) by discriminate.
  split; [exact Hsite |].
  destruct (C10_GetSOE_defaults_to_zero Sample.url_Values_Encode st
              (snd (apiGetJson Sample.url_Values_Encode
                      (A := LiveStatusResponse)
                      (siteEndpoint (selectedSiteID (client st)) "live_status") st))
              liveStatusNoCharge Hsite)
    as (soe & Hsoe & Habsent & _).
  { vm_compute. reflexivity. }
  exists soe. eexists. split; [exact Hsoe | exact (Habsent eq_refl)].
Defined.

Lemma C4_refresh_run :
  let st := freshState [reply200 "tokens"] in
  script (world st) = [reply200 "tokens"] /\
  json_Unmarshal (A := tokenResp.t) "tokens" = inr freshTokens /\
  exists st',
    RefreshToken Sample.url_Values_Encode st = (Ok tt, st') /\
    refreshToken (client st') = "refresh-1" /\
    accessToken (client st') = "access-2" /\
    tokenExpiry (client st')
    = 1700000000 * time.Second + 120 * time.Millisecond + 3600 * time.Second.
Proof.
  intros st. split; [reflexivity |]. split; [reflexivity |].
  destruct (C4_RefreshToken_updates_tokens Sample.url_Values_Encode st
              (reply200 "tokens") [] (mkResponse 200 ∅ "tokens") freshTokens
              eq_refl eq_refl eq_refl eq_refl)
    as (st' & Hrun & Hkeep & _ & Haccess & Hclock & _ & Hexpiry & _).
  exists st'. split; [exact Hrun |]. split; [exact (Hkeep eq_refl) |].
  split; [exact Haccess |].
  rewrite Hexpiry by (vm_compute; discriminate). rewrite Hclock. reflexivity.
Defined.

Lemma C2_rate_limited_run :
  let st := readyState [reply429] in
  let endpoint := siteEndpoint 42 "live_status" in
  exists st1,
    fleetExchange Sample.url_Values_Encode "GET" endpoint None st
    = (Ok (FleetAPIBaseURL +:+ endpoint,
           mkResponse 429 {[ "Retry-After" := ["30"] ]} "slow down"), st1) /\
    doFleetRequest Sample.url_Values_Encode "GET" endpoint None st
    = (Err (RateLimitError endpoint 60 0
              (1700000000 * time.Second + 120 * time.Millisecond + 30 * time.Second)
              30), st1).
Proof.
  intros st endpoint.
  exists (snd (fleetExchange Sample.url_Values_Encode "GET" endpoint None st)).
  assert (Hx : fleetExchange Sample.url_Values_Encode "GET" endpoint None st
               = (Ok (FleetAPIBaseURL +:+ endpoint,
                      mkResponse 429 {[ "Retry-After" := ["30"] ]} "slow down"),
                  snd (fleetExchange Sample.url_Values_Encode "GET" endpoint None st))).
  { vm_compute. reflexivity. }
  split; [exact Hx |].
  destruct (C2_doFleetRequest_status_mapping Sample.url_Values_Encode
              "GET" endpoint None st _ _ _ Hx)
    as (_ & _ & _ & H429 & _).
  destruct (H429 eq_refl) as (retryAfter & Hrun & _ & _ & Hscan & _).
  assert (Hn : retryAfter = 30).
  { apply Hscan; [discriminate | reflexivity]. }
  subst retryAfter. exact Hrun.
Defined.

Lemma C9_roundtrip_run :
  GoInt.in_int64 (-5025678000001) /\
  exists p : string,
    Duration.MarshalJSON (Duration.mk (-5025678000001)) = (p, None) /\
    String.length p = 21%nat /\
    Duration.UnmarshalJSON (Duration.mk 0) p = (Duration.mk (-5025678000001), None).
Proof.
  assert (Hd : GoInt.in_int64 (-5025678000001)) by (vm_compute; split; discriminate).
  split; [exact Hd |].
  destruct (C9_Duration_json_roundtrip (-5025678000001) (Duration.mk 0) Hd)
    as (p & Hp & Hback).
  exists p. split; [exact Hp |]. split; [| exact Hback].
  injection Hp as <-. vm_compute. reflexivity.
Defined.

Lemma rateLimitWait_spacing_run :
  RealtimeDataRPM (rateLimitConfig (client sevenPerMinute)) <> 0 /\
  lastRequestTime (client sevenPerMinute) <= clock (world sevenPerMinute) /\
  exists st',
    rateLimitWait sevenPerMinute = (Ok tt, st') /\
    lastRequestTime (client sevenPerMinute) + 8 * time.Second
    <= lastRequestTime (client st').
Proof.
  assert (Hrpm : RealtimeDataRPM (rateLimitConfig (client sevenPerMinute)) <> 0)
    by discriminate.
  assert (Hmono : lastRequestTime (client sevenPerMinute) <= clock (world sevenPerMinute))
    by (vm_compute; discriminate).
  split; [exact Hrpm |]. split; [exact Hmono |].
  destruct (rateLimitWait_spacing sevenPerMinute Hrpm Hmono)
    as (st' & Hrun & _ & _ & Hspaced & _).
  exists st'. split; [exact Hrun | exact Hspaced].
Defined.

Lemma doFleetRequest_valid_token_run :
  let st := readyState [reply200 "products"] in
  RealtimeDataRPM (rateLimitConfig (client st)) <> 0 /\
  clock (world st) + 60 * time.Second + 5 * time.Minute <= tokenExpiry (client st) /\
  exists st',
    doFleetRequest Sample.url_Values_Encode "GET" "/api/1/products" None st
    = (Ok "products", st') /\
    sent (world st')
    = [mkRequest "GET" (FleetAPIBaseURL +:+ "/api/1/products")
         [("Authorization", "Bearer access-1"); ("User-Agent", "go-powerwall/v2.0")]
         None].
Proof.
  intros st.
  assert (Hrpm : RealtimeDataRPM (rateLimitConfig (client st)) <> 0) by discriminate.
  assert (Hmono : lastRequestTime (client st) <= clock (world st))
    by (vm_compute; discriminate).
  assert (Hfresh : clock (world st) + 60 * time.Second + 5 * time.Minute
                   <= tokenExpiry (client st)) by (vm_compute; discriminate).
  split; [exact Hrpm |]. split; [exact Hfresh |].
  destruct (doFleetRequest_valid_token_single_request Sample.url_Values_Encode
              "GET" "/api/1/products" None st (reply200 "products") []
              Hrpm Hmono Hfresh eq_refl)
    as (t & _ & Hsent & _ & _ & _ & Hrun).
  exists (snd (doFleetRequest Sample.url_Values_Encode "GET" "/api/1/products" None st)).
  split; [exact Hrun | exact Hsent].
Defined.

Lemma doFleetRequest_refresh_run :
  let st := freshState [reply200 "tokens"; reply200 "products"] in
  tokenExpiry (client st) < clock (world st) + 5 * time.Minute /\
  exists st',
    doFleetRequest Sample.url_Values_Encode "GET" "/api/1/products" None st
    = (Ok "products", st') /\
    accessToken (client st') = "access-2" /\
    map URL (sent (world st')) = [TokenURL; FleetAPIBaseURL +:+ "/api/1/products"] /\
    map Header (sent (world st'))
    = [[("Content-Type", "application/x-www-form-urlencoded")];
       [("Authorization", "Bearer access-2"); ("User-Agent", "go-powerwall/v2.0")]].
Proof.
  intros st.
  assert (Hrpm : RealtimeDataRPM (rateLimitConfig (client st)) <> 0) by discriminate.
  assert (Hexp : tokenExpiry (client st) < clock (world st) + 5 * time.Minute)
    by (vm_compute; reflexivity).
  split; [exact Hexp |].
  destruct (doFleetRequest_refreshes_expired_token Sample.url_Values_Encode
              "GET" "/api/1/products" None st
              (reply200 "tokens") (reply200 "products") []
              (mkResponse 200 ∅ "tokens") freshTokens
              Hrpm Hexp eq_refl eq_refl eq_refl eq_refl)
    as (Hsent & _ & Htoken & Hrun).
  exists (snd (doFleetRequest Sample.url_Values_Encode "GET" "/api/1/products" None st)).
  split; [exact Hrun |]. split; [exact Htoken |].
  rewrite Hsent. split; reflexivity.
Defined.

Lemma doFleetRequest_refused_refresh_run :
  let st := freshState [reply400; reply200 "products"] in
  tokenExpiry (client st) < clock (world st) + 5 * time.Minute /\
  exists st',
    doFleetRequest Sample.url_Values_Encode "GET" "/api/1/products" None st
    = (Err (TokenExpiredError "refresh"
              (1700000000 * time.Second + 120 * time.Millisecond)), st') /\
    map URL (sent (world st')) = [TokenURL] /\
    script (world st') = [reply200 "products"] /\
    accessToken (client st') = "access-1".
Proof.
  intros st.
  assert (Hrpm : RealtimeDataRPM (rateLimitConfig (client st)) <> 0) by discriminate.
  assert (Hexp : tokenExpiry (client st) < clock (world st) + 5 * time.Minute)
    by (vm_compute; reflexivity).
  split; [exact Hexp |].
  destruct (doFleetRequest_refused_refresh_stops Sample.url_Values_Encode
              "GET" "/api/1/products" None st reply400 [reply200 "products"]
              (mkResponse 400 ∅ "invalid_grant")
              Hrpm Hexp eq_refl eq_refl ltac:(discriminate))
    as (st' & Hrun & Hsent & Hscript & Htoken & _).
  exists st'.
  assert (Hclock : clock (world st')
                   = 1700000000 * time.Second + 120 * time.Millisecond).
  { apply (f_equal snd) in Hrun. cbn [snd] in Hrun. rewrite <- Hrun.
    vm_compute. reflexivity. }
  rewrite Hclock in Hrun.
  split; [exact Hrun |]. split; [rewrite Hsent; reflexivity |].
  split; [exact Hscript | exact Htoken].
Defined.

Lemma NewClient_first_request_run :
  time.zeroTime <= clock (worldWith [reply400]) /\
  exists more : list Request,
    sent (world (snd (doFleetRequest Sample.url_Values_Encode "GET" "/api/1/products" None
                        (freshState [reply400]))))
    = refreshRequest Sample.url_Values_Encode (NewClient "client-id" "access-1" "refresh-1")
        :: more.
Proof.
  assert (Hera : time.zeroTime <= clock (worldWith [reply400]))
    by (vm_compute; discriminate).
  split; [exact Hera |].
  destruct (NewClient_first_request_is_refresh Sample.url_Values_Encode
              "client-id" "access-1" "refresh-1" (worldWith [reply400])
              "GET" "/api/1/products" None Hera)
    as (_ & more & Hsent).
  exists more. exact Hsent.
Defined.

Lemma rateLimitWait_inert_run :
  (60 < RealtimeDataRPM (rateLimitConfig (client fastState))
   \/ RealtimeDataRPM (rateLimitConfig (client fastState)) < 0) /\
  lastRequestTime (client fastState) <= clock (world fastState) /\
  rateLimitWait fastState
  = (Ok tt, mkState (set_lastRequestTime (1700000000 * time.Second) (client fastState))
              (world fastState)).
Proof.
  assert (Hrpm : 60 < RealtimeDataRPM (rateLimitConfig (client fastState))
                 \/ RealtimeDataRPM (rateLimitConfig (client fastState)) < 0)
    by (left; vm_compute; reflexivity).
  assert (Hmono : lastRequestTime (client fastState) <= clock (world fastState))
    by (vm_compute; discriminate).
  split; [exact Hrpm |]. split; [exact Hmono |].
  exact (rateLimitWait_inert_outside_1_to_60 fastState Hrpm Hmono).
Defined.

Lemma doFleetRequest_keeps_spacing_run :
  RealtimeDataRPM (rateLimitConfig (client sevenPerMinute)) <> 0 /\
  lastRequestTime (client sevenPerMinute) <= clock (world sevenPerMinute) /\
  let st' := snd (doFleetRequest Sample.url_Values_Encode "GET" "/api/1/products" None
                    sevenPerMinute) in
  RealtimeDataRPM (rateLimitConfig (client st')) = 7 /\
  lastRequestTime (client st') <= clock (world st') /\
  lastRequestTime (client sevenPerMinute) + 8 * time.Second <= lastRequestTime (client st').
Proof.
  assert (Hrpm : RealtimeDataRPM (rateLimitConfig (client sevenPerMinute)) <> 0)
    by discriminate.
  assert (Hmono : lastRequestTime (client sevenPerMinute) <= clock (world sevenPerMinute))
    by (vm_compute; discriminate).
  split; [exact Hrpm |]. split; [exact Hmono |].
  destruct (doFleetRequest_keeps_spacing Sample.url_Values_Encode
              "GET" "/api/1/products" None sevenPerMinute Hrpm Hmono)
    as (Hcfg & Hle & Hspaced & _).
  cbv zeta. split; [now rewrite Hcfg |]. split; [exact Hle | exact Hspaced].
Defined.

Lemma GetSiteInfo_run :
  let st := readyState [reply200 "site info"] in
  selectedSiteID (client st) <> 0 /\
  exists info st',
    GetSiteInfo Sample.url_Values_Encode st = (Ok info, st') /\
    MaxSiteMeterPowerKW info = 1000000 /\
    MinSiteMeterPowerKW info = -1000000 /\
    SiteName info = "Home".
Proof.
  intros st.
  assert (Hsite : selectedSiteID (client st) <> 0) by discriminate.
  split; [exact Hsite |].
  destruct (GetSiteInfo_truncates_to_kilowatts Sample.url_Values_Encode st
              (snd (apiGetJson Sample.url_Values_Encode
                      (A := SiteInfoResponse)
                      (siteEndpoint (selectedSiteID (client st)) "site_info") st))
              (mkSiteInfoResponse
                 (mkSiteInfo "Home" 11500 "America/Los_Angeles"
                    1000000000 (-1000000000) "PG&E"))
              Hsite)
    as (info & Hrun & Hmax & Hmin & _ & _ & Hname & _).
  { vm_compute. reflexivity. }
  exists info. eexists. split; [exact Hrun |].
  cbv zeta in Hmax, Hmin. cbn [si_Response MaxSiteMeterPowerAC MinSiteMeterPowerAC] in *.
  split; [lia |]. split; [lia | exact Hname].
Defined.

Lemma SetBackupReserve_range_run :
  let st := readyState [reply200 "object"] in
  selectedSiteID (client st) <> 0 /\
  SetBackupReserve Sample.url_Values_Encode Sample.json_Marshal 101 st
  = (Err (PlainError "backup reserve percent must be between 0 and 100, got 101"), st) /\
  SetBackupReserve Sample.url_Values_Encode Sample.json_Marshal (-1) st
  = (Err (PlainError "backup reserve percent must be between 0 and 100, got -1"), st).
Proof.
  intros st.
  assert (Hsite : selectedSiteID (client st) <> 0) by discriminate.
  split; [exact Hsite |].
  destruct (SetBackupReserve_checks_range Sample.url_Values_Encode Sample.json_Marshal
              101 st Hsite) as [Hhigh _].
  destruct (SetBackupReserve_checks_range Sample.url_Values_Encode Sample.json_Marshal
              (-1) st Hsite) as [Hlow _].
  split; [exact (Hhigh (or_intror eq_refl)) | exact (Hlow (or_introl eq_refl))].
Defined.

Lemma SetSiteName_empty_run :
  let st := readyState [reply200 "object"] in
  selectedSiteID (client st) <> 0 /\
  SetSiteName Sample.url_Values_Encode Sample.json_Marshal "" st
  = (Err (PlainError "site name cannot be empty"), st).
Proof.
  intros st.
  assert (Hsite : selectedSiteID (client st) <> 0) by discriminate.
  split; [exact Hsite |].
  exact (proj1 (SetSiteName_rejects_empty Sample.url_Values_Encode Sample.json_Marshal
                  "Home" st Hsite)).
Defined.

Lemma history_kinds_run :
  let st := readyState [reply200 "history"] in
  isPeriod "week" /\
  GetEnergyHistory Sample.url_Values_Encode "2024-01-01" "2024-02-01" "week" [] st
  = GetCalendarHistory Sample.url_Values_Encode "energy" "2024-01-01" "2024-02-01" "week" [] st.
Proof.
  intros st.
  assert (Hp : isPeriod "week") by (right; left; reflexivity).
  split; [exact Hp |].
  exact (proj1 (energy_and_backup_history_are_calendar_history Sample.url_Values_Encode
                  "2024-01-01" "2024-02-01" "week" [] st Hp)).
Defined.

Lemma Retry_After_seconds_run :
  GoInt.in_int64 120 /\
  RespHeader retryIn120 !! "Retry-After" = Some [fmt.Sprintf_d 120] /\
  fleetStatus "/api/1/products" (FleetAPIBaseURL +:+ "/api/1/products") retryIn120
    (readyState [])
  = (Err (RateLimitError "/api/1/products" 60 0
            (1700000000 * time.Second + 120 * time.Second) 120), readyState []).
Proof.
  assert (Hn : GoInt.in_int64 120) by (vm_compute; split; discriminate).
  assert (Hh : RespHeader retryIn120 !! "Retry-After" = Some [fmt.Sprintf_d 120])
    by (vm_compute; reflexivity).
  split; [exact Hn |]. split; [exact Hh |].
  destruct (Retry_After_seconds_are_read_back "/api/1/products"
              (FleetAPIBaseURL +:+ "/api/1/products") retryIn120 (readyState [])
              120 [] Hn eq_refl Hh)
    as (reset & Hrun & _ & Hexact & _).
  rewrite Hrun, (Hexact ltac:(vm_compute; discriminate)). reflexivity.
Defined.

Lemma Retry_After_date_run :
  RespHeader retryAtDate !! "Retry-After"
  = Some [String "W" "ed, 21 Oct 2015 07:28:00 GMT"] /\
  fleetStatus "/api/1/products" (FleetAPIBaseURL +:+ "/api/1/products") retryAtDate
    (readyState [])
  = (Err (RateLimitError "/api/1/products" 60 0
            (1700000000 * time.Second + 60 * time.Second) 60), readyState []).
Proof.
  assert (Hh : RespHeader retryAtDate !! "Retry-After"
               = Some [String "W" "ed, 21 Oct 2015 07:28:00 GMT"])
    by (vm_compute; reflexivity).
  split; [exact Hh |].
  exact (Retry_After_date_falls_back_to_60 "/api/1/products"
           (FleetAPIBaseURL +:+ "/api/1/products") retryAtDate (readyState [])
           "W" "ed, 21 Oct 2015 07:28:00 GMT" [] eq_refl Hh
           ltac:(vm_compute; split; reflexivity) eq_refl
           ltac:(discriminate) ltac:(discriminate)).
Defined.

Lemma Duration_MarshalJSON_injective_run :
  GoInt.in_int64 time.Second /\ GoInt.in_int64 (1001 * time.Millisecond) /\
  Duration.MarshalJSON (Duration.mk time.Second)
  <> Duration.MarshalJSON (Duration.mk (1001 * time.Millisecond)).
Proof.
  assert (H1 : GoInt.in_int64 time.Second) by (vm_compute; split; discriminate).
  assert (H2 : GoInt.in_int64 (1001 * time.Millisecond))
    by (vm_compute; split; discriminate).
  split; [exact H1 |]. split; [exact H2 |].
  exact (Duration_MarshalJSON_injective time.Second (1001 * time.Millisecond)
           H1 H2 ltac:(discriminate)).
Defined.

Lemma Duration_bare_number_run :
  numeric "3600" = true /\
  exists msg,
    Duration.UnmarshalJSON (Duration.mk (90 * time.Second)) "3600"
    = (Duration.mk (90 * time.Second), Some msg).
Proof.
  split; [reflexivity |].
  exact (proj1 (Duration_UnmarshalJSON_rejects_bare_numbers
                  (Duration.mk (90 * time.Second)) "3600" eq_refl ltac:(discriminate))).
Defined.

Lemma DecodedAlert_run :
  json_Unmarshal (A := string) "alert" = inr "entries" /\
  json_Unmarshal (A := list DecodedAlert.entry) "entries" = inr alertEntries /\
  exists m : gmap string any,
    DecodedAlert.UnmarshalJSON None "alert" = (Some m, None) /\
    m !! "PINV_alertID" = Some (AnyString "PINV_a010_canNotCharge") /\
    m !! "PINV_alertType" = Some (AnyString "Warning") /\
    m !! "PINV_alertName" = None.
Proof.
  split; [reflexivity |]. split; [reflexivity |].
  destruct (DecodedAlert_UnmarshalJSON_last_entry_wins None "alert" "entries" eq_refl)
    as (_ & _ & Hlast).
  destruct (Hlast alertEntries ltac:(discriminate) eq_refl) as (m & Hrun & Hm).
  exists m. split; [exact Hrun |].
  rewrite !Hm. repeat split; reflexivity.
Defined.

Lemma GetProducts_run :
  let st := readyState [reply200 "products"] in
  clock (world st) + 60 * time.Second + 5 * time.Minute <= tokenExpiry (client st) /\
  json_Unmarshal (A := ProductsResponse) "products"
  = inr (mkProductsResponse
           [productOf "solar" 1; productOf "vehicle" 2;
            productOf "battery" 3; productOf "vehicle" 4] 4) /\
  exists st',
    GetProducts Sample.url_Values_Encode st
    = (Ok [productOf "solar" 1; productOf "vehicle" 2;
           productOf "battery" 3; productOf "vehicle" 4], st') /\
    sent (world st')
    = [mkRequest "GET" (FleetAPIBaseURL +:+ "/api/1/products")
         [("Authorization", "Bearer access-1"); ("User-Agent", "go-powerwall/v2.0")]
         None].
Proof.
  intros st.
  assert (Hrpm : RealtimeDataRPM (rateLimitConfig (client st)) <> 0) by discriminate.
  assert (Hmono : lastRequestTime (client st) <= clock (world st))
    by (vm_compute; discriminate).
  assert (Hfresh : clock (world st) + 60 * time.Second + 5 * time.Minute
                   <= tokenExpiry (client st)) by (vm_compute; discriminate).
  split; [exact Hfresh |]. split; [reflexivity |].
  destruct (GetProducts_is_one_get Sample.url_Values_Encode st
              (reply200 "products") [] (mkResponse 200 ∅ "products") _
              Hrpm Hmono Hfresh eq_refl eq_refl eq_refl eq_refl)
    as (st' & Hrun & Hsent & _).
  exists st'. split; [exact Hrun | exact Hsent].
Defined.

Lemma SetStormMode_run :
  let st := readyState [reply200 "object"] in
  selectedSiteID (client st) <> 0 /\
  Sample.json_Marshal {[ "enabled" := JBool true ]} = inr "enabled" /\
  exists st',
    SetStormMode Sample.url_Values_Encode Sample.json_Marshal true st = (Ok tt, st') /\
    sent (world st')
    = [mkRequest "POST" (FleetAPIBaseURL +:+ "/api/1/energy_sites/42/storm_mode")
         [("Content-Type", "application/json");
          ("Authorization", "Bearer access-1"); ("User-Agent", "go-powerwall/v2.0")]
         (Some "enabled")].
Proof.
  intros st.
  assert (Hsite : selectedSiteID (client st) <> 0) by discriminate.
  assert (Hrpm : RealtimeDataRPM (rateLimitConfig (client st)) <> 0) by discriminate.
  assert (Hmono : lastRequestTime (client st) <= clock (world st))
    by (vm_compute; discriminate).
  assert (Hfresh : clock (world st) + 60 * time.Second + 5 * time.Minute
                   <= tokenExpiry (client st)) by (vm_compute; discriminate).
  assert (Hdata : Sample.json_Marshal {[ "enabled" := JBool true ]} = inr "enabled")
    by (vm_compute; reflexivity).
  split; [exact Hsite |]. split; [exact Hdata |].
  destruct (SetStormMode_is_one_post Sample.url_Values_Encode Sample.json_Marshal
              true st (reply200 "object") [] (mkResponse 200 ∅ "object") "enabled" ∅
              Hsite Hrpm Hmono Hfresh eq_refl eq_refl eq_refl Hdata eq_refl)
    as (st' & Hrun & Hsent & _).
  exists st'. split; [exact Hrun | exact Hsent].
Defined.

Lemma rateLimitInterval_exact_run :
  0 < 12 /\ (12 | 60) /\
  rateLimitInterval 12 = Some (5 * time.Second).
Proof.
  assert (Hpos : 0 < 12) by reflexivity.
  assert (Hdiv : (12 | 60)) by (exists 5; reflexivity).
  split; [exact Hpos |]. split; [exact Hdiv |].
  destruct (rateLimitInterval_exact 12 Hpos Hdiv) as (d & Hd & Hmul).
  rewrite Hd. f_equal. rewrite Second_value in *. lia.
Defined.

Lemma RefreshToken_lifetime_run :
  let st := freshState [reply200 "tokens"] in
  json_Unmarshal (A := tokenResp.t) "tokens" = inr freshTokens /\
  Z.abs (tokenResp.ExpiresIn freshTokens) <= 9223372036 /\
  exists st',
    RefreshToken Sample.url_Values_Encode st = (Ok tt, st') /\
    IsTokenExpired st' = (Ok false, st').
Proof.
  intros st.
  assert (Hrange : Z.abs (tokenResp.ExpiresIn freshTokens) <= 9223372036)
    by (vm_compute; discriminate).
  split; [reflexivity |]. split; [exact Hrange |].
  destruct (RefreshToken_lifetime_against_margin Sample.url_Values_Encode st
              (reply200 "tokens") [] (mkResponse 200 ∅ "tokens") freshTokens
              eq_refl eq_refl eq_refl eq_refl Hrange)
    as (st' & Hrun & Hexpired).
  exists st'. split; [exact Hrun | exact Hexpired].
Defined.

(** ** Counterexamples beyond the range of a Duration, and for the aggregates *)

(** C2, as stated, fails past 9223372036 seconds: the Retry-After header
    9223372037 is read as it stands, yet the reset time of the error is not
    the clock's time plus that many seconds; it lies some 292 years before
    the clock's reading. *)
Lemma C2_reset_wraps_before_now :
  exists (st1 : State) (reset : time.Time),
    doFleetRequest Sample.url_Values_Encode "GET" (siteEndpoint 42 "live_status") None
      (readyState [reply429Far])
    = (Err (RateLimitError (siteEndpoint 42 "live_status") 60 0 reset 9223372037), st1) /\
    reset = clock (world st1) - 9223372036709551616 /\
    reset < clock (world st1) /\
    reset < clock (world st1) + 9223372037 * time.Second.
Proof.
  eexists. eexists. split; [vm_compute; reflexivity |].
  split; [vm_compute; reflexivity |]. split; vm_compute; reflexivity.
Qed.

(** C4, as stated, fails past 9223372036 seconds: after a successful
    refresh that grants 9223372037 seconds, the stored expiry is not the
    clock's time plus expires_in seconds; it lies some 292 years before the
    clock's reading. *)
Lemma C4_expiry_wraps_before_now :
  exists st' : State,
    RefreshToken (Unmarshal_tokenResp := decodeFarTokens) Sample.url_Values_Encode
      (freshState [reply200 "tokens"])
    = (Ok tt, st') /\
    tokenResp.ExpiresIn farTokens = 9223372037 /\
    tokenExpiry (client st') = clock (world st') - 9223372036709551616 /\
    tokenExpiry (client st') < clock (world st') /\
    tokenExpiry (client st')
    < clock (world st') + tokenResp.ExpiresIn farTokens * time.Second.
Proof.
  eexists. split; [vm_compute; reflexivity |]. split; [reflexivity |].
  split; [vm_compute; reflexivity |]. split; vm_compute; reflexivity.
Qed.

(** C8, as stated, fails on two counts for a response whose grid_power is
    0.1: the map has no entry under grid (the reading is filed under
    site), and the entry's [InstantPower] is not the field's value but the
    nearest float32, 13421773 * 2^-27, which compares unequal to it. *)
Lemma C8_grid_power_rounded_under_site :
  exists (m : gmap string MeterAggregatesData) (st' : State) (e : MeterAggregatesData),
    GetMetersAggregates (Unmarshal_liveStatus := decodeGridOnly) Sample.url_Values_Encode
      (readyState [reply200 "live status"])
    = (Ok m, st') /\
    GridPower (ls_Response gridOnly) = Some tenthOfAWatt /\
    m !! "grid" = None /\
    m !! "site" = Some e /\
    InstantPower e = S754_finite false 13421773 (-27) /\
    SFeqb (InstantPower e) tenthOfAWatt = false /\
    13421773 * 2 ^ 29 <> 7205759403792794.
Proof.
  eexists. eexists. eexists. split; [vm_compute; reflexivity |].
  split; [reflexivity |]. split; [vm_compute; reflexivity |].
  split; [vm_compute; reflexivity |]. split; [vm_compute; reflexivity |].
  split; [vm_compute; reflexivity | discriminate].
Qed.
